(** * cloud-canvas: serverless photo handlers and the optimistic client

    A shallow embedding of the HTTP handlers of [azure-functions/]
    (photos, likes, comments), of the Redis cache helpers they share, and of
    the optimistic like of the React [PhotoContext], followed by the
    properties of the written specification that concern them.

    Conventions of the embedding.
    - A JavaScript string is a [string], one character per UTF-16 code unit;
      only code units below 256 are representable.
    - A JavaScript number that the handlers use as a counter or a page index
      is a [Z]; [NaN] is [None] where [parseInt] can produce it.
    - [new Date().toISOString()] is a [Z] (milliseconds since the epoch):
      fixed-width ISO-8601 strings order lexicographically as the instants
      they denote, which is all the ORDER BY clauses of the queries use.
    - An [async] function is a state transformer over [World] that either
      returns or throws; what it changed before throwing stays changed. *)

From Stdlib Require Import ZArith Lia Ascii String.
From stdpp Require Import base option list gmap strings pretty sorting.

Local Open Scope Z_scope.

(** ** JavaScript strings *)

Module Js.

(** [WhiteSpace] and [LineTerminator] code units below 256, the ones
  [String.prototype.trim] removes. *)
Definition is_ws (c : ascii) : bool :=
let n := nat_of_ascii c in
((9 <=? n) && (n <=? 13) || (n =? 32) || (n =? 160))%nat.

Fixpoint trimStart (s : string) : string :=
match s with
| EmptyString => EmptyString
| String c s' => if is_ws c then trimStart s' else s
end.

Fixpoint trimEnd (s : string) : string :=
match s with
| EmptyString => EmptyString
| String c s' =>
    match trimEnd s' with
    | EmptyString => if is_ws c then EmptyString else String c EmptyString
    | t => String c t
    end
end.

Definition trim (s : string) : string := trimEnd (trimStart s).

(** A string that consists only of whitespace. *)
Fixpoint all_ws (s : string) : bool :=
match s with
| EmptyString => true
| String c s' => is_ws c && all_ws s'
end.

(** [!s] for [s : string | null | undefined]. *)
Definition truthy (o : option string) : bool :=
match o with
| Some s => negb (String.eqb s "")
| None => false
end.

(** [o || d] for an optional string. *)
Definition or_else (o : option string) (d : string) : string :=
if truthy o then default d o else d.

(** [o] when it is truthy: what is left of [o] after [if (!o) return], and
  the value of [o || undefined]. *)
Definition present (o : option string) : option string :=
if truthy o then o else None.

(** [s.split(sep)] for a one-character separator: never empty. *)
Fixpoint split (sep : ascii) (s : string) : list string :=
match s with
| EmptyString => [EmptyString]
| String c s' =>
    if Ascii.eqb c sep then EmptyString :: split sep s'
    else match split sep s' with
         | [] => [String c EmptyString]
         | w :: ws => String c w :: ws
         end
end.

(** [arr.pop()] read as a value: the last element. *)
Definition pop (l : list string) : option string := last l.

(** The value of a digit in a radix up to 16, if it is one. *)
Definition digit_val (radix : Z) (c : ascii) : option Z :=
  let n := Z.of_nat (nat_of_ascii c) in
  let v := if (48 <=? n) && (n <=? 57) then Some (n - 48)
           else if (97 <=? n) && (n <=? 102) then Some (n - 87)
           else if (65 <=? n) && (n <=? 70) then Some (n - 55)
           else None in
  match v with
  | Some d => if d <? radix then Some d else None
  | None => None
  end.

(** Longest prefix of digits, read as a number; [acc] is [None] until a
    digit has been read. *)
Fixpoint digits (radix : Z) (s : string) (acc : option Z) : option Z :=
  match s with
  | EmptyString => acc
  | String c s' =>
      match digit_val radix c with
      | Some d => digits radix s' (Some (radix * default 0 acc + d))
      | None => acc
      end
  end.

(** The unsigned part of [parseInt]: a [0x] or [0X] prefix selects radix
    16, anything else is read in radix 10. *)
Definition parse_unsigned (s : string) : option Z :=
  match s with
  | String "0" (String "x" s') | String "0" (String "X" s') => digits 16 s' None
  | _ => digits 10 s None
  end.

(** [parseInt(s)] with no radix: leading whitespace is skipped, one sign is
    accepted, the digits that follow are read and the rest is ignored; no
    digit at all gives [NaN] ([None]).  The integer read is kept as it is:
    it is the number [parseInt] returns when its magnitude is at most
    2^53 - 1, beyond which JavaScript rounds it, up to [Infinity]. *)
Definition parseInt (s : string) : option Z :=
  match trimStart s with
  | String "-" s' => Z.opp <$> parse_unsigned s'
  | String "+" s' => parse_unsigned s'
  | s' => parse_unsigned s'
  end.

(** Redis glob patterns with [*] and [?]; classes and escapes do not occur
  in the patterns of this program. *)
Fixpoint glob (p s : string) : bool :=
match p with
| EmptyString => String.eqb s ""
| String "*" p' =>
    (fix star (s : string) : bool :=
       glob p' s || match s with
                    | EmptyString => false
                    | String _ s' => star s'
                    end) s
| String "?" p' =>
    match s with
    | EmptyString => false
    | String _ s' => glob p' s'
    end
| String c p' =>
    match s with
    | EmptyString => false
    | String d s' => Ascii.eqb c d && glob p' s'
    end
end.

End Js.

(** ** Documents *)

(** [interface Photo] of the photo handlers.  [creatorId] and [creatorName]
    come from request headers through a non-null assertion, so they may be
    [null]; [caption] comes from an unchecked form field. *)
Record Photo := mkPhoto {
  photo_id : string;
  photo_creatorId : option string;
  photo_creatorName : option string;
  photo_imageUrl : string;
  photo_title : string;
  photo_caption : option string;
  photo_location : option string;
  photo_people : option (list string);
  photo_likes : Z;
  photo_createdAt : Z;
}.

(** [interface Like]. *)
Record Like := mkLike {
  like_id : string;
  like_photoId : string;
  like_userId : string;
  like_createdAt : Z;
}.

(** [interface Comment]. *)
Record Comment := mkComment {
  comment_id : string;
  comment_photoId : string;
  comment_userId : string;
  comment_userName : string;
  comment_userAvatar : option string;
  comment_content : string;
  comment_createdAt : Z;
}.

Definition set_photo_likes (n : Z) (p : Photo) : Photo :=
  mkPhoto (photo_id p) (photo_creatorId p) (photo_creatorName p)
          (photo_imageUrl p) (photo_title p) (photo_caption p)
          (photo_location p) (photo_people p) n (photo_createdAt p).

(** JSON values that travel in response bodies and in the cache. *)
Inductive Payload :=
  | JNum (n : Z)
  | JPhoto (p : Photo)
  | JPhotos (ps : list Photo)
  | JComment (c : Comment)
  | JComments (cs : list Comment)
  | JError (error : string)
  | JLikeStatus (count : Payload) (userHasLiked : bool)
  | JLikeResult (success : bool) (likes : Z).

(** [if (v)] on a parsed JSON value: objects and arrays are truthy, a number
    is truthy unless it is zero. *)
Definition payload_truthy (v : Payload) : bool :=
  match v with
  | JNum n => negb (n =? 0)
  | _ => true
  end.

(** [HttpResponseInit]. *)
Record HttpResponseInit := mkResponse {
  status : Z;
  jsonBody : option Payload;
}.

Definition error_response (code : Z) (msg : string) : HttpResponseInit :=
  mkResponse code (Some (JError msg)).

(** ** The outside world *)

Inductive Container := PHOTOS | LIKES | COMMENTS.

(** The SQL texts of the handlers, by what they select. *)
Inductive Query :=
  | QCountLikes (photoId : string)
  | QLikesOf (photoId userId : string)
  | QPhotosPage (offset limit : option Z)
  | QCommentsOf (photoId : string)
  | QCommentById (id : string).

(** Calls that leave the process.  Each may fail. *)
Inductive Event :=
  | CacheGet (key : string)
  | CacheSetEx (key : string) (ttl : Z)
  | CacheDel (keys : list string)
  | CacheKeys (pattern : string)
  | GetContainer (c : Container)
  | DbRead (c : Container) (id pk : string)
  | DbQuery (c : Container) (q : Query)
  | DbCreate (c : Container) (id : string)
  | DbUpsert (c : Container) (id : string)
  | DbDelete (c : Container) (id pk : string)
  | BlobUpload (fileName : string)
  | BlobDelete (fileName : string).

Definition is_db_access (e : Event) : bool :=
  match e with
  | DbRead _ _ _ | DbQuery _ _ | DbCreate _ _ | DbUpsert _ _ | DbDelete _ _ _ => true
  | _ => false
  end.

(** State of the services the handlers talk to.  [likes_pk] is the partition
    key of the Likes container, which is declared in [lib/cosmos] and is a
    parameter here; Photos are partitioned by [id] and Comments by
    [photoId], as the handlers address them.  [faulty] says which calls
    fail, [trace] records the calls made, [uuids] and [next_uuid] stand for
    [uuidv4], [now] for the clock.  [blob_url] gives the URL the storage
    client reports for a blob name ([blockBlobClient.url]): it is built by
    the SDK from the container URL and the name, which it percent-encodes,
    and is a parameter here. *)
Record World := mkWorld {
  photos : list Photo;
  likes : list Like;
  comments : list Comment;
  likes_pk : Like -> string;
  cache : gmap string (Payload * Z);
  blobs : gmap string (list Z * string);
  blob_url : string -> string;
  uuids : nat -> string;
  next_uuid : nat;
  now : Z;
  faulty : Event -> bool;
  trace : list Event;
}.

Definition set_photos (v : list Photo) (w : World) : World :=
  mkWorld v (likes w) (comments w) (likes_pk w) (cache w) (blobs w)
          (blob_url w) (uuids w) (next_uuid w) (now w) (faulty w) (trace w).
Definition set_likes (v : list Like) (w : World) : World :=
  mkWorld (photos w) v (comments w) (likes_pk w) (cache w) (blobs w)
          (blob_url w) (uuids w) (next_uuid w) (now w) (faulty w) (trace w).
Definition set_comments (v : list Comment) (w : World) : World :=
  mkWorld (photos w) (likes w) v (likes_pk w) (cache w) (blobs w)
          (blob_url w) (uuids w) (next_uuid w) (now w) (faulty w) (trace w).
Definition set_cache (v : gmap string (Payload * Z)) (w : World) : World :=
  mkWorld (photos w) (likes w) (comments w) (likes_pk w) v (blobs w)
          (blob_url w) (uuids w) (next_uuid w) (now w) (faulty w) (trace w).
Definition set_blobs (v : gmap string (list Z * string)) (w : World) : World :=
  mkWorld (photos w) (likes w) (comments w) (likes_pk w) (cache w) v
          (blob_url w) (uuids w) (next_uuid w) (now w) (faulty w) (trace w).
Definition set_next_uuid (v : nat) (w : World) : World :=
  mkWorld (photos w) (likes w) (comments w) (likes_pk w) (cache w) (blobs w)
          (blob_url w) (uuids w) v (now w) (faulty w) (trace w).
Definition set_now (v : Z) (w : World) : World :=
  mkWorld (photos w) (likes w) (comments w) (likes_pk w) (cache w) (blobs w)
          (blob_url w) (uuids w) (next_uuid w) v (faulty w) (trace w).
Definition set_faulty (v : Event -> bool) (w : World) : World :=
  mkWorld (photos w) (likes w) (comments w) (likes_pk w) (cache w) (blobs w)
          (blob_url w) (uuids w) (next_uuid w) (now w) v (trace w).
Definition set_trace (v : list Event) (w : World) : World :=
  mkWorld (photos w) (likes w) (comments w) (likes_pk w) (cache w) (blobs w)
          (blob_url w) (uuids w) (next_uuid w) (now w) (faulty w) v.

(** ** Promises: state and exceptions *)

Inductive Outcome (A : Type) :=
  | Returned (a : A)
  | Thrown.
Arguments Returned {A} a.
Arguments Thrown {A}.

Definition Async (A : Type) : Type := World -> Outcome A * World.

Definition ret {A} (a : A) : Async A := fun w => (Returned a, w).
Definition throw {A} : Async A := fun w => (Thrown, w).
Definition bind {A B} (m : Async A) (k : A -> Async B) : Async B :=
  fun w => match m w with
           | (Returned a, w') => k a w'
           | (Thrown, w') => (Thrown, w')
           end.
Definition get_world : Async World := fun w => (Returned w, w).
Definition modify (f : World -> World) : Async unit := fun w => (Returned tt, f w).

(** [const x = await m; k] and [await m; k]. *)
Notation "x <- m ;; k" := (bind m (fun x => k))
  (at level 100, m at next level, right associativity).
Notation "m ;;; k" := (bind m (fun _ => k))
  (at level 100, right associativity).

(** A call that leaves the process: it is recorded, then fails or not. *)
Definition logged (e : Event) (w : World) : World :=
  set_trace (trace w ++ [e]) w.

Definition call (e : Event) : Async unit :=
  fun w => if faulty w e then (Thrown, logged e w) else (Returned tt, logged e w).

(** [try { body } catch (error) { return 500 }]. *)
Definition try_catch (body : Async HttpResponseInit) (msg : string)
  : World -> HttpResponseInit * World :=
  fun w => match body w with
           | (Returned r, w') => (r, w')
           | (Thrown, w') => (error_response 500 msg, w')
           end.

(** [uuidv4()]: the next identifier of the supply. *)
Definition uuidv4 : Async string :=
  fun w => (Returned (uuids w (next_uuid w)), set_next_uuid (S (next_uuid w)) w).

(** [new Date().toISOString()]. *)
Definition date_now : Async Z := fun w => (Returned (now w), w).

(** ** lib/redis: cache helpers *)

(** The key generators.  A page number is printed by its decimal digits,
    as the template literal prints an integer below 10^21, and [NaN] as
    such. *)
Module CACHE_KEYS.
Definition photo (id : string) : string := "photo:" +:+ id.
Definition photos (page : option Z) : string :=
  "photos:page:" +:+ from_option pretty "NaN" page.
Definition userPhotos (userId : string) : string := "user:" +:+ userId +:+ ":photos".
Definition photoLikes (photoId : string) : string := "photo:" +:+ photoId +:+ ":likes".
Definition photoComments (photoId : string) : string := "photo:" +:+ photoId +:+ ":comments".
End CACHE_KEYS.

(** [cacheGet]: [data ? JSON.parse(data) : null]; the JSON text of a
    stored value is never empty, so a present entry is always parsed. *)
Definition cacheGet (key : string) : Async (option Payload) :=
  call (CacheGet key) ;;;
  w <- get_world ;;
  ret (fst <$> cache w !! key).

(** [cacheSet]: [client.setEx(key, ttlSeconds, JSON.stringify(value))]. *)
Definition cacheSet (key : string) (value : Payload) (ttlSeconds : Z) : Async unit :=
  call (CacheSetEx key ttlSeconds) ;;;
  modify (fun w => set_cache (<[key := (value, ttlSeconds)]> (cache w)) w).

(** [client.del(keys)]. *)
Definition cache_del (keys : list string) : Async unit :=
  call (CacheDel keys) ;;;
  modify (fun w => set_cache (foldr delete (cache w) keys) w).

Definition cacheDelete (key : string) : Async unit := cache_del [key].

(** [client.keys(pattern)]. *)
Definition cache_keys (pattern : string) : Async (list string) :=
  call (CacheKeys pattern) ;;;
  w <- get_world ;;
  ret (List.filter (Js.glob pattern) (elements (dom (cache w)))).

(** [cacheInvalidatePattern]: the matching keys are deleted in one call,
    which is not made when there is none. *)
Definition cacheInvalidatePattern (pattern : string) : Async unit :=
  keys <- cache_keys pattern ;;
  if (0 <? length keys)%nat then cache_del keys else ret tt.

(** ** lib/storage: photo blobs *)

(** [uploadPhoto]: the blob is written under the name given and the URL
    of the blob client is returned. *)
Definition uploadPhoto (fileName : string) (data : list Z) (contentType : string)
  : Async string :=
  call (BlobUpload fileName) ;;;
  modify (fun w => set_blobs (<[fileName := (data, contentType)]> (blobs w)) w) ;;;
  w <- get_world ;;
  ret (blob_url w fileName).

(** [deletePhoto]: [blobClient.deleteIfExists()]. *)
Definition deletePhoto (fileName : string) : Async unit :=
  call (BlobDelete fileName) ;;;
  modify (fun w => set_blobs (delete fileName (blobs w)) w).

(** ** The document store

    A container is a list of documents; a document is addressed by its id
    and the value of its partition key. *)

Section Items.
Context {D : Type} (key : D -> string * string).

Definition addressed (id pk : string) (d : D) : bool :=
  bool_decide (key d = (id, pk)).

(** [container.item(id, pk).read()]: the resource, or [undefined]. *)
Definition item_read (id pk : string) (docs : list D) : option D :=
  List.find (addressed id pk) docs.

(** [container.items.create(d)]: a conflict on an existing address. *)
Definition items_create (d : D) (docs : list D) : option (list D) :=
  if existsb (addressed (key d).1 (key d).2) docs then None
  else Some (docs ++ [d]).

(** [container.items.upsert(d)]. *)
Definition items_upsert (d : D) (docs : list D) : list D :=
  if existsb (addressed (key d).1 (key d).2) docs
  then map (fun x => if addressed (key d).1 (key d).2 x then d else x) docs
  else docs ++ [d].

(** [container.item(id, pk).delete()]: not found on a missing address. *)
Definition item_delete (id pk : string) (docs : list D) : option (list D) :=
  if existsb (addressed id pk) docs
  then Some (List.filter (fun x => negb (addressed id pk x)) docs)
  else None.
End Items.

Definition photo_key (p : Photo) : string * string := (photo_id p, photo_id p).
Definition comment_key (c : Comment) : string * string := (comment_id c, comment_photoId c).
Definition like_key (pk : Like -> string) (l : Like) : string * string := (like_id l, pk l).

(** [getContainer(name)] of [lib/cosmos]: a call to the database service
    that yields the handle of the container. *)
Definition getContainer (c : Container) : Async unit := call (GetContainer c).

(** Apply a store update that may be refused. *)
Definition commit {A} (r : option A) (set : A -> World -> World) : Async unit :=
  match r with
  | Some v => modify (set v)
  | None => throw
  end.

Definition photos_read (id pk : string) : Async (option Photo) :=
  call (DbRead PHOTOS id pk) ;;;
  w <- get_world ;;
  ret (item_read photo_key id pk (photos w)).

Definition photos_create (p : Photo) : Async unit :=
  call (DbCreate PHOTOS (photo_id p)) ;;;
  w <- get_world ;;
  commit (items_create photo_key p (photos w)) set_photos.

Definition photos_upsert (p : Photo) : Async unit :=
  call (DbUpsert PHOTOS (photo_id p)) ;;;
  modify (fun w => set_photos (items_upsert photo_key p (photos w)) w).

Definition photos_delete (id pk : string) : Async unit :=
  call (DbDelete PHOTOS id pk) ;;;
  w <- get_world ;;
  commit (item_delete photo_key id pk (photos w)) set_photos.

Definition likes_create (l : Like) : Async unit :=
  call (DbCreate LIKES (like_id l)) ;;;
  w <- get_world ;;
  commit (items_create (like_key (likes_pk w)) l (likes w)) set_likes.

Definition likes_delete (id pk : string) : Async unit :=
  call (DbDelete LIKES id pk) ;;;
  w <- get_world ;;
  commit (item_delete (like_key (likes_pk w)) id pk (likes w)) set_likes.

Definition comments_create (c : Comment) : Async unit :=
  call (DbCreate COMMENTS (comment_id c)) ;;;
  w <- get_world ;;
  commit (items_create comment_key c (comments w)) set_comments.

Definition comments_delete (id pk : string) : Async unit :=
  call (DbDelete COMMENTS id pk) ;;;
  w <- get_world ;;
  commit (item_delete comment_key id pk (comments w)) set_comments.

(** *** Queries *)

(** [ORDER BY c.createdAt DESC]. *)
Definition newer_first {A} (t : A -> Z) (a b : A) : Prop := t b <= t a.

#[global] Instance newer_first_dec {A} (t : A -> Z) (a b : A) :
  Decision (newer_first t a b).
Proof. unfold newer_first. apply _. Defined.

Definition order_by_createdAt_desc {A} (t : A -> Z) (l : list A) : list A :=
  merge_sort (newer_first t) l.

(** [WHERE c.photoId = @photoId AND c.userId = @userId] *)
Definition likes_of (photoId userId : string) (ls : list Like) : list Like :=
  List.filter (fun l => String.eqb (like_photoId l) photoId
                        && String.eqb (like_userId l) userId) ls.

(** [SELECT VALUE COUNT(1) FROM c WHERE c.photoId = @photoId] *)
Definition count_likes (photoId : string) (ls : list Like) : Z :=
  Z.of_nat (length (List.filter (fun l => String.eqb (like_photoId l) photoId) ls)).

(** [WHERE c.photoId = @photoId ORDER BY c.createdAt DESC] *)
Definition comments_of (photoId : string) (cs : list Comment) : list Comment :=
  order_by_createdAt_desc comment_createdAt
    (List.filter (fun c => String.eqb (comment_photoId c) photoId) cs).

(** [WHERE c.id = @id] *)
Definition comment_by_id (id : string) (cs : list Comment) : list Comment :=
  List.filter (fun c => String.eqb (comment_id c) id) cs.

(** [ORDER BY c.createdAt DESC OFFSET @offset LIMIT @limit]: the store
    refuses an offset or a limit that is not a non-negative integer. *)
Definition photos_page (offset limit : option Z) (ps : list Photo)
  : option (list Photo) :=
  match offset, limit with
  | Some o, Some l =>
      if (0 <=? o) && (0 <=? l)
      then Some (take (Z.to_nat l)
                   (drop (Z.to_nat o)
                      (order_by_createdAt_desc photo_createdAt ps)))
      else None
  | _, _ => None
  end.

Definition query_likes_of (photoId userId : string) : Async (list Like) :=
  call (DbQuery LIKES (QLikesOf photoId userId)) ;;;
  w <- get_world ;;
  ret (likes_of photoId userId (likes w)).

Definition query_count_likes (photoId : string) : Async Z :=
  call (DbQuery LIKES (QCountLikes photoId)) ;;;
  w <- get_world ;;
  ret (count_likes photoId (likes w)).

Definition query_comments_of (photoId : string) : Async (list Comment) :=
  call (DbQuery COMMENTS (QCommentsOf photoId)) ;;;
  w <- get_world ;;
  ret (comments_of photoId (comments w)).

Definition query_comment_by_id (id : string) : Async (list Comment) :=
  call (DbQuery COMMENTS (QCommentById id)) ;;;
  w <- get_world ;;
  ret (comment_by_id id (comments w)).

Definition query_photos_page (offset limit : option Z) : Async (list Photo) :=
  call (DbQuery PHOTOS (QPhotosPage offset limit)) ;;;
  w <- get_world ;;
  match photos_page offset limit (photos w) with
  | Some ps => ret ps
  | None => throw
  end.

(** ** Requests *)

(** The [content] member of a parsed comment body: absent or falsy, a
    string, or a truthy value that is not a string. *)
Inductive ContentField :=
  | ContentFalsy
  | ContentString (s : string)
  | ContentOther.

Record File := mkFile {
  file_name : string;
  file_type : string;
  file_bytes : list Z;
}.

(** The multipart fields [createPhoto] reads; [image], when present, is a
    file part and the others are text parts. *)
Record FormData := mkForm {
  form_image : option File;
  form_title : option string;
  form_caption : option string;
  form_location : option string;
  form_people : option string;
}.

(** [HttpRequest]: [json] and [formData] are [None] when the body does not
    parse, in which case reading them throws.  Header names are lower
    case. *)
Record HttpRequest := mkRequest {
  params : gmap string string;
  headers : gmap string string;
  query : gmap string string;
  json : option ContentField;
  formData : option FormData;
}.

Definition request_json (request : HttpRequest) : Async ContentField :=
  match json request with
  | Some b => ret b
  | None => throw
  end.

Definition request_formData (request : HttpRequest) : Async FormData :=
  match formData request with
  | Some f => ret f
  | None => throw
  end.

(** ** azure-functions/likes *)

(** GET /api/photos/:photoId/likes *)
Definition getLikes (request : HttpRequest) : World -> HttpResponseInit * World :=
  try_catch
    (let userId := headers request !! "x-user-id" in
     match Js.present (params request !! "photoId") with
     | None => ret (error_response 400 "Photo ID required")
     | Some photoId =>
         let cacheKey := CACHE_KEYS.photoLikes photoId in
         cached <- cacheGet cacheKey ;;
         getContainer LIKES ;;;
         likeCount <- match cached with
                      | Some v => ret v
                      | None =>
                          n <- query_count_likes photoId ;;
                          cacheSet cacheKey (JNum n) 60 ;;;
                          ret (JNum n)
                      end ;;
         userHasLiked <- match Js.present userId with
                         | Some userId =>
                             userLikes <- query_likes_of photoId userId ;;
                             ret (0 <? length userLikes)%nat
                         | None => ret false
                         end ;;
         ret (mkResponse 200 (Some (JLikeStatus likeCount userHasLiked)))
     end)
    "Failed to fetch likes".

(** POST /api/photos/:photoId/likes *)
Definition likePhoto (request : HttpRequest) : World -> HttpResponseInit * World :=
  try_catch
    (match Js.present (params request !! "photoId") with
     | None => ret (error_response 400 "Photo ID required")
     | Some photoId =>
     match Js.present (headers request !! "x-user-id") with
     | None => ret (error_response 401 "Not authenticated")
     | Some userId =>
         getContainer PHOTOS ;;;
         r <- photos_read photoId photoId ;;
         match r with
         | None => ret (error_response 404 "Photo not found")
         | Some photo =>
             getContainer LIKES ;;;
             existingLikes <- query_likes_of photoId userId ;;
             if (0 <? length existingLikes)%nat
             then ret (error_response 409 "Already liked")
             else
               id <- uuidv4 ;;
               createdAt <- date_now ;;
               likes_create (mkLike id photoId userId createdAt) ;;;
               let photo := set_photo_likes (photo_likes photo + 1) photo in
               photos_upsert photo ;;;
               cacheDelete (CACHE_KEYS.photoLikes photoId) ;;;
               cacheDelete (CACHE_KEYS.photo photoId) ;;;
               ret (mkResponse 201 (Some (JLikeResult true (photo_likes photo))))
         end
     end end)
    "Failed to like photo".

(** DELETE /api/photos/:photoId/likes *)
Definition unlikePhoto (request : HttpRequest) : World -> HttpResponseInit * World :=
  try_catch
    (match Js.present (params request !! "photoId") with
     | None => ret (error_response 400 "Photo ID required")
     | Some photoId =>
     match Js.present (headers request !! "x-user-id") with
     | None => ret (error_response 401 "Not authenticated")
     | Some userId =>
         getContainer LIKES ;;;
         existingLikes <- query_likes_of photoId userId ;;
         match existingLikes with
         | [] => ret (error_response 404 "Like not found")
         | like :: _ =>
             likes_delete (like_id like) (like_photoId like) ;;;
             getContainer PHOTOS ;;;
             r <- photos_read photoId photoId ;;
             photo <- match r with
                      | Some photo =>
                          let photo :=
                            set_photo_likes (Z.max 0 (photo_likes photo - 1)) photo in
                          photos_upsert photo ;;;
                          ret (Some photo)
                      | None => ret None
                      end ;;
             cacheDelete (CACHE_KEYS.photoLikes photoId) ;;;
             cacheDelete (CACHE_KEYS.photo photoId) ;;;
             ret (mkResponse 200
                    (Some (JLikeResult true (from_option photo_likes 0 photo))))
         end
     end end)
    "Failed to unlike photo".

(** ** azure-functions/photos *)

(** [if (cached)]: a cached value counts when it is truthy. *)
Definition if_cached (cached : option Payload) : option Payload :=
  match cached with
  | Some v => if payload_truthy v then Some v else None
  | None => None
  end.

(** The three constants at the head of [getPhotos]: [page], [limit] and
    [offset = (page - 1) * limit], which is [NaN] when either is. *)
Definition page_of (request : HttpRequest) : option Z :=
  Js.parseInt (Js.or_else (query request !! "page") "1").
Definition limit_of (request : HttpRequest) : option Z :=
  Js.parseInt (Js.or_else (query request !! "limit") "20").
Definition offset_of (request : HttpRequest) : option Z :=
  p ← page_of request; l ← limit_of request; Some ((p - 1) * l).

(** GET /api/photos *)
Definition getPhotos (request : HttpRequest) : World -> HttpResponseInit * World :=
  try_catch
    (let page := page_of request in
     let limit := limit_of request in
     let offset := offset_of request in
     let cacheKey := CACHE_KEYS.photos page in
     cached <- cacheGet cacheKey ;;
     match if_cached cached with
     | Some cached => ret (mkResponse 200 (Some cached))
     | None =>
         getContainer PHOTOS ;;;
         photos <- query_photos_page offset limit ;;
         cacheSet cacheKey (JPhotos photos) 60 ;;;
         ret (mkResponse 200 (Some (JPhotos photos)))
     end)
    "Failed to fetch photos".

(** GET /api/photos/:id *)
Definition getPhoto (request : HttpRequest) : World -> HttpResponseInit * World :=
  try_catch
    (match Js.present (params request !! "id") with
     | None => ret (error_response 400 "Photo ID required")
     | Some id =>
         let cacheKey := CACHE_KEYS.photo id in
         cached <- cacheGet cacheKey ;;
         match if_cached cached with
         | Some cached => ret (mkResponse 200 (Some cached))
         | None =>
             getContainer PHOTOS ;;;
             r <- photos_read id id ;;
             match r with
             | None => ret (error_response 404 "Photo not found")
             | Some photo =>
                 cacheSet cacheKey (JPhoto photo) 300 ;;;
                 ret (mkResponse 200 (Some (JPhoto photo)))
             end
         end
     end)
    "Failed to fetch photo".

(** POST /api/photos *)
Definition createPhoto (request : HttpRequest) : World -> HttpResponseInit * World :=
  try_catch
    (let userId := headers request !! "x-user-id" in
     let userName := headers request !! "x-user-name" in
     let userRole := headers request !! "x-user-role" in
     if negb (bool_decide (userRole = Some "creator"))
     then ret (error_response 403 "Only creators can upload photos")
     else
       formData <- request_formData request ;;
       match form_image formData, Js.present (form_title formData) with
       | Some file, Some title =>
           photoId <- uuidv4 ;;
           let fileName := photoId +:+ "-" +:+ file_name file in
           imageUrl <- uploadPhoto fileName (file_bytes file) (file_type file) ;;
           createdAt <- date_now ;;
           let photo :=
             mkPhoto photoId userId userName imageUrl title
               (form_caption formData)
               (Js.present (form_location formData))
               (map Js.trim <$> (Js.split "," <$> Js.present (form_people formData)))
               0 createdAt in
           getContainer PHOTOS ;;;
           photos_create photo ;;;
           cacheInvalidatePattern "photos:*" ;;;
           ret (mkResponse 201 (Some (JPhoto photo)))
       | _, _ => ret (error_response 400 "Image and title are required")
       end)
    "Failed to create photo".

(** DELETE /api/photos/:id *)
Definition deletePhotoHandler (request : HttpRequest)
  : World -> HttpResponseInit * World :=
  try_catch
    (let userId := headers request !! "x-user-id" in
     let userRole := headers request !! "x-user-role" in
     match Js.present (params request !! "id") with
     | None => ret (error_response 400 "Photo ID required")
     | Some id =>
         getContainer PHOTOS ;;;
         r <- photos_read id id ;;
         match r with
         | None => ret (error_response 404 "Photo not found")
         | Some photo =>
             if negb (bool_decide (photo_creatorId photo = userId))
                && negb (bool_decide (userRole = Some "admin"))
             then ret (error_response 403 "Not authorized to delete this photo")
             else
               match Js.present (Js.pop (Js.split "/" (photo_imageUrl photo))) with
               | Some fileName => deletePhoto fileName
               | None => ret tt
               end ;;;
               photos_delete id id ;;;
               cacheDelete (CACHE_KEYS.photo id) ;;;
               cacheInvalidatePattern "photos:*" ;;;
               ret (mkResponse 204 None)
         end
     end)
    "Failed to delete photo".

(** ** azure-functions/comments *)

(** GET /api/photos/:photoId/comments *)
Definition getComments (request : HttpRequest) : World -> HttpResponseInit * World :=
  try_catch
    (match Js.present (params request !! "photoId") with
     | None => ret (error_response 400 "Photo ID required")
     | Some photoId =>
         let cacheKey := CACHE_KEYS.photoComments photoId in
         cached <- cacheGet cacheKey ;;
         match if_cached cached with
         | Some cached => ret (mkResponse 200 (Some cached))
         | None =>
             getContainer COMMENTS ;;;
             comments <- query_comments_of photoId ;;
             cacheSet cacheKey (JComments comments) 60 ;;;
             ret (mkResponse 200 (Some (JComments comments)))
         end
     end)
    "Failed to fetch comments".

(** POST /api/photos/:photoId/comments *)
Definition createComment (request : HttpRequest) : World -> HttpResponseInit * World :=
  try_catch
    (let userName := headers request !! "x-user-name" in
     let userAvatar := headers request !! "x-user-avatar" in
     match Js.present (params request !! "photoId") with
     | None => ret (error_response 400 "Photo ID required")
     | Some photoId =>
     match Js.present (headers request !! "x-user-id") with
     | None => ret (error_response 401 "Not authenticated")
     | Some userId =>
         body <- request_json request ;;
         match body with
         | ContentFalsy => ret (error_response 400 "Comment content required")
         | ContentOther => throw
         | ContentString content =>
             if negb (Js.truthy (Some content))
                || (String.length (Js.trim content) =? 0)%nat
             then ret (error_response 400 "Comment content required")
             else
               getContainer PHOTOS ;;;
               r <- photos_read photoId photoId ;;
               match r with
               | None => ret (error_response 404 "Photo not found")
               | Some photo =>
                   id <- uuidv4 ;;
                   createdAt <- date_now ;;
                   let comment :=
                     mkComment id photoId userId (Js.or_else userName "Anonymous")
                       (Js.present userAvatar) (Js.trim content) createdAt in
                   getContainer COMMENTS ;;;
                   comments_create comment ;;;
                   cacheDelete (CACHE_KEYS.photoComments photoId) ;;;
                   ret (mkResponse 201 (Some (JComment comment)))
               end
         end
     end end)
    "Failed to create comment".

(** DELETE /api/comments/:id *)
Definition deleteComment (request : HttpRequest) : World -> HttpResponseInit * World :=
  try_catch
    (let userRole := headers request !! "x-user-role" in
     match Js.present (params request !! "id") with
     | None => ret (error_response 400 "Comment ID required")
     | Some commentId =>
     match Js.present (headers request !! "x-user-id") with
     | None => ret (error_response 401 "Not authenticated")
     | Some userId =>
         getContainer COMMENTS ;;;
         found <- query_comment_by_id commentId ;;
         match found with
         | [] => ret (error_response 404 "Comment not found")
         | comment :: _ =>
             if negb (String.eqb (comment_userId comment) userId)
                && negb (bool_decide (userRole = Some "admin"))
             then ret (error_response 403 "Not authorized to delete this comment")
             else
               comments_delete commentId (comment_photoId comment) ;;;
               cacheDelete (CACHE_KEYS.photoComments (comment_photoId comment)) ;;;
               ret (mkResponse 204 None)
         end
     end end)
    "Failed to delete comment".

(** ** contexts/PhotoContext: the optimistic like *)

Module PhotoContext.

(** The client's records ([@/types]), with the members the context and
    the API client read or write. *)
Record Comment := mkComment {
  comment_id : string;
  comment_userId : string;
  comment_userName : string;
  comment_userAvatar : option string;
  comment_content : string;
  comment_createdAt : Z;
}.

Record Photo := mkPhoto {
  id : string;
  url : string;
  thumbnailUrl : string;
  title : string;
  caption : string;
  location : option string;
  people : option (list string);
  creatorId : string;
  creatorName : string;
  creatorAvatar : option string;
  likes : Z;
  likedBy : list string;
  comments : list Comment;
  createdAt : Z;
  tags : list string;
}.

Record User := mkUser {
  user_id : string;
  user_email : string;
  user_name : string;
  user_avatar : option string;
  user_role : string;
}.

(** [{ ...photo, likes, likedBy }] *)
Definition with_likes (n : Z) (by_ : list string) (photo : Photo) : Photo :=
  mkPhoto (id photo) (url photo) (thumbnailUrl photo) (title photo)
          (caption photo) (location photo) (people photo) (creatorId photo)
          (creatorName photo) (creatorAvatar photo) n by_ (comments photo)
          (createdAt photo) (tags photo).

(** [arr.includes(x)] *)
Definition includes (l : list string) (x : string) : bool :=
  existsb (String.eqb x) l.

(** The updater of the optimistic [setPhotos] of [likePhoto]. *)
Definition like_optimistic (userId photoId : string) (prev : list Photo)
  : list Photo :=
  map (fun photo =>
         if String.eqb (id photo) photoId && negb (includes (likedBy photo) userId)
         then with_likes (likes photo + 1) (likedBy photo ++ [userId]) photo
         else photo) prev.

(** The updater of the [setPhotos] in the [catch] of [likePhoto]. *)
Definition like_revert (userId photoId : string) (prev : list Photo)
  : list Photo :=
  map (fun photo =>
         if String.eqb (id photo) photoId
         then with_likes (likes photo - 1)
                (List.filter (fun i => negb (String.eqb i userId)) (likedBy photo))
                photo
         else photo) prev.

(** What the awaited [fetchWithAuth] comes to: a network error, or a
    response, with whether its status is ok and whether its body parses as
    JSON. *)
Inductive Fetch :=
  | NetworkError
  | Response (ok : bool) (json : bool).

(** [photoService.likePhoto] of the API client: [true] when the promise
    resolves, [false] when it rejects ([getAccessToken], awaited before
    it, catches its own errors and never rejects).  Without a configured backend the
    call resolves at once; otherwise [fetchWithAuth] throws on a network
    error or a response that is not ok, and the [response.json()] it
    returns rejects on a body that is not JSON (an empty one, for
    instance). *)
Definition photoService_likePhoto (isAzureConfigured : bool) (net : Fetch) : bool :=
  if negb isAzureConfigured then true
  else match net with
       | NetworkError => false
       | Response ok json => ok && json
       end.

(** [likePhoto(photoId)]: the state right after the call returns to the
    caller (before anything is awaited), and the state once the promise
    has settled, nothing else having touched the list in between. *)
Definition likePhoto_sync (user : option User) (photoId : string)
    (photos : list Photo) : list Photo :=
  match user with
  | None => photos
  | Some u => like_optimistic (user_id u) photoId photos
  end.

Definition likePhoto (user : option User) (photoId : string)
    (isAzureConfigured : bool) (net : Fetch) (photos : list Photo) : list Photo :=
  match user with
  | None => photos
  | Some u =>
      let photos := like_optimistic (user_id u) photoId photos in
      if photoService_likePhoto isAzureConfigured net then photos
      else like_revert (user_id u) photoId photos
  end.

(** The updater of the optimistic [setPhotos] of [unlikePhoto]. *)
Definition unlike_optimistic (userId photoId : string) (prev : list Photo)
  : list Photo :=
  map (fun photo =>
         if String.eqb (id photo) photoId && includes (likedBy photo) userId
         then with_likes (likes photo - 1)
                (List.filter (fun i => negb (String.eqb i userId)) (likedBy photo))
                photo
         else photo) prev.

(** The updater of the [setPhotos] in the [catch] of [unlikePhoto]. *)
Definition unlike_revert (userId photoId : string) (prev : list Photo)
  : list Photo :=
  map (fun photo =>
         if String.eqb (id photo) photoId
         then with_likes (likes photo + 1) (likedBy photo ++ [userId]) photo
         else photo) prev.

(** [photoService.unlikePhoto] and [photoService.deletePhoto]: as
    [photoService.likePhoto], [true] when the promise resolves. *)
Definition photoService_unlikePhoto (isAzureConfigured : bool) (net : Fetch) : bool :=
  if negb isAzureConfigured then true
  else match net with
       | NetworkError => false
       | Response ok json => ok && json
       end.

Definition photoService_deletePhoto (isAzureConfigured : bool) (net : Fetch) : bool :=
  if negb isAzureConfigured then true
  else match net with
       | NetworkError => false
       | Response ok json => ok && json
       end.

(** [unlikePhoto(photoId)], once the promise has settled. *)
Definition unlikePhoto (user : option User) (photoId : string)
    (isAzureConfigured : bool) (net : Fetch) (photos : list Photo) : list Photo :=
  match user with
  | None => photos
  | Some u =>
      let photos := unlike_optimistic (user_id u) photoId photos in
      if photoService_unlikePhoto isAzureConfigured net then photos
      else unlike_revert (user_id u) photoId photos
  end.

(** [{ ...photo, comments }] *)
Definition with_comments (cs : list Comment) (photo : Photo) : Photo :=
  mkPhoto (id photo) (url photo) (thumbnailUrl photo) (title photo)
          (caption photo) (location photo) (people photo) (creatorId photo)
          (creatorName photo) (creatorAvatar photo) (likes photo) (likedBy photo)
          cs (createdAt photo) (tags photo).

(** Two readings of the clock, [Date.now()] for an id and [new Date()] for
    a creation time. *)
Record Clock := mkClock {
  Date_now : Z;
  new_Date : Z;
}.

(** [optimisticComment] of [addComment]. *)
Definition optimisticComment (u : User) (content : string) (clock : Clock) : Comment :=
  mkComment ("comment-" +:+ pretty (Date_now clock)) (user_id u) (user_name u)
            (user_avatar u) content (new_Date clock).

(** The three updaters of [addComment]: the optimistic one, the one that
    puts the saved comment in the place of the optimistic one, and the one
    of the [catch]. *)
Definition comment_add (c : Comment) (photoId : string) (prev : list Photo)
  : list Photo :=
  map (fun photo =>
         if String.eqb (id photo) photoId
         then with_comments (comments photo ++ [c]) photo
         else photo) prev.

Definition comment_confirm (optimisticId : string) (saved : Comment) (u : User)
    (photoId : string) (prev : list Photo) : list Photo :=
  map (fun photo =>
         if String.eqb (id photo) photoId
         then with_comments
                (map (fun c =>
                        if String.eqb (comment_id c) optimisticId
                        then mkComment (comment_id saved) (comment_userId saved)
                               (user_name u) (user_avatar u)
                               (comment_content saved) (comment_createdAt saved)
                        else c) (comments photo))
                photo
         else photo) prev.

Definition comment_drop (optimisticId photoId : string) (prev : list Photo)
  : list Photo :=
  map (fun photo =>
         if String.eqb (id photo) photoId
         then with_comments
                (List.filter (fun c => negb (String.eqb (comment_id c) optimisticId))
                   (comments photo))
                photo
         else photo) prev.

(** What the awaited [fetchWithAuth] of [photoService.addComment] comes
    to: a network error, or a response with its parsed body, if it
    parses. *)
Inductive FetchComment :=
  | CommentNetworkError
  | CommentResponse (ok : bool) (body : option Comment).

(** [photoService.addComment]: the saved comment when the promise
    resolves.  Without a configured backend a comment is made up at once;
    otherwise the body of an ok response is returned as it is. *)
Definition photoService_addComment (isAzureConfigured : bool)
    (userId content : string) (clock : Clock) (net : FetchComment) : option Comment :=
  if negb isAzureConfigured
  then Some (mkComment ("comment-" +:+ pretty (Date_now clock)) userId "Mock User"
               None content (new_Date clock))
  else match net with
       | CommentNetworkError => None
       | CommentResponse ok body => if ok then body else None
       end.

(** [addComment(photoId, content)], once the promise has settled; [clock]
    is read for the optimistic comment and [later] by the API client. *)
Definition addComment (user : option User) (photoId content : string)
    (clock : Clock) (isAzureConfigured : bool) (later : Clock) (net : FetchComment)
    (photos : list Photo) : list Photo :=
  match user with
  | None => photos
  | Some u =>
      let optimistic := optimisticComment u content clock in
      let photos := comment_add optimistic photoId photos in
      match photoService_addComment isAzureConfigured (user_id u) content later net with
      | Some saved => comment_confirm (comment_id optimistic) saved u photoId photos
      | None => comment_drop (comment_id optimistic) photoId photos
      end
  end.

(** [deletePhoto(photoId)]: whether the promise resolves, and the list
    once it has settled. *)
Definition deletePhoto (user : option User) (photoId : string)
    (isAzureConfigured : bool) (net : Fetch) (photos : list Photo)
  : bool * list Photo :=
  match user with
  | None => (false, photos)
  | Some u =>
      if negb (String.eqb (user_role u) "creator") then (false, photos)
      else if photoService_deletePhoto isAzureConfigured net
           then (true, List.filter (fun p => negb (String.eqb (id p) photoId)) photos)
           else (false, photos)
  end.

(** [getPhotoById] and [getPhotosByCreator]. *)
Definition getPhotoById (photos : list Photo) (photoId : string) : option Photo :=
  List.find (fun p => String.eqb (id p) photoId) photos.

Definition getPhotosByCreator (photos : list Photo) (creator : string) : list Photo :=
  List.filter (fun p => String.eqb (creatorId p) creator) photos.

End PhotoContext.

(** ** components/PhotoDetail: the like button *)

Module PhotoDetail.

(** [useState(user ? photo.likedBy.includes(user.id) : false)] *)
Definition isLiked_initial (user : option PhotoContext.User)
    (photo : PhotoContext.Photo) : bool :=
  match user with
  | Some u => PhotoContext.includes (PhotoContext.likedBy photo) (PhotoContext.user_id u)
  | None => false
  end.

(** [handleLike]: the flag of the button and the list of the context once
    the request has settled. *)
Definition handleLike (user : option PhotoContext.User) (photo : PhotoContext.Photo)
    (isLiked : bool) (isAzureConfigured : bool) (net : PhotoContext.Fetch)
    (photos : list PhotoContext.Photo) : bool * list PhotoContext.Photo :=
  match user with
  | None => (isLiked, photos)
  | Some _ =>
      (negb isLiked,
       if isLiked
       then PhotoContext.unlikePhoto user (PhotoContext.id photo)
              isAzureConfigured net photos
       else PhotoContext.likePhoto user (PhotoContext.id photo)
              isAzureConfigured net photos)
  end.

(** [handleSubmitComment]: the comment that is sent, if one is. *)
Definition handleSubmitComment (user : option PhotoContext.User) (comment : string)
  : option string :=
  if negb (Js.truthy (Some (Js.trim comment)))
     || negb (bool_decide (is_Some user))
  then None
  else Some (Js.trim comment).

End PhotoDetail.

(** * Vocabulary of the properties *)

Definition is_store_event (e : Event) : bool :=
  match e with
  | GetContainer _ => true
  | _ => is_db_access e
  end.

Definition is_cache_event (e : Event) : bool :=
  match e with
  | CacheGet _ | CacheSetEx _ _ | CacheDel _ | CacheKeys _ => true
  | _ => false
  end.

Definition is_blob_event (e : Event) : bool :=
  match e with
  | BlobUpload _ | BlobDelete _ => true
  | _ => false
  end.

(** The calls of [cacheDelete] and [cacheInvalidatePattern]. *)
Definition is_invalidation (e : Event) : bool :=
  match e with
  | CacheDel _ | CacheKeys _ => true
  | _ => false
  end.

Definition store_up (w : World) : Prop :=
  ∀ e, is_store_event e = true → faulty w e = false.
Definition cache_up (w : World) : Prop :=
  ∀ e, is_cache_event e = true → faulty w e = false.
Definition blob_up (w : World) : Prop :=
  ∀ e, is_blob_event e = true → faulty w e = false.

(** The calls made between [w] and a later [w'], and the calls a handler
    makes when run in [w], in order. *)
Definition calls_between (w w' : World) : list Event :=
  drop (length (trace w)) (trace w').

Definition calls (run : World → HttpResponseInit * World) (w : World) : list Event :=
  calls_between w (run w).2.

(** The mutation handlers and the status each answers on success. *)
Inductive Mutation :=
  | Like_ | Unlike_ | CreateComment_ | DeleteComment_ | CreatePhoto_ | DeletePhoto_.

Definition handler (m : Mutation) : HttpRequest → World → HttpResponseInit * World :=
  match m with
  | Like_ => likePhoto
  | Unlike_ => unlikePhoto
  | CreateComment_ => createComment
  | DeleteComment_ => deleteComment
  | CreatePhoto_ => createPhoto
  | DeletePhoto_ => deletePhotoHandler
  end.

Definition success_status (m : Mutation) : Z :=
  match m with
  | Like_ | CreateComment_ | CreatePhoto_ => 201
  | Unlike_ => 200
  | DeleteComment_ | DeletePhoto_ => 204
  end.

(** What the three containers hold. *)
Definition store (w : World) : list Photo * list Like * list Comment :=
  (photos w, likes w, comments w).

(** Every stored like count is non-negative. *)
Definition likes_nonneg (w : World) : Prop :=
  Forall (λ p, 0 ≤ photo_likes p) (photos w).




(** [wp m Q w]: run from [w], [m] ends in an outcome and a world that
    satisfy [Q]. *)
Definition wp {A} (m : Async A) (Q : Outcome A → World → Prop) (w : World) : Prop :=
  Q (m w).1 (m w).2.

(** The route parameter a mutation handler requires. *)
Definition id_param (m : Mutation) : string :=
  match m with
  | Like_ | Unlike_ | CreateComment_ => "photoId"
  | DeleteComment_ | DeletePhoto_ => "id"
  | CreatePhoto_ => ""
  end.

(** A comment body whose content is missing, empty or only whitespace. *)
Definition blank_content (c : ContentField) : bool :=
  match c with
  | ContentFalsy => true
  | ContentString s => Js.all_ws s
  | ContentOther => false
  end.

(** The caller may delete a resource owned by [owner]: the caller is the
    owner, or holds the admin role. *)
Definition authorized (owner caller role : option string) : Prop :=
  owner = caller ∨ role = Some "admin".

(** * Vocabulary of further properties *)

(** The read handlers, and the cache key each one reads and may write. *)
Inductive Reader := GetPhotos_ | GetPhoto_ | GetLikes_ | GetComments_.

Definition reader (r : Reader) : HttpRequest → World → HttpResponseInit * World :=
  match r with
  | GetPhotos_ => getPhotos
  | GetPhoto_ => getPhoto
  | GetLikes_ => getLikes
  | GetComments_ => getComments
  end.

Definition read_key (r : Reader) (request : HttpRequest) : option string :=
  match r with
  | GetPhotos_ => Some (CACHE_KEYS.photos (page_of request))
  | GetPhoto_ => CACHE_KEYS.photo <$> Js.present (params request !! "id")
  | GetLikes_ => CACHE_KEYS.photoLikes <$> Js.present (params request !! "photoId")
  | GetComments_ =>
      CACHE_KEYS.photoComments <$> Js.present (params request !! "photoId")
  end.

(** Any of the handlers, and the statuses its code can return. *)
Inductive Handler :=
  | Read_ (r : Reader)
  | Mutate_ (m : Mutation).

Definition run_handler (h : Handler) : HttpRequest → World → HttpResponseInit * World :=
  match h with
  | Read_ r => reader r
  | Mutate_ m => handler m
  end.

Definition statuses (h : Handler) : list Z :=
  match h with
  | Read_ GetPhotos_ => [200; 500]
  | Read_ GetPhoto_ => [200; 400; 404; 500]
  | Read_ GetLikes_ => [200; 400; 500]
  | Read_ GetComments_ => [200; 400; 500]
  | Mutate_ Like_ => [201; 400; 401; 404; 409; 500]
  | Mutate_ Unlike_ => [200; 400; 401; 404; 500]
  | Mutate_ CreateComment_ => [201; 400; 401; 404; 500]
  | Mutate_ DeleteComment_ => [204; 400; 401; 403; 404; 500]
  | Mutate_ CreatePhoto_ => [201; 400; 403; 500]
  | Mutate_ DeletePhoto_ => [204; 400; 403; 404; 500]
  end.

(** A status of the 4xx family: the request was refused. *)
Definition is_refusal (code : Z) : bool := (400 <=? code) && (code <? 500).

(** The Like record and the Comment record a handler builds in [w]. *)
Definition new_like (w : World) (photoId userId : string) : Like :=
  mkLike (uuids w (next_uuid w)) photoId userId (now w).

Definition new_comment (w : World) (request : HttpRequest)
    (photoId userId content : string) : Comment :=
  mkComment (uuids w (next_uuid w)) photoId userId
    (Js.or_else (headers request !! "x-user-name") "Anonymous")
    (Js.present (headers request !! "x-user-avatar"))
    (Js.trim content) (now w).

(** The services and the supplies of a world that no handler changes. *)
Definition same_services (w w' : World) : Prop :=
  faulty w' = faulty w ∧ likes_pk w' = likes_pk w ∧ uuids w' = uuids w
  ∧ now w' = now w ∧ blob_url w' = blob_url w.

(** The blob name and the Photo record [createPhoto] builds in [w]. *)
Definition new_file_name (w : World) (file : File) : string :=
  uuids w (next_uuid w) +:+ "-" +:+ file_name file.

Definition new_photo (w : World) (request : HttpRequest) (form : FormData)
    (file : File) (title : string) : Photo :=
  mkPhoto (uuids w (next_uuid w))
    (headers request !! "x-user-id") (headers request !! "x-user-name")
    (blob_url w (new_file_name w file)) title
    (form_caption form) (Js.present (form_location form))
    (map Js.trim <$> (Js.split "," <$> Js.present (form_people form)))
    0 (now w).

(** No user has two likes on the same photo. *)
Definition one_like_each (w : World) : Prop :=
  NoDup (map (λ l, (like_photoId l, like_userId l)) (likes w)).

(** A history of the service: requests to any of the ten handlers, between
    which the services may change which calls fail and the clock may
    move. *)
Inductive Step :=
  | Request (h : Handler) (request : HttpRequest)
  | Elapse (faults : Event → bool) (time : Z).

Definition run_step (s : Step) (w : World) : World :=
  match s with
  | Request h request => (run_handler h request w).2
  | Elapse faults time => set_now time (set_faulty faults w)
  end.

Definition run_steps (steps : list Step) (w : World) : World :=
  foldl (λ w s, run_step s w) w steps.

(** A comment as it should be stored: it names its photo and its author,
    and its content is trimmed and not empty. *)
Definition comment_ok (c : Comment) : Prop :=
  comment_photoId c ≠ "" ∧ comment_userId c ≠ "" ∧ comment_userName c ≠ ""
  ∧ comment_userAvatar c ≠ Some ""
  ∧ comment_content c ≠ "" ∧ Js.trim (comment_content c) = comment_content c.

Definition comments_ok (w : World) : Prop := Forall comment_ok (comments w).

(** [Number.MAX_SAFE_INTEGER]: up to it the numbers of JavaScript hold every
    integer exactly and print it by its decimal digits, so that [parseInt],
    the arithmetic on its results and the page key are the ones of this
    file. *)
Definition MAX_SAFE_INTEGER : Z := 2 ^ 53 - 1.

(** The mutations on likes and comments. *)
Definition on_likes_or_comments (m : Mutation) : bool :=
  match m with
  | Like_ | Unlike_ | CreateComment_ | DeleteComment_ => true
  | CreatePhoto_ | DeletePhoto_ => false
  end.

(** * Sample data *)

Module Sample.

Definition ada : Photo :=
  mkPhoto "p1" (Some "ada") (Some "Ada") "https://blobs.test/photos/p1-sea.jpg"
          "Sea" (Some "At dawn") None None 1 1000.

Definition like_of_bob : Like := mkLike "l1" "p1" "bob" 1500.

Definition first : Comment :=
  mkComment "c1" "p1" "bob" "Bob" None "Nice" 2000.
Definition second : Comment :=
  mkComment "c2" "p1" "eve" "Eve" None "Lovely" 3000.

(** One photo by ada, liked by bob, with two comments; every service
    answers. *)
Definition world : World :=
  mkWorld [ada] [like_of_bob] [first; second] like_photoId ∅ ∅
          (λ name, "https://blobs.test/photos/" +:+ name)
          (λ n, "uuid-" +:+ pretty n) 0 5000
          (λ _, false) [].

(** The same with the cache unreachable for deletions. *)
Definition world_cache_down : World :=
  set_faulty is_invalidation world.

Definition request (ps hs : list (string * string)) : HttpRequest :=
  mkRequest (list_to_map ps) (list_to_map hs) ∅ None None.

Definition with_json (c : ContentField) (r : HttpRequest) : HttpRequest :=
  mkRequest (params r) (headers r) (query r) (Some c) (formData r).

Definition with_form (f : FormData) (r : HttpRequest) : HttpRequest :=
  mkRequest (params r) (headers r) (query r) (json r) (Some f).

Definition sea : File := mkFile "sea.jpg" "image/jpeg" [255; 216; 255].

Definition upload : FormData :=
  mkForm (Some sea) (Some "Sea") (Some "At dawn") None None.

(** A well-formed upload by a creator that carries no [x-user-id]. *)
Definition anonymous_upload : HttpRequest :=
  with_form upload (request [] [("x-user-role", "creator")]).

Definition like_by_eve : HttpRequest :=
  request [("photoId", "p1")] [("x-user-id", "eve")].

(** The like count of the photo is cached. *)
Definition world_warm : World :=
  set_cache {[ CACHE_KEYS.photoLikes "p1" := (JNum 1, 60) ]} world.

Definition likes_by_bob : HttpRequest :=
  request [("photoId", "p1")] [("x-user-id", "bob")].


(** The client of bob, who has not liked the photo yet. *)
Definition bob : PhotoContext.User :=
  PhotoContext.mkUser "bob" "bob@example.test" "Bob" None "consumer".

Definition feed : list PhotoContext.Photo :=
  [PhotoContext.mkPhoto "p1" "https://blobs.test/photos/p1-sea.jpg"
     "https://blobs.test/photos/p1-sea.jpg" "Sea" "At dawn" None None
     "ada" "Ada" None 2 ["eve"; "dan"] [] 1000 []].

(** Deletions of the first comment that name nobody, by an admin and by
    a caller without a role. *)
Definition anonymous_admin_delete_comment : HttpRequest :=
  request [("id", "c1")] [("x-user-role", "admin")].
Definition anonymous_delete_comment : HttpRequest := request [("id", "c1")] [].

(** A deletion by an admin and a like that name nobody. *)
Definition anonymous_admin_delete : HttpRequest :=
  request [("id", "p1")] [("x-user-role", "admin")].
Definition empty_like : HttpRequest := request [] [].

(** The world after the likes of a photo nobody liked have been counted:
    the count, zero, is cached under [photo:p9:likes], which is also the
    key of the single photo whose id is [p9:likes]. *)
Definition world_counted : World :=
  (getLikes (request [("photoId", "p9")] []) world).2.

Definition photo_named_likes : HttpRequest := request [("id", "p9:likes")] [].

(** A comment by bob, a deletion and an upload by ada. *)
Definition comment_by_bob : HttpRequest :=
  with_json (ContentString "  Well done ")
    (request [("photoId", "p1")] [("x-user-id", "bob")]).
Definition delete_by_ada : HttpRequest :=
  request [("id", "p1")] [("x-user-id", "ada")].
Definition upload_by_ada : HttpRequest :=
  with_form upload
    (request [] [("x-user-id", "ada"); ("x-user-name", "Ada");
                 ("x-user-role", "creator")]).

(** A history in which eve likes the photo three times around an outage
    of the cache and bob takes his like back. *)
Definition busy_day : list Step :=
  [Request (Mutate_ Like_) like_by_eve; Request (Read_ GetLikes_) likes_by_bob;
   Elapse is_invalidation 6000; Request (Mutate_ Like_) like_by_eve;
   Request (Mutate_ Unlike_) likes_by_bob; Elapse (λ _, false) 7000;
   Request (Mutate_ Like_) like_by_eve; Request (Mutate_ DeletePhoto_) delete_by_ada].

(** The database is unreachable; the other services answer. *)
Definition world_store_down : World := set_faulty is_store_event world.

(** Requests for pages of the photo list. *)
Definition page (qs : list (string * string)) : HttpRequest :=
  mkRequest ∅ ∅ (list_to_map qs) None None.

(** The client of eve, who has liked the photo, and a comment of hers
    that carries the id the next optimistic comment will get. *)
Definition eve : PhotoContext.User :=
  PhotoContext.mkUser "eve" "eve@example.test" "Eve" None "creator".

Definition noon : PhotoContext.Clock := PhotoContext.mkClock 7000 7000.

Definition feed_photo : PhotoContext.Photo :=
  PhotoContext.mkPhoto "p1" "https://blobs.test/photos/p1-sea.jpg"
    "https://blobs.test/photos/p1-sea.jpg" "Sea" "At dawn" None None
    "ada" "Ada" None 2 ["eve"; "dan"] [] 1000 [].

(** The deletion, by ada, of the photo her upload creates. *)
Definition delete_upload_by_ada : HttpRequest :=
  request [("id", "uuid-0")] [("x-user-id", "ada")].

(** The first page of the list is cached. *)
Definition world_paged : World :=
  set_cache {[ CACHE_KEYS.photos (Some 1) := (JPhotos [ada], 60) ]} world.

(** A blank comment with and without a caller identity. *)
Definition blank_comment_by_bob : HttpRequest :=
  with_json (ContentString "  ")
    (request [("photoId", "p1")] [("x-user-id", "bob")]).
Definition blank_comment_by_nobody : HttpRequest :=
  with_json (ContentString "  ") (request [("photoId", "p1")] []).

End Sample.

(** * Proofs *)

Arguments item_read : simpl never.
Arguments items_create : simpl never.
Arguments items_upsert : simpl never.
Arguments item_delete : simpl never.
Arguments likes_of : simpl never.
Arguments count_likes : simpl never.
Arguments comments_of : simpl never.
Arguments comment_by_id : simpl never.
Arguments photos_page : simpl never.
Arguments Js.trim : simpl never.
Arguments Js.split : simpl never.
Arguments Js.glob : simpl never.
Arguments Js.present : simpl never.
Arguments if_cached : simpl never.
Arguments page_of : simpl never.
Arguments limit_of : simpl never.
Arguments offset_of : simpl never.
Arguments CACHE_KEYS.photo : simpl never.
Arguments CACHE_KEYS.photos : simpl never.
Arguments CACHE_KEYS.photoLikes : simpl never.
Arguments CACHE_KEYS.photoComments : simpl never.

(** ** Rules for running a handler body *)

Section Wp.
Context {A B : Type}.
Implicit Types (Q : Outcome A → World → Prop) (w : World).

Lemma wp_ret (a : A) Q w : Q (Returned a) w → wp (ret a) Q w.
Proof. done. Qed.

Lemma wp_throw Q w : Q Thrown w → wp throw Q w.
Proof. done. Qed.

Lemma wp_bind (m : Async B) (k : B → Async A) Q w :
  wp m (λ o w', match o with
                | Returned b => wp (k b) Q w'
                | Thrown => Q Thrown w'
                end) w →
  wp (bind m k) Q w.
Proof. unfold wp, bind. destruct (m w) as [[b|] w']; done. Qed.
End Wp.

Lemma wp_call (e : Event) (Q : Outcome unit → World → Prop) (w : World) :
  (faulty w e = true → Q Thrown (logged e w)) →
  (faulty w e = false → Q (Returned tt) (logged e w)) →
  wp (call e) Q w.
Proof. unfold wp, call. destruct (faulty w e); auto. Qed.

Lemma wp_get_world (Q : Outcome World → World → Prop) (w : World) :
  Q (Returned w) w → wp get_world Q w.
Proof. done. Qed.

Lemma wp_modify (f : World → World) (Q : Outcome unit → World → Prop) (w : World) :
  Q (Returned tt) (f w) → wp (modify f) Q w.
Proof. done. Qed.

Lemma wp_uuidv4 (Q : Outcome string → World → Prop) (w : World) :
  Q (Returned (uuids w (next_uuid w))) (set_next_uuid (S (next_uuid w)) w) →
  wp uuidv4 Q w.
Proof. done. Qed.

Lemma wp_date_now (Q : Outcome Z → World → Prop) (w : World) :
  Q (Returned (now w)) w → wp date_now Q w.
Proof. done. Qed.

Lemma wp_try_catch (body : Async HttpResponseInit) (msg : string)
    (Q : HttpResponseInit → World → Prop) (w : World) :
  wp body (λ o w', match o with
                   | Returned r => Q r w'
                   | Thrown => Q (error_response 500 msg) w'
                   end) w →
  Q (try_catch body msg w).1 (try_catch body msg w).2.
Proof. unfold wp, try_catch. destruct (body w) as [[r|] w']; done. Qed.

(** Unfold the function at the head of a computation. *)
Ltac wp_head m :=
  lazymatch m with
  | ?f _ _ _ _ => unfold f
  | ?f _ _ _ => unfold f
  | ?f _ _ => unfold f
  | ?f _ => unfold f
  | ?f => unfold f
  end.

(** One step of a body: a rule for the construct at its head, a case
    distinction where the code branches. *)
Ltac wp_step :=
  lazymatch goal with
  | |- wp (bind _ _) _ _ => apply wp_bind
  | |- wp (ret _) _ _ => apply wp_ret; cbv beta iota
  | |- wp throw _ _ => apply wp_throw; cbv beta iota
  | |- wp (call _) _ _ => apply wp_call; intros ?; cbv beta iota
  | |- wp get_world _ _ => apply wp_get_world; cbv beta iota
  | |- wp (modify _) _ _ => apply wp_modify; cbv beta iota
  | |- wp uuidv4 _ _ => apply wp_uuidv4; cbv beta iota
  | |- wp date_now _ _ => apply wp_date_now; cbv beta iota
  | |- wp (match ?x with _ => _ end) _ _ => destruct x eqn:?
  | |- wp (let _ := _ in _) _ _ => cbv zeta
  | |- wp ?m _ _ => wp_head m
  end.

(** A call that fails although its service is up. *)
Ltac outage :=
  match goal with
  | H : faulty ?w ?e = true, U : store_up ?w |- _ =>
      rewrite U in H by done; discriminate H
  | H : faulty ?w ?e = true, U : cache_up ?w |- _ =>
      rewrite U in H by done; discriminate H
  | H : faulty ?w ?e = true, U : blob_up ?w |- _ =>
      rewrite U in H by done; discriminate H
  end.

(** Two results of the same lookup are the same. *)
Ltac same_lookup :=
  repeat match goal with
  | H1 : ?t = Some ?a, H2 : ?t = Some ?b |- _ =>
      rewrite H1 in H2; injection H2 as H2;
      first [subst b | subst a | idtac]
  end.

(** A test known to go one way that went the other. *)
Ltac clash :=
  match goal with
  | H1 : ?t = true, H2 : ?t = false |- _ => rewrite H1 in H2; discriminate H2
  | H1 : ?t = None, H2 : ?t = Some _ |- _ => rewrite H1 in H2; discriminate H2
  | H1 : ?t = [], H2 : ?t = _ :: _ |- _ => rewrite H1 in H2; discriminate H2
  end.

(** All the paths of a body; the ones that contradict what is known are
    closed. *)
Ltac wp_run :=
  repeat wp_step; cbn in *; try outage; try congruence; same_lookup;
  try clash.

(** A handler, seen through the rule for its [try]/[catch]. *)
Ltac handler_wp h Q :=
  unfold h; apply (wp_try_catch _ _ Q).

(** ** Strings and documents *)

Lemma present_Some (s : string) : s ≠ "" → Js.present (Some s) = Some s.
Proof.
  intros Hs. unfold Js.present, Js.truthy.
  destruct (String.eqb_spec s ""); [contradiction | reflexivity].
Qed.

Lemma present_truthy (o : option string) (s : string) :
  Js.present o = Some s → Js.truthy o = true.
Proof. unfold Js.present. destruct (Js.truthy o); done. Qed.

Lemma present_falsy (o : option string) :
  Js.present o = None → Js.truthy o = false.
Proof. destruct o; unfold Js.present; cbn; [destruct (negb _)|]; done. Qed.

Lemma likes_of_nonempty (P U : string) (ls : list Like) (l : Like) :
  In l ls → like_photoId l = P → like_userId l = U →
  likes_of P U ls ≠ [].
Proof.
  intros Hin HP HU.
  assert (Hl : In l (likes_of P U ls)).
  { unfold likes_of. apply filter_In. split; [done|].
    rewrite HP, HU, !String.eqb_refl. done. }
  intros E. rewrite E in Hl. destruct Hl.
Qed.

Lemma likes_of_empty (P U : string) (ls : list Like) :
  (∀ l, In l ls → ¬ (like_photoId l = P ∧ like_userId l = U)) →
  likes_of P U ls = [].
Proof.
  intros Hno. unfold likes_of.
  destruct (List.filter _ ls) as [|l t] eqn:E; [done|].
  assert (Hl : In l (l :: t)) by (left; done).
  rewrite <- E in Hl. apply filter_In in Hl as [Hin Hb].
  apply andb_true_iff in Hb as [H1 H2].
  apply String.eqb_eq in H1, H2. destruct (Hno l Hin). done.
Qed.

(** ** C4: liking twice *)

(** C4. When a Like record for (P, U) exists and photo P is stored, a like
    request by U for P is answered 409, and neither the Likes nor the Photos
    container changes: no record is created and the like count stays. *)
Theorem like_twice_conflict (w : World) (request : HttpRequest)
    (P U : string) (photo : Photo) (l : Like) :
  params request !! "photoId" = Some P → P ≠ "" →
  headers request !! "x-user-id" = Some U → U ≠ "" →
  item_read photo_key P P (photos w) = Some photo →
  In l (likes w) → like_photoId l = P → like_userId l = U →
  store_up w →
  status (likePhoto request w).1 = 409
  ∧ likes (likePhoto request w).2 = likes w
  ∧ photos (likePhoto request w).2 = photos w.
Proof.
  intros HP HPne HU HUne Hphoto Hin HlP HlU Hup.
  pose proof (likes_of_nonempty P U _ l Hin HlP HlU) as Hne.
  handler_wp likePhoto
    (λ r w', status r = 409 ∧ likes w' = likes w ∧ photos w' = photos w).
  rewrite HP, HU, !present_Some by done.
  wp_run; destruct (likes_of P U (likes w)); done.
Qed.

Lemma like_twice_conflict_witness :
  status (likePhoto (Sample.request [("photoId", "p1")] [("x-user-id", "bob")])
            Sample.world).1 = 409.
Proof.
  refine (proj1 (like_twice_conflict Sample.world _ "p1" "bob" Sample.ada
                   Sample.like_of_bob _ _ _ _ _ _ _ _ _));
    try reflexivity; try discriminate.
  - left; reflexivity.
  - intros e _; reflexivity.
Defined.

(** ** C5: unliking what was never liked *)

(** C5. When no Like record for (P, U) exists, an unlike request by U for P
    is answered 404, and neither the Likes nor the Photos container changes:
    no record is deleted and the like count stays. *)
Theorem unlike_never_liked (w : World) (request : HttpRequest) (P U : string) :
  params request !! "photoId" = Some P → P ≠ "" →
  headers request !! "x-user-id" = Some U → U ≠ "" →
  (∀ l, In l (likes w) → ¬ (like_photoId l = P ∧ like_userId l = U)) →
  store_up w →
  status (unlikePhoto request w).1 = 404
  ∧ likes (unlikePhoto request w).2 = likes w
  ∧ photos (unlikePhoto request w).2 = photos w.
Proof.
  intros HP HPne HU HUne Hno Hup.
  pose proof (likes_of_empty P U _ Hno) as Hnone.
  handler_wp unlikePhoto
    (λ r w', status r = 404 ∧ likes w' = likes w ∧ photos w' = photos w).
  rewrite HP, HU, !present_Some by done.
  wp_run. done.
Qed.

Lemma unlike_never_liked_witness :
  status (unlikePhoto (Sample.request [("photoId", "p1")] [("x-user-id", "eve")])
            Sample.world).1 = 404.
Proof.
  refine (proj1 (unlike_never_liked Sample.world _ "p1" "eve" _ _ _ _ _ _));
    try reflexivity; try discriminate.
  - intros l [<-|[]] [_ H]. discriminate H.
  - intros e _; reflexivity.
Defined.

(** ** C7: blank comments *)

Lemma trimStart_all_ws (s : string) : Js.all_ws s = true → Js.trimStart s = "".
Proof.
  induction s as [|c s IH]; [done|]. simpl.
  intros [Hc Hs]%andb_true_iff. rewrite Hc. auto.
Qed.

Lemma trim_all_ws (s : string) : Js.all_ws s = true → Js.trim s = "".
Proof. intros H. unfold Js.trim. rewrite trimStart_all_ws by done. done. Qed.

(** C7, as the code has it. A comment-creation request whose content is
    missing, empty or only whitespace changes nothing and calls no service.
    It is answered 400 when it carries a caller identity; without one it is
    answered 401, or 400 when the photo id is missing too. *)
Theorem blank_comment_rejected (w : World) (request : HttpRequest)
    (c : ContentField) :
  json request = Some c → blank_content c = true →
  (createComment request w).2 = w
  ∧ status (createComment request w).1
    = if Js.truthy (params request !! "photoId")
         && negb (Js.truthy (headers request !! "x-user-id"))
      then 401 else 400.
Proof.
  intros Hjson Hblank.
  handler_wp createComment
    (λ r w', w' = w
             ∧ status r
               = if Js.truthy (params request !! "photoId")
                    && negb (Js.truthy (headers request !! "x-user-id"))
                 then 401 else 400).
  unfold request_json. rewrite Hjson.
  destruct c as [|s|]; [| |done]; cbn in Hblank.
  all: wp_run;
    try (match goal with H : _ || _ = false |- _ =>
           rewrite trim_all_ws in H by done; cbn in H;
           rewrite orb_true_r in H; discriminate H
         end);
    erewrite ?present_truthy, ?present_falsy by eassumption; done.
Qed.

Lemma blank_comment_rejected_witness :
  status (createComment Sample.blank_comment_by_bob Sample.world).1 = 400.
Proof.
  refine (proj2 (blank_comment_rejected Sample.world
                   Sample.blank_comment_by_bob _ _ _)); reflexivity.
Defined.

(** C7, counterexample. The request carries blank content and no caller
    identity; the handler answers 401, not 400. *)
Lemma blank_comment_unauthenticated :
  json Sample.blank_comment_by_nobody = Some (ContentString "  ")
  ∧ blank_content (ContentString "  ") = true
  ∧ status (createComment Sample.blank_comment_by_nobody Sample.world).1 = 401
  ∧ status (createComment Sample.blank_comment_by_nobody Sample.world).1 ≠ 400.
Proof. vm_compute. repeat split; discriminate. Qed.

(** ** C2: requests without a caller identity *)

(** C2, as the code has it. A request with no [x-user-id] (absent or empty)
    to the like, unlike, create-comment or delete-comment handler changes
    nothing and calls no service; it is answered 401 when the route
    parameter is present and 400 when that is missing too. The create-photo
    and delete-photo handlers have no such check: they never answer 401. *)
Theorem unauthenticated_rejected (m : Mutation) (request : HttpRequest)
    (w : World) :
  Js.truthy (headers request !! "x-user-id") = false →
  match m with
  | CreatePhoto_ | DeletePhoto_ => status (handler m request w).1 ≠ 401
  | _ =>
      (handler m request w).2 = w
      ∧ status (handler m request w).1 =
          if Js.truthy (params request !! id_param m) then 401 else 400
  end.
Proof.
  intros Hanon.
  assert (Hsome : ∀ s, Js.present (headers request !! "x-user-id") ≠ Some s).
  { intros s H%present_truthy. congruence. }
  pose (Q := λ (p : string) (r : HttpResponseInit) (w' : World),
          w' = w
          ∧ status r = if Js.truthy (params request !! p) then 401 else 400).
  destruct m; cbn [handler id_param];
    [ handler_wp likePhoto (Q "photoId") | handler_wp unlikePhoto (Q "photoId")
    | handler_wp createComment (Q "photoId") | handler_wp deleteComment (Q "id")
    | handler_wp createPhoto (λ r (_ : World), status r ≠ 401)
    | handler_wp deletePhotoHandler (λ r (_ : World), status r ≠ 401) ];
    subst Q; wp_run; try done;
    try (exfalso; eapply Hsome; eassumption);
    erewrite ?present_truthy, ?present_falsy by eassumption; done.
Qed.

Lemma unauthenticated_rejected_witness :
  status (likePhoto (Sample.request [("photoId", "p1")] []) Sample.world).1 = 401.
Proof.
  exact (proj2 (unauthenticated_rejected Like_
                  (Sample.request [("photoId", "p1")] []) Sample.world
                  eq_refl)).
Defined.

(** C2, counterexample. None of the three requests carries [x-user-id]. A
    creator's upload is answered 201 and the photo is stored; an admin's
    deletion is answered 204 and the photo is gone; a like without a photo
    id is answered 400. *)
Lemma anonymous_upload_accepted :
  headers Sample.anonymous_upload !! "x-user-id" = None
  ∧ status (createPhoto Sample.anonymous_upload Sample.world).1 = 201
  ∧ map photo_id (photos (createPhoto Sample.anonymous_upload Sample.world).2)
    = ["p1"; "uuid-0"]
  ∧ headers Sample.anonymous_admin_delete !! "x-user-id" = None
  ∧ status (deletePhotoHandler Sample.anonymous_admin_delete Sample.world).1 = 204
  ∧ photos (deletePhotoHandler Sample.anonymous_admin_delete Sample.world).2 = []
  ∧ headers Sample.empty_like !! "x-user-id" = None
  ∧ status (likePhoto Sample.empty_like Sample.world).1 = 400.
Proof. vm_compute. repeat split. Qed.

(** ** C6: who may delete *)

Section ItemsFacts.
Context {D : Type} (key : D → string * string).
Implicit Types (d : D) (docs : list D).

Lemma item_read_addressed id pk docs d :
  item_read key id pk docs = Some d → In d docs ∧ key d = (id, pk).
Proof.
  unfold item_read. intros [Hin Hb]%find_some. split; [done|].
  unfold addressed in Hb. by apply bool_decide_eq_true in Hb.
Qed.

Lemma addressed_exists id pk docs d :
  In d docs → key d = (id, pk) → existsb (addressed key id pk) docs = true.
Proof.
  intros Hin Hk. apply existsb_exists. exists d. split; [done|].
  unfold addressed. by apply bool_decide_eq_true.
Qed.

Lemma item_delete_present id pk docs d :
  In d docs → key d = (id, pk) →
  item_delete key id pk docs
  = Some (List.filter (λ x, negb (addressed key id pk x)) docs).
Proof.
  intros Hin Hk. unfold item_delete.
  by rewrite (addressed_exists id pk docs d).
Qed.

Lemma item_read_deleted id pk docs :
  item_read key id pk (List.filter (λ x, negb (addressed key id pk x)) docs)
  = None.
Proof.
  unfold item_read. induction docs as [|x docs IH]; [done|]. cbn.
  destruct (addressed key id pk x) eqn:E; cbn; [done|]. by rewrite E.
Qed.

Lemma In_deleted id pk docs x :
  In x (List.filter (λ x, negb (addressed key id pk x)) docs)
  ↔ In x docs ∧ key x ≠ (id, pk).
Proof.
  rewrite filter_In. unfold addressed.
  rewrite negb_true_iff, bool_decide_eq_false. done.
Qed.
End ItemsFacts.

Lemma comment_by_id_absent (cs : list Comment) (i : string) :
  (∀ y, In y cs → comment_id y ≠ i) → comment_by_id i cs = [].
Proof.
  unfold comment_by_id. induction cs as [|y cs IH]; intros H; [done|]. cbn.
  destruct (String.eqb_spec (comment_id y) i) as [E|_].
  - destruct (H y); [by left | done].
  - apply IH. intros z Hz. apply H. by right.
Qed.

Lemma comment_by_id_unique (cs : list Comment) (c : Comment) :
  NoDup (map comment_id cs) → In c cs → comment_by_id (comment_id c) cs = [c].
Proof.
  induction cs as [|x cs IH]; intros Hnd Hin; [destruct Hin|].
  cbn in Hnd. apply NoDup_cons in Hnd as [Hx Hnd].
  assert (Hfresh : ∀ y, In y cs → comment_id y ≠ comment_id x).
  { intros y Hy E. apply Hx. rewrite <- E. apply list_elem_of_In, in_map, Hy. }
  unfold comment_by_id in *. cbn.
  destruct Hin as [->|Hin].
  - rewrite String.eqb_refl. f_equal. by apply comment_by_id_absent.
  - destruct (String.eqb_spec (comment_id x) (comment_id c)) as [E|_].
    + destruct (Hfresh c Hin). done.
    + auto.
Qed.

Lemma not_authorized_guard (owner caller role : option string) :
  ¬ authorized owner caller role →
  negb (bool_decide (owner = caller)) && negb (bool_decide (role = Some "admin"))
  = true.
Proof.
  unfold authorized. intros H.
  rewrite andb_true_iff, !negb_true_iff, !bool_decide_eq_false. tauto.
Qed.

Lemma authorized_guard (owner caller role : option string) :
  authorized owner caller role →
  negb (bool_decide (owner = caller)) && negb (bool_decide (role = Some "admin"))
  = false.
Proof.
  unfold authorized. intros H.
  rewrite andb_false_iff, !negb_false_iff, !bool_decide_eq_true. tauto.
Qed.

Lemma delete_photo_authorization (w : World) (request : HttpRequest)
    (id : string) (photo : Photo) :
  params request !! "id" = Some id → id ≠ "" →
  item_read photo_key id id (photos w) = Some photo →
  store_up w → cache_up w → blob_up w →
  let owner := photo_creatorId photo in
  let caller := headers request !! "x-user-id" in
  let role := headers request !! "x-user-role" in
  (authorized owner caller role →
   status (deletePhotoHandler request w).1 = 204
   ∧ item_read photo_key id id (photos (deletePhotoHandler request w).2) = None
   ∧ ∀ p, In p (photos (deletePhotoHandler request w).2)
          ↔ In p (photos w) ∧ photo_id p ≠ id)
  ∧ (¬ authorized owner caller role →
     status (deletePhotoHandler request w).1 = 403
     ∧ store (deletePhotoHandler request w).2 = store w
     ∧ blobs (deletePhotoHandler request w).2 = blobs w).
Proof.
  intros Hid Hne Hphoto Hs Hc Hb. cbv zeta.
  destruct (item_read_addressed _ _ _ _ _ Hphoto) as [Hin Hkey].
  pose proof (item_delete_present photo_key id id _ photo Hin Hkey) as Hdel.
  split; intros Hauth.
  - apply authorized_guard in Hauth.
    handler_wp deletePhotoHandler
      (λ r w', status r = 204
               ∧ item_read photo_key id id (photos w') = None
               ∧ ∀ p, In p (photos w') ↔ In p (photos w) ∧ photo_id p ≠ id).
    rewrite Hid, present_Some by done.
    wp_run;
      (split; [done|]; split; [apply item_read_deleted|]);
      intros p; rewrite In_deleted; unfold photo_key;
      (split; intros [? Hp]; (split; [done|]); congruence).
  - apply not_authorized_guard in Hauth.
    handler_wp deletePhotoHandler
      (λ r w', status r = 403 ∧ store w' = store w ∧ blobs w' = blobs w).
    rewrite Hid, present_Some by done.
    wp_run. done.
Qed.

Lemma NoDup_map_eq {A B} (f : A → B) (l : list A) (x y : A) :
  NoDup (map f l) → In x l → In y l → f x = f y → x = y.
Proof.
  induction l as [|a l IH]; intros Hnd Hx Hy E; [destruct Hx|].
  cbn in Hnd. apply NoDup_cons in Hnd as [Ha Hnd].
  destruct Hx as [->|Hx], Hy as [->|Hy]; auto.
  - destruct Ha. rewrite E. apply list_elem_of_In, in_map, Hy.
  - destruct Ha. rewrite <- E. apply list_elem_of_In, in_map, Hx.
Qed.

Lemma delete_comment_authorization (w : World) (request : HttpRequest)
    (c : Comment) (uid : string) :
  In c (comments w) → NoDup (map comment_id (comments w)) →
  params request !! "id" = Some (comment_id c) → comment_id c ≠ "" →
  headers request !! "x-user-id" = Some uid → uid ≠ "" →
  store_up w → cache_up w →
  (authorized (Some (comment_userId c)) (Some uid) (headers request !! "x-user-role") →
   status (deleteComment request w).1 = 204
   ∧ ∀ x, In x (comments (deleteComment request w).2)
          ↔ In x (comments w) ∧ x ≠ c)
  ∧ (¬ authorized (Some (comment_userId c)) (Some uid)
         (headers request !! "x-user-role") →
     status (deleteComment request w).1 = 403
     ∧ store (deleteComment request w).2 = store w).
Proof.
  intros Hin Hnd Hid Hne Hu Hune Hs Hc.
  pose proof (comment_by_id_unique _ _ Hnd Hin) as Hfound.
  pose proof (item_delete_present comment_key (comment_id c) (comment_photoId c)
                _ c Hin eq_refl) as Hdel.
  assert (Hguard : ∀ b,
    negb (comment_userId c =? uid)%string
    && negb (bool_decide (headers request !! "x-user-role" = Some "admin")) = b →
    if b then ¬ authorized (Some (comment_userId c)) (Some uid)
                  (headers request !! "x-user-role")
    else authorized (Some (comment_userId c)) (Some uid)
           (headers request !! "x-user-role")).
  { intros b <-. unfold authorized.
    destruct (String.eqb_spec (comment_userId c) uid) as [->|Hneq]; cbn.
    - by left.
    - case_bool_decide; cbn; [by right|]. intros [[=]|]; done. }
  split; intros Hauth.
  - handler_wp deleteComment
      (λ r w', status r = 204 ∧ ∀ x, In x (comments w') ↔ In x (comments w) ∧ x ≠ c).
    rewrite Hid, Hu, !present_Some by done.
    wp_run;
      repeat match goal with
      | H : comment_by_id _ _ = _ |- _ => rewrite Hfound in H; inversion H; subst; clear H
      | H : _ && _ = true |- _ => apply Hguard in H; contradiction
      | H : item_delete _ _ _ _ = _ |- _ => rewrite Hdel in H; inversion H; subst; clear H
      end.
    all: split; [done|]; intros x; rewrite In_deleted; unfold comment_key.
    all: split; intros [Hx Hk]; (split; [done|]).
    all: try (intros ->; by destruct Hk).
    all: intros E; apply Hk;
      apply (NoDup_map_eq comment_id (comments w)); try done; congruence.
  - handler_wp deleteComment (λ r w', status r = 403 ∧ store w' = store w).
    rewrite Hid, Hu, !present_Some by done.
    wp_run;
      repeat match goal with
      | H : comment_by_id _ _ = _ |- _ => rewrite Hfound in H; inversion H; subst; clear H
      | H : _ && _ = false |- _ => apply Hguard in H; contradiction
      end.
    done.
Qed.

Lemma delete_comment_unauthenticated (w : World) (request : HttpRequest)
    (id : string) :
  params request !! "id" = Some id → id ≠ "" →
  Js.present (headers request !! "x-user-id") = None →
  status (deleteComment request w).1 = 401
  ∧ store (deleteComment request w).2 = store w.
Proof.
  intros Hid Hne Hnone.
  handler_wp deleteComment (λ r w', status r = 401 ∧ store w' = store w).
  rewrite Hid, present_Some by done.
  wp_run; done.
Qed.

(** C6. For a stored photo and every caller, with or without an identity:
    when the caller's id is the recorded owner's or the caller holds the
    admin role, the delete handler answers 204 and the photo, and only it,
    leaves its container; in every other case it answers 403 and the
    containers stay as they were. For a stored comment the same holds of
    every caller that has an identity; a caller without one is answered
    401, whatever the role, and the containers stay as they were. *)
Theorem delete_authorization (w : World) (request : HttpRequest) :
  store_up w → cache_up w → blob_up w →
  (∀ id photo,
     params request !! "id" = Some id → id ≠ "" →
     item_read photo_key id id (photos w) = Some photo →
     (authorized (photo_creatorId photo) (headers request !! "x-user-id")
        (headers request !! "x-user-role") →
      status (deletePhotoHandler request w).1 = 204
      ∧ item_read photo_key id id (photos (deletePhotoHandler request w).2) = None
      ∧ ∀ p, In p (photos (deletePhotoHandler request w).2)
             ↔ In p (photos w) ∧ photo_id p ≠ id)
     ∧ (¬ authorized (photo_creatorId photo) (headers request !! "x-user-id")
            (headers request !! "x-user-role") →
        status (deletePhotoHandler request w).1 = 403
        ∧ store (deletePhotoHandler request w).2 = store w))
  ∧ (∀ c,
       In c (comments w) → NoDup (map comment_id (comments w)) →
       params request !! "id" = Some (comment_id c) → comment_id c ≠ "" →
       (∀ uid,
          headers request !! "x-user-id" = Some uid → uid ≠ "" →
          (authorized (Some (comment_userId c)) (Some uid)
             (headers request !! "x-user-role") →
           status (deleteComment request w).1 = 204
           ∧ ∀ x, In x (comments (deleteComment request w).2)
                  ↔ In x (comments w) ∧ x ≠ c)
          ∧ (¬ authorized (Some (comment_userId c)) (Some uid)
                 (headers request !! "x-user-role") →
             status (deleteComment request w).1 = 403
             ∧ store (deleteComment request w).2 = store w))
       ∧ (Js.present (headers request !! "x-user-id") = None →
          status (deleteComment request w).1 = 401
          ∧ store (deleteComment request w).2 = store w)).
Proof.
  intros Hs Hc Hb. split.
  - intros id photo Hid Hne Hphoto.
    destruct (delete_photo_authorization w request id photo Hid Hne Hphoto Hs Hc Hb)
      as [Hyes Hno].
    split; [done|].
    intros H. destruct (Hno H) as (? & ? & ?). done.
  - intros c Hin Hnd Hid Hne. split.
    + intros uid Hu Hune. by apply delete_comment_authorization.
    + by apply (delete_comment_unauthenticated w request (comment_id c)).
Qed.

Lemma delete_authorization_witness :
  status (deleteComment (Sample.request [("id", "c1")] [("x-user-id", "bob")])
            Sample.world).1 = 204
  ∧ status (deletePhotoHandler (Sample.request [("id", "p1")] [("x-user-id", "bob")])
              Sample.world).1 = 403.
Proof.
  assert (Hup : ∀ e : Event, faulty Sample.world e = false) by reflexivity.
  split.
  - refine (proj1 (proj1 (proj1 (proj2 (delete_authorization Sample.world
              (Sample.request [("id", "c1")] [("x-user-id", "bob")])
              _ _ _) Sample.first _ _ eq_refl _) "bob" eq_refl _) _));
      try (intros e _; apply Hup); try discriminate.
    + left; reflexivity.
    + apply (bool_decide_unpack _). vm_compute. exact I.
    + left; reflexivity.
  - refine (proj1 (proj2 (proj1 (delete_authorization Sample.world
              (Sample.request [("id", "p1")] [("x-user-id", "bob")])
              _ _ _) "p1" Sample.ada eq_refl _ eq_refl) _));
      try (intros e _; apply Hup); try discriminate.
    intros [H|H]; discriminate H.
Defined.

(** C6, counterexample. The comment [c1] is stored and the caller holds the
    admin role but carries no [x-user-id]: the deletion is not performed,
    the answer is 401 and the comment stays. A caller with neither an
    identity nor the admin role is answered 401 too, not 403. *)
Lemma anonymous_admin_keeps_comment :
  comment_by_id "c1" (comments Sample.world) = [Sample.first]
  ∧ headers Sample.anonymous_admin_delete_comment !! "x-user-role" = Some "admin"
  ∧ headers Sample.anonymous_admin_delete_comment !! "x-user-id" = None
  ∧ status (deleteComment Sample.anonymous_admin_delete_comment Sample.world).1 = 401
  ∧ comments (deleteComment Sample.anonymous_admin_delete_comment Sample.world).2
    = comments Sample.world
  ∧ headers Sample.anonymous_delete_comment !! "x-user-role" = None
  ∧ headers Sample.anonymous_delete_comment !! "x-user-id" = None
  ∧ status (deleteComment Sample.anonymous_delete_comment Sample.world).1 = 401.
Proof. vm_compute. repeat split. Qed.

(** ** C8: cache-backed reads *)

Lemma if_cached_hit (w : World) (key : string) (v : Payload) (ttl : Z) :
  cache w !! key = Some (v, ttl) → payload_truthy v = true →
  if_cached (fst <$> cache w !! key) = Some v.
Proof. intros -> Hv. unfold if_cached. cbn. by rewrite Hv. Qed.

(** A truthy cached page is returned after the one cache read. *)
Lemma getPhotos_hit (w : World) (request : HttpRequest) (v : Payload) (ttl : Z) :
  cache w !! CACHE_KEYS.photos (page_of request) = Some (v, ttl) →
  payload_truthy v = true →
  faulty w (CacheGet (CACHE_KEYS.photos (page_of request))) = false →
  (getPhotos request w).1 = mkResponse 200 (Some v)
  ∧ (getPhotos request w).2 = logged (CacheGet (CACHE_KEYS.photos (page_of request))) w.
Proof.
  intros Hc Hv Hup. pose proof (if_cached_hit _ _ _ _ Hc Hv) as Hhit.
  handler_wp getPhotos
    (λ r w', r = mkResponse 200 (Some v)
             ∧ w' = logged (CacheGet (CACHE_KEYS.photos (page_of request))) w).
  wp_run. done.
Qed.

Lemma getPhoto_hit (w : World) (request : HttpRequest) (id : string)
    (v : Payload) (ttl : Z) :
  params request !! "id" = Some id → id ≠ "" →
  cache w !! CACHE_KEYS.photo id = Some (v, ttl) →
  payload_truthy v = true →
  faulty w (CacheGet (CACHE_KEYS.photo id)) = false →
  (getPhoto request w).1 = mkResponse 200 (Some v)
  ∧ (getPhoto request w).2 = logged (CacheGet (CACHE_KEYS.photo id)) w.
Proof.
  intros Hid Hne Hc Hv Hup. pose proof (if_cached_hit _ _ _ _ Hc Hv) as Hhit.
  handler_wp getPhoto
    (λ r w', r = mkResponse 200 (Some v)
             ∧ w' = logged (CacheGet (CACHE_KEYS.photo id)) w).
  rewrite Hid, present_Some by done.
  wp_run. done.
Qed.

Lemma getComments_hit (w : World) (request : HttpRequest) (photoId : string)
    (v : Payload) (ttl : Z) :
  params request !! "photoId" = Some photoId → photoId ≠ "" →
  cache w !! CACHE_KEYS.photoComments photoId = Some (v, ttl) →
  payload_truthy v = true →
  faulty w (CacheGet (CACHE_KEYS.photoComments photoId)) = false →
  (getComments request w).1 = mkResponse 200 (Some v)
  ∧ (getComments request w).2
    = logged (CacheGet (CACHE_KEYS.photoComments photoId)) w.
Proof.
  intros Hid Hne Hc Hv Hup. pose proof (if_cached_hit _ _ _ _ Hc Hv) as Hhit.
  handler_wp getComments
    (λ r w', r = mkResponse 200 (Some v)
             ∧ w' = logged (CacheGet (CACHE_KEYS.photoComments photoId)) w).
  rewrite Hid, present_Some by done.
  wp_run. done.
Qed.

(** A cached like count is the count of the answer, whatever it is; the
    count query is not run, and the store is queried only for the like of
    the caller, when the request names one. *)
Lemma getLikes_hit (w : World) (request : HttpRequest) (photoId : string)
    (v : Payload) (ttl : Z) :
  params request !! "photoId" = Some photoId → photoId ≠ "" →
  cache w !! CACHE_KEYS.photoLikes photoId = Some (v, ttl) →
  faulty w (CacheGet (CACHE_KEYS.photoLikes photoId)) = false →
  store_up w →
  match Js.present (headers request !! "x-user-id") with
  | None =>
      (getLikes request w).1 = mkResponse 200 (Some (JLikeStatus v false))
      ∧ (getLikes request w).2
        = logged (GetContainer LIKES)
            (logged (CacheGet (CACHE_KEYS.photoLikes photoId)) w)
  | Some userId =>
      (getLikes request w).1
      = mkResponse 200
          (Some (JLikeStatus v (0 <? length (likes_of photoId userId (likes w)))%nat))
      ∧ (getLikes request w).2
        = logged (DbQuery LIKES (QLikesOf photoId userId))
            (logged (GetContainer LIKES)
               (logged (CacheGet (CACHE_KEYS.photoLikes photoId)) w))
  end.
Proof.
  intros Hid Hne Hc Hget Hup.
  destruct (Js.present (headers request !! "x-user-id")) as [userId|] eqn:Hu.
  - handler_wp getLikes
      (λ r w',
         r = mkResponse 200
               (Some (JLikeStatus v (0 <? length (likes_of photoId userId (likes w)))%nat))
         ∧ w' = logged (DbQuery LIKES (QLikesOf photoId userId))
                  (logged (GetContainer LIKES)
                     (logged (CacheGet (CACHE_KEYS.photoLikes photoId)) w))).
    rewrite Hid, Hu, present_Some by done.
    wp_run; rewrite Hc in *; cbn in *; simplify_eq; done.
  - handler_wp getLikes
      (λ r w',
         r = mkResponse 200 (Some (JLikeStatus v false))
         ∧ w' = logged (GetContainer LIKES)
                  (logged (CacheGet (CACHE_KEYS.photoLikes photoId)) w)).
    rewrite Hid, Hu, present_Some by done.
    wp_run; rewrite Hc in *; cbn in *; simplify_eq; done.
Qed.

(** On a miss the page is queried, cached for 60 seconds and returned. *)
Lemma getPhotos_miss (w : World) (request : HttpRequest) (ps : list Photo) :
  if_cached (fst <$> cache w !! CACHE_KEYS.photos (page_of request)) = None →
  photos_page (offset_of request) (limit_of request) (photos w) = Some ps →
  cache_up w → store_up w →
  (getPhotos request w).1 = mkResponse 200 (Some (JPhotos ps))
  ∧ (getPhotos request w).2
    = set_cache (<[CACHE_KEYS.photos (page_of request) := (JPhotos ps, 60)]> (cache w))
        (logged (CacheSetEx (CACHE_KEYS.photos (page_of request)) 60)
           (logged (DbQuery PHOTOS (QPhotosPage (offset_of request) (limit_of request)))
              (logged (GetContainer PHOTOS)
                 (logged (CacheGet (CACHE_KEYS.photos (page_of request))) w)))).
Proof.
  intros Hmiss Hpage Hc Hs.
  handler_wp getPhotos
    (λ r w',
       r = mkResponse 200 (Some (JPhotos ps))
       ∧ w' = set_cache (<[CACHE_KEYS.photos (page_of request) := (JPhotos ps, 60)]> (cache w))
                (logged (CacheSetEx (CACHE_KEYS.photos (page_of request)) 60)
                   (logged (DbQuery PHOTOS (QPhotosPage (offset_of request) (limit_of request)))
                      (logged (GetContainer PHOTOS)
                         (logged (CacheGet (CACHE_KEYS.photos (page_of request))) w))))).
  wp_run. done.
Qed.

(** On a miss a stored photo is read, cached for 300 seconds and returned. *)
Lemma getPhoto_miss (w : World) (request : HttpRequest) (id : string)
    (photo : Photo) :
  params request !! "id" = Some id → id ≠ "" →
  if_cached (fst <$> cache w !! CACHE_KEYS.photo id) = None →
  item_read photo_key id id (photos w) = Some photo →
  cache_up w → store_up w →
  (getPhoto request w).1 = mkResponse 200 (Some (JPhoto photo))
  ∧ (getPhoto request w).2
    = set_cache (<[CACHE_KEYS.photo id := (JPhoto photo, 300)]> (cache w))
        (logged (CacheSetEx (CACHE_KEYS.photo id) 300)
           (logged (DbRead PHOTOS id id)
              (logged (GetContainer PHOTOS)
                 (logged (CacheGet (CACHE_KEYS.photo id)) w)))).
Proof.
  intros Hid Hne Hmiss Hphoto Hc Hs.
  handler_wp getPhoto
    (λ r w',
       r = mkResponse 200 (Some (JPhoto photo))
       ∧ w' = set_cache (<[CACHE_KEYS.photo id := (JPhoto photo, 300)]> (cache w))
                (logged (CacheSetEx (CACHE_KEYS.photo id) 300)
                   (logged (DbRead PHOTOS id id)
                      (logged (GetContainer PHOTOS)
                         (logged (CacheGet (CACHE_KEYS.photo id)) w))))).
  rewrite Hid, present_Some by done.
  wp_run. done.
Qed.

(** On a miss a photo that is not stored gives 404 and no cache write. *)
Lemma getPhoto_absent (w : World) (request : HttpRequest) (id : string) :
  params request !! "id" = Some id → id ≠ "" →
  if_cached (fst <$> cache w !! CACHE_KEYS.photo id) = None →
  item_read photo_key id id (photos w) = None →
  cache_up w → store_up w →
  status (getPhoto request w).1 = 404
  ∧ (getPhoto request w).2
    = logged (DbRead PHOTOS id id)
        (logged (GetContainer PHOTOS)
           (logged (CacheGet (CACHE_KEYS.photo id)) w)).
Proof.
  intros Hid Hne Hmiss Hphoto Hc Hs.
  handler_wp getPhoto
    (λ r w',
       status r = 404
       ∧ w' = logged (DbRead PHOTOS id id)
                (logged (GetContainer PHOTOS)
                   (logged (CacheGet (CACHE_KEYS.photo id)) w))).
  rewrite Hid, present_Some by done.
  wp_run. done.
Qed.

(** On a miss the comments are queried, cached for 60 seconds and
    returned. *)
Lemma getComments_miss (w : World) (request : HttpRequest) (photoId : string) :
  params request !! "photoId" = Some photoId → photoId ≠ "" →
  if_cached (fst <$> cache w !! CACHE_KEYS.photoComments photoId) = None →
  cache_up w → store_up w →
  (getComments request w).1
  = mkResponse 200 (Some (JComments (comments_of photoId (comments w))))
  ∧ (getComments request w).2
    = set_cache (<[CACHE_KEYS.photoComments photoId
                   := (JComments (comments_of photoId (comments w)), 60)]> (cache w))
        (logged (CacheSetEx (CACHE_KEYS.photoComments photoId) 60)
           (logged (DbQuery COMMENTS (QCommentsOf photoId))
              (logged (GetContainer COMMENTS)
                 (logged (CacheGet (CACHE_KEYS.photoComments photoId)) w)))).
Proof.
  intros Hid Hne Hmiss Hc Hs.
  handler_wp getComments
    (λ r w',
       r = mkResponse 200 (Some (JComments (comments_of photoId (comments w))))
       ∧ w' = set_cache (<[CACHE_KEYS.photoComments photoId
                           := (JComments (comments_of photoId (comments w)), 60)]> (cache w))
                (logged (CacheSetEx (CACHE_KEYS.photoComments photoId) 60)
                   (logged (DbQuery COMMENTS (QCommentsOf photoId))
                      (logged (GetContainer COMMENTS)
                         (logged (CacheGet (CACHE_KEYS.photoComments photoId)) w))))).
  rewrite Hid, present_Some by done.
  wp_run. done.
Qed.

(** On a miss the likes are counted, the count is cached for 60 seconds and
    returned. *)
Lemma getLikes_miss (w : World) (request : HttpRequest) (photoId : string) :
  params request !! "photoId" = Some photoId → photoId ≠ "" →
  cache w !! CACHE_KEYS.photoLikes photoId = None →
  cache_up w → store_up w →
  ∃ userHasLiked,
    (getLikes request w).1
    = mkResponse 200
        (Some (JLikeStatus (JNum (count_likes photoId (likes w))) userHasLiked))
    ∧ cache (getLikes request w).2
      = <[CACHE_KEYS.photoLikes photoId := (JNum (count_likes photoId (likes w)), 60)]>
          (cache w)
    ∧ store (getLikes request w).2 = store w
    ∧ In (DbQuery LIKES (QCountLikes photoId)) (trace (getLikes request w).2).
Proof.
  intros Hid Hne Hmiss Hc Hs.
  handler_wp getLikes
    (λ r w',
       ∃ userHasLiked,
         r = mkResponse 200
               (Some (JLikeStatus (JNum (count_likes photoId (likes w))) userHasLiked))
         ∧ cache w'
           = <[CACHE_KEYS.photoLikes photoId := (JNum (count_likes photoId (likes w)), 60)]>
               (cache w)
         ∧ store w' = store w
         ∧ In (DbQuery LIKES (QCountLikes photoId)) (trace w')).
  rewrite Hid, present_Some by done.
  wp_run; rewrite Hmiss in *; cbn in *; try done.
  all: eexists; repeat split; rewrite ?in_app_iff; cbn; tauto.
Qed.

(** C8, as the code has it. A truthy cached value is the answer of the
    photo list, the single photo and the comment list, after one cache read
    and nothing else, whether the store answers or not. A cached like count
    is the count of the answer and the count query is not run, but the
    store is still queried for the like of the caller when the request
    names one. On a miss (no value, or a falsy one for the first three) the
    store is queried, the result is cached for 60 seconds, 300 for the
    single photo, and returned; a single photo that is not stored gives 404
    and no cache write. *)
Theorem cache_backed_reads (w : World) (request : HttpRequest) :
  cache_up w →
  (∀ v ttl,
     cache w !! CACHE_KEYS.photos (page_of request) = Some (v, ttl) →
     payload_truthy v = true →
     (getPhotos request w).1 = mkResponse 200 (Some v)
     ∧ (getPhotos request w).2
       = logged (CacheGet (CACHE_KEYS.photos (page_of request))) w)
  ∧ (∀ id v ttl,
       params request !! "id" = Some id → id ≠ "" →
       cache w !! CACHE_KEYS.photo id = Some (v, ttl) →
       payload_truthy v = true →
       (getPhoto request w).1 = mkResponse 200 (Some v)
       ∧ (getPhoto request w).2 = logged (CacheGet (CACHE_KEYS.photo id)) w)
  ∧ (∀ photoId v ttl,
       params request !! "photoId" = Some photoId → photoId ≠ "" →
       cache w !! CACHE_KEYS.photoComments photoId = Some (v, ttl) →
       payload_truthy v = true →
       (getComments request w).1 = mkResponse 200 (Some v)
       ∧ (getComments request w).2
         = logged (CacheGet (CACHE_KEYS.photoComments photoId)) w)
  ∧ (∀ photoId v ttl,
       params request !! "photoId" = Some photoId → photoId ≠ "" →
       cache w !! CACHE_KEYS.photoLikes photoId = Some (v, ttl) →
       store_up w →
       match Js.present (headers request !! "x-user-id") with
       | None =>
           (getLikes request w).1 = mkResponse 200 (Some (JLikeStatus v false))
           ∧ (getLikes request w).2
             = logged (GetContainer LIKES)
                 (logged (CacheGet (CACHE_KEYS.photoLikes photoId)) w)
       | Some userId =>
           (getLikes request w).1
           = mkResponse 200
               (Some (JLikeStatus v
                        (0 <? length (likes_of photoId userId (likes w)))%nat))
           ∧ (getLikes request w).2
             = logged (DbQuery LIKES (QLikesOf photoId userId))
                 (logged (GetContainer LIKES)
                    (logged (CacheGet (CACHE_KEYS.photoLikes photoId)) w))
       end)
  ∧ (∀ ps,
       if_cached (fst <$> cache w !! CACHE_KEYS.photos (page_of request)) = None →
       photos_page (offset_of request) (limit_of request) (photos w) = Some ps →
       store_up w →
       (getPhotos request w).1 = mkResponse 200 (Some (JPhotos ps))
       ∧ (getPhotos request w).2
         = set_cache
             (<[CACHE_KEYS.photos (page_of request) := (JPhotos ps, 60)]> (cache w))
             (logged (CacheSetEx (CACHE_KEYS.photos (page_of request)) 60)
                (logged (DbQuery PHOTOS
                           (QPhotosPage (offset_of request) (limit_of request)))
                   (logged (GetContainer PHOTOS)
                      (logged (CacheGet (CACHE_KEYS.photos (page_of request))) w)))))
  ∧ (∀ id,
       params request !! "id" = Some id → id ≠ "" →
       if_cached (fst <$> cache w !! CACHE_KEYS.photo id) = None →
       store_up w →
       match item_read photo_key id id (photos w) with
       | Some photo =>
           (getPhoto request w).1 = mkResponse 200 (Some (JPhoto photo))
           ∧ (getPhoto request w).2
             = set_cache (<[CACHE_KEYS.photo id := (JPhoto photo, 300)]> (cache w))
                 (logged (CacheSetEx (CACHE_KEYS.photo id) 300)
                    (logged (DbRead PHOTOS id id)
                       (logged (GetContainer PHOTOS)
                          (logged (CacheGet (CACHE_KEYS.photo id)) w))))
       | None =>
           status (getPhoto request w).1 = 404
           ∧ (getPhoto request w).2
             = logged (DbRead PHOTOS id id)
                 (logged (GetContainer PHOTOS)
                    (logged (CacheGet (CACHE_KEYS.photo id)) w))
       end)
  ∧ (∀ photoId,
       params request !! "photoId" = Some photoId → photoId ≠ "" →
       cache w !! CACHE_KEYS.photoLikes photoId = None →
       store_up w →
       ∃ userHasLiked,
         (getLikes request w).1
         = mkResponse 200
             (Some (JLikeStatus (JNum (count_likes photoId (likes w))) userHasLiked))
         ∧ cache (getLikes request w).2
           = <[CACHE_KEYS.photoLikes photoId
               := (JNum (count_likes photoId (likes w)), 60)]> (cache w)
         ∧ store (getLikes request w).2 = store w
         ∧ In (DbQuery LIKES (QCountLikes photoId)) (trace (getLikes request w).2))
  ∧ (∀ photoId,
       params request !! "photoId" = Some photoId → photoId ≠ "" →
       if_cached (fst <$> cache w !! CACHE_KEYS.photoComments photoId) = None →
       store_up w →
       (getComments request w).1
       = mkResponse 200 (Some (JComments (comments_of photoId (comments w))))
       ∧ (getComments request w).2
         = set_cache
             (<[CACHE_KEYS.photoComments photoId
                := (JComments (comments_of photoId (comments w)), 60)]> (cache w))
             (logged (CacheSetEx (CACHE_KEYS.photoComments photoId) 60)
                (logged (DbQuery COMMENTS (QCommentsOf photoId))
                   (logged (GetContainer COMMENTS)
                      (logged (CacheGet (CACHE_KEYS.photoComments photoId)) w))))).
Proof.
  intros Hc. repeat split_and.
  - intros v ttl H1 H2. by apply (getPhotos_hit w request v ttl); [..|apply Hc].
  - intros id v ttl H1 H2 H3 H4.
    by apply (getPhoto_hit w request id v ttl); [..|apply Hc].
  - intros photoId v ttl H1 H2 H3 H4.
    by apply (getComments_hit w request photoId v ttl); [..|apply Hc].
  - intros photoId v ttl H1 H2 H3 Hs.
    by apply (getLikes_hit w request photoId v ttl); [..|apply Hc|].
  - intros ps H1 H2 Hs. by apply getPhotos_miss.
  - intros id H1 H2 H3 Hs.
    destruct (item_read photo_key id id (photos w)) eqn:E.
    + by apply getPhoto_miss.
    + by apply getPhoto_absent.
  - intros photoId H1 H2 H3 Hs. by apply getLikes_miss.
  - intros photoId H1 H2 H3 Hs. by apply getComments_miss.
Qed.

Lemma cache_backed_reads_witness :
  (getLikes Sample.likes_by_bob Sample.world_warm).1
  = mkResponse 200 (Some (JLikeStatus (JNum 1) true)).
Proof.
  assert (Hup : ∀ e : Event, faulty Sample.world_warm e = false) by reflexivity.
  pose proof (cache_backed_reads Sample.world_warm Sample.likes_by_bob
                (λ e _, Hup e)) as (_ & _ & _ & H & _).
  specialize (H "p1" (JNum 1) 60 eq_refl).
  assert (Hne : "p1" ≠ "") by discriminate.
  specialize (H Hne eq_refl (λ e _, Hup e)).
  exact (proj1 H).
Defined.

(** C8, counterexample. The like count of the photo is cached, and the
    handler still queries the document store. And the cache holds a value,
    a count of zero, under the key of a single-photo read, which is not
    returned: the store is read and the answer is 404. *)
Lemma cached_likes_query_store :
  cache Sample.world_warm !! CACHE_KEYS.photoLikes "p1" = Some (JNum 1, 60)
  ∧ calls (getLikes Sample.likes_by_bob) Sample.world_warm
    = [CacheGet "photo:p1:likes"; GetContainer LIKES;
       DbQuery LIKES (QLikesOf "p1" "bob")]
  ∧ existsb is_db_access (calls (getLikes Sample.likes_by_bob) Sample.world_warm)
    = true
  ∧ cache Sample.world_counted !! CACHE_KEYS.photo "p9:likes" = Some (JNum 0, 60)
  ∧ calls (getPhoto Sample.photo_named_likes) Sample.world_counted
    = [CacheGet "photo:p9:likes"; GetContainer PHOTOS;
       DbRead PHOTOS "p9:likes" "p9:likes"]
  ∧ status (getPhoto Sample.photo_named_likes Sample.world_counted).1 = 404.
Proof. vm_compute. done. Qed.

(** ** C10: comments, newest first *)

#[local] Instance newer_first_total {A} (t : A → Z) : Total (newer_first t).
Proof. intros a b. unfold newer_first. lia. Qed.

#[local] Instance newer_first_trans {A} (t : A → Z) : Transitive (newer_first t).
Proof. intros a b c. unfold newer_first. lia. Qed.

Lemma comments_of_sorted (photoId : string) (cs : list Comment) :
  StronglySorted (newer_first comment_createdAt) (comments_of photoId cs).
Proof. unfold comments_of, order_by_createdAt_desc. apply StronglySorted_merge_sort; apply _. Qed.

Lemma comments_of_perm (photoId : string) (cs : list Comment) :
  comments_of photoId cs
  ≡ₚ List.filter (λ c, String.eqb (comment_photoId c) photoId) cs.
Proof. unfold comments_of, order_by_createdAt_desc. apply merge_sort_Permutation. Qed.

(** C10. Served from the document store, the comment list is the comments
    of the photo, each once, every comment before the ones created earlier;
    the value written to the cache is that list in that order. *)
Theorem comments_newest_first (w : World) (request : HttpRequest)
    (photoId : string) :
  params request !! "photoId" = Some photoId → photoId ≠ "" →
  if_cached (fst <$> cache w !! CACHE_KEYS.photoComments photoId) = None →
  cache_up w → store_up w →
  ∃ cs,
    (getComments request w).1 = mkResponse 200 (Some (JComments cs))
    ∧ cache (getComments request w).2 !! CACHE_KEYS.photoComments photoId
      = Some (JComments cs, 60)
    ∧ StronglySorted (λ a b, comment_createdAt b ≤ comment_createdAt a) cs
    ∧ cs ≡ₚ List.filter (λ c, String.eqb (comment_photoId c) photoId) (comments w).
Proof.
  intros Hid Hne Hmiss Hc Hs.
  destruct (getComments_miss w request photoId Hid Hne Hmiss Hc Hs) as [Hr Hw].
  exists (comments_of photoId (comments w)). split; [done|].
  split; [|split].
  - rewrite Hw. cbn. apply lookup_insert_eq.
  - apply comments_of_sorted.
  - apply comments_of_perm.
Qed.

Lemma comments_newest_first_witness :
  ∃ cs,
    (getComments (Sample.request [("photoId", "p1")] []) Sample.world).1
    = mkResponse 200 (Some (JComments cs))
    ∧ StronglySorted (λ a b, comment_createdAt b ≤ comment_createdAt a) cs.
Proof.
  assert (Hup : ∀ e : Event, faulty Sample.world e = false) by reflexivity.
  assert (Hne : "p1" ≠ "") by discriminate.
  destruct (comments_newest_first Sample.world
              (Sample.request [("photoId", "p1")] []) "p1"
              eq_refl Hne eq_refl (λ e _, Hup e) (λ e _, Hup e))
    as (cs & H1 & _ & H3 & _).
  exists cs. split; assumption.
Defined.

(** ** C1: a failed invalidation *)

Section WriteFacts.
Context {D : Type} (key : D → string * string).

Lemma items_create_length (d : D) (docs l : list D) :
  items_create key d docs = Some l → length l = S (length docs).
Proof.
  unfold items_create. destruct (existsb _ docs); [done|].
  intros [= <-]. rewrite length_app. cbn. lia.
Qed.

Lemma item_delete_length (id pk : string) (docs l : list D) :
  item_delete key id pk docs = Some l → (length l < length docs)%nat.
Proof.
  unfold item_delete. destruct (existsb _ docs) eqn:E; [|done].
  intros [= <-]. induction docs as [|x docs IH]; [done|]. cbn in *.
  destruct (addressed key id pk x); cbn.
  - pose proof (filter_length_le (λ x, negb (addressed key id pk x)) docs). lia.
  - specialize (IH E). lia.
Qed.
End WriteFacts.

Lemma calls_between_app (w w' : World) (evs : list Event) :
  trace w' = trace w ++ evs → calls_between w w' = evs.
Proof. intros E. unfold calls_between. rewrite E. apply drop_app_length. Qed.

(** The calls of a path, read off the final world. *)
Ltac path_calls :=
  erewrite calls_between_app
    by (cbn; rewrite <- ?app_assoc; first [reflexivity | symmetry; apply app_nil_r]).

(** The store of a path on which a write went through is not the store the
    path began with. *)
Ltac written :=
  let E := fresh "E" in
  intros E; unfold store in E; cbn in E;
  apply (f_equal (λ s : list Photo * list Like * list Comment,
                    (length s.1.1, length s.1.2, length s.2))) in E;
  cbn in E;
  repeat match goal with
  | H : items_create _ _ _ = Some _ |- _ => apply items_create_length in H
  | H : item_delete _ _ _ _ = Some _ |- _ => apply item_delete_length in H
  end;
  injection E; intros; lia.

(** A path as a failed invalidation sees it: the failed call is one of the
    calls of the path, which leaves the paths that end in it. *)
Ltac failed_invalidation :=
  let e := fresh "e" in
  let Hin := fresh "Hin" in
  let Hinv := fresh "Hinv" in
  let Hf := fresh "Hf" in
  intros e Hin Hinv Hf; revert Hin; path_calls; cbn; intros Hin;
  repeat (destruct Hin as [<-|Hin]; [try discriminate Hinv; try clash|]);
  try (destruct Hin);
  try (split; [reflexivity | written]).

(** C1, as the code has it. When a cache-invalidation call of a mutation
    handler fails, which can only happen once the write to the store went
    through, the handler answers 500 and not its success status; the write
    stays: the containers are not what they were before the request. *)
Theorem invalidation_failure_reported (m : Mutation) (request : HttpRequest)
    (w : World) (e : Event) :
  In e (calls (handler m request) w) →
  is_invalidation e = true →
  faulty w e = true →
  status (handler m request w).1 = 500
  ∧ status (handler m request w).1 ≠ success_status m
  ∧ store (handler m request w).2 ≠ store w.
Proof.
  intros Hin Hinv Hf.
  pose (Q := λ (r : HttpResponseInit) (w' : World),
          ∀ e, In e (calls_between w w') → is_invalidation e = true →
               faulty w e = true → status r = 500 ∧ store w' ≠ store w).
  enough (Q (handler m request w).1 (handler m request w).2) as HQ.
  { destruct (HQ e Hin Hinv Hf) as [H5 Hst].
    split; [done|]. split; [|done]. rewrite H5. by destruct m. }
  clear e Hin Hinv Hf.
  destruct m; cbn [handler];
    [ handler_wp likePhoto Q | handler_wp unlikePhoto Q
    | handler_wp createComment Q | handler_wp deleteComment Q
    | handler_wp createPhoto Q | handler_wp deletePhotoHandler Q ];
    subst Q; wp_run; failed_invalidation.
Qed.

Lemma invalidation_failure_reported_witness :
  status (likePhoto Sample.like_by_eve Sample.world_cache_down).1 = 500.
Proof.
  refine (proj1 (invalidation_failure_reported Like_ Sample.like_by_eve
                   Sample.world_cache_down (CacheDel [CACHE_KEYS.photoLikes "p1"])
                   _ eq_refl eq_refl)).
  vm_compute. repeat (first [left; reflexivity | right]).
Defined.

(** C1, counterexample. The like of eve is written and the count of the
    photo goes from 1 to 2; the first [cacheDelete] fails; the handler
    answers 500, not 201. *)
Lemma like_written_invalidation_fails :
  likes (likePhoto Sample.like_by_eve Sample.world_cache_down).2
  = [Sample.like_of_bob; mkLike "uuid-0" "p1" "eve" 5000]
  ∧ map photo_likes (photos (likePhoto Sample.like_by_eve Sample.world_cache_down).2)
    = [2]
  ∧ calls (likePhoto Sample.like_by_eve) Sample.world_cache_down
    = [GetContainer PHOTOS; DbRead PHOTOS "p1" "p1"; GetContainer LIKES;
       DbQuery LIKES (QLikesOf "p1" "eve"); DbCreate LIKES "uuid-0";
       DbUpsert PHOTOS "p1"; CacheDel ["photo:p1:likes"]]
  ∧ faulty Sample.world_cache_down (CacheDel ["photo:p1:likes"]) = true
  ∧ status (likePhoto Sample.like_by_eve Sample.world_cache_down).1 = 500
  ∧ status (likePhoto Sample.like_by_eve Sample.world_cache_down).1
    ≠ success_status Like_.
Proof. vm_compute. repeat split; discriminate. Qed.

(** ** C9: like counts stay non-negative *)

Section InvariantFacts.
Context {D : Type} (key : D → string * string) (P : D → Prop).

Lemma Forall_items_create (d : D) (docs l : list D) :
  items_create key d docs = Some l → Forall P docs → P d → Forall P l.
Proof.
  unfold items_create. destruct (existsb _ docs); [done|].
  intros [= <-] Hdocs Hd. apply Forall_app. auto.
Qed.


Lemma item_read_upsert (d : D) (docs : list D) :
  item_read key (key d).1 (key d).2 (items_upsert key d docs) = Some d.
Proof.
  assert (Hd : addressed key (key d).1 (key d).2 d = true).
  { unfold addressed. apply bool_decide_eq_true. by destruct (key d). }
  unfold item_read, items_upsert.
  destruct (existsb _ docs) eqn:E.
  - induction docs as [|x docs IH]; [done|]. cbn in *.
    destruct (addressed key (key d).1 (key d).2 x) eqn:Hx; cbn.
    + by rewrite Hd.
    + rewrite Hx. auto.
  - induction docs as [|x docs IH]; cbn in *; [by rewrite Hd|].
    apply orb_false_iff in E as [Hx E]. rewrite Hx. auto.
Qed.
End InvariantFacts.







Lemma item_read_photo_upsert (id : string) (photo : Photo) (n : Z)
    (ps : list Photo) :
  item_read photo_key id id ps = Some photo →
  item_read photo_key id id (items_upsert photo_key (set_photo_likes n photo) ps)
  = Some (set_photo_likes n photo).
Proof.
  intros [_ Hk]%item_read_addressed.
  pose proof (item_read_upsert photo_key (set_photo_likes n photo) ps) as H.
  unfold photo_key in *. cbn in *. by simplify_eq.
Qed.






(** ** C3: the optimistic like and its rollback *)

Lemma lookup_map {A B} (f : A → B) (l : list A) (i : nat) :
  map f l !! i = f <$> l !! i.
Proof. revert i. induction l as [|x l IH]; intros [|i]; cbn; auto. Qed.

Lemma includes_false (l : list string) (u : string) :
  PhotoContext.includes l u = false ↔ ¬ In u l.
Proof.
  unfold PhotoContext.includes. split.
  - intros H Hin. assert (existsb (String.eqb u) l = true); [|congruence].
    apply existsb_exists. exists u. by rewrite String.eqb_refl.
  - intros H. destruct (existsb _ l) eqn:E; [|done].
    apply existsb_exists in E as (x & Hx & ->%String.eqb_eq). done.
Qed.

Lemma filter_out_appended (l : list string) (u : string) :
  ¬ In u l →
  List.filter (λ i, negb (String.eqb i u)) (l ++ [u]) = l.
Proof.
  induction l as [|x l IH]; cbn; intros H.
  - by rewrite String.eqb_refl.
  - destruct (String.eqb_spec x u) as [->|_]; cbn; [tauto|].
    f_equal. tauto.
Qed.

Lemma like_revert_optimistic (u photoId : string) (p : PhotoContext.Photo) :
  PhotoContext.id p = photoId →
  PhotoContext.includes (PhotoContext.likedBy p) u = false →
  PhotoContext.like_revert u photoId (PhotoContext.like_optimistic u photoId [p])
  = [p].
Proof.
  intros <- Hu. cbn. rewrite String.eqb_refl, Hu. cbn.
  rewrite String.eqb_refl. f_equal.
  apply includes_false in Hu. rewrite filter_out_appended by done.
  destruct p. unfold PhotoContext.with_likes. cbn. f_equal. lia.
Qed.

Lemma like_revert_optimistic_all (u photoId : string)
    (photos : list PhotoContext.Photo) :
  (∀ q, In q photos → PhotoContext.id q = photoId →
        PhotoContext.includes (PhotoContext.likedBy q) u = false) →
  PhotoContext.like_revert u photoId (PhotoContext.like_optimistic u photoId photos)
  = photos.
Proof.
  induction photos as [|p photos IH]; intros H; [done|].
  change (PhotoContext.like_revert u photoId
            (PhotoContext.like_optimistic u photoId (p :: photos)))
    with (PhotoContext.like_revert u photoId
            (PhotoContext.like_optimistic u photoId [p])
          ++ PhotoContext.like_revert u photoId
               (PhotoContext.like_optimistic u photoId photos)).
  rewrite IH by (intros q Hq; apply H; by right).
  destruct (String.eqb_spec (PhotoContext.id p) photoId) as [E|E].
  - rewrite like_revert_optimistic; [done..|]. apply H; [by left | done].
  - cbn. apply String.eqb_neq in E. rewrite E. cbn. by rewrite E.
Qed.

(** C3. In a client signed in as U whose list shows photo P with N likes
    and U not among those who liked it, [likePhoto(P)] has the photo at
    N+1 likes with U among them when it returns to its caller; and when the
    request then fails, the photo is back exactly as it was, N likes and U
    not among them. The whole list is back as it was when no entry with the
    id of P showed U among those who liked it. *)
Theorem optimistic_like_rollback (user : PhotoContext.User) (photoId : string)
    (photos : list PhotoContext.Photo) (i : nat) (p : PhotoContext.Photo)
    (N : Z) (isAzureConfigured : bool) (net : PhotoContext.Fetch) :
  photos !! i = Some p →
  PhotoContext.id p = photoId →
  PhotoContext.likes p = N →
  PhotoContext.includes (PhotoContext.likedBy p) (PhotoContext.user_id user) = false →
  (∃ p',
     PhotoContext.likePhoto_sync (Some user) photoId photos !! i = Some p'
     ∧ PhotoContext.likes p' = N + 1
     ∧ PhotoContext.includes (PhotoContext.likedBy p') (PhotoContext.user_id user)
       = true
     ∧ PhotoContext.likedBy p'
       = PhotoContext.likedBy p ++ [PhotoContext.user_id user])
  ∧ (PhotoContext.photoService_likePhoto isAzureConfigured net = false →
     PhotoContext.likePhoto (Some user) photoId isAzureConfigured net photos !! i
     = Some p
     ∧ ((∀ q, In q photos → PhotoContext.id q = photoId →
              PhotoContext.includes (PhotoContext.likedBy q)
                (PhotoContext.user_id user) = false) →
        PhotoContext.likePhoto (Some user) photoId isAzureConfigured net photos
        = photos)).
Proof.
  intros Hi Hid HN Hu. split.
  - eexists. split.
    + cbn. unfold PhotoContext.like_optimistic. rewrite lookup_map, Hi. cbn.
      rewrite Hid, String.eqb_refl, Hu. reflexivity.
    + cbn. split; [lia|]. split; [|done].
      unfold PhotoContext.includes. apply existsb_exists.
      exists (PhotoContext.user_id user). rewrite String.eqb_refl.
      split; [|done]. apply in_app_iff. right. by left.
  - intros Hfail. unfold PhotoContext.likePhoto. rewrite Hfail. split.
    + unfold PhotoContext.like_revert, PhotoContext.like_optimistic.
      rewrite !lookup_map, Hi.
      pose proof (like_revert_optimistic _ _ p Hid Hu) as H.
      cbn in H |- *. by injection H as ->.
    + apply like_revert_optimistic_all.
Qed.

Lemma optimistic_like_rollback_witness :
  PhotoContext.likePhoto (Some Sample.bob) "p1" true PhotoContext.NetworkError
    Sample.feed
  = Sample.feed.
Proof.
  assert (H0 : Sample.feed !! 0%nat = head Sample.feed) by reflexivity.
  destruct (optimistic_like_rollback Sample.bob "p1" Sample.feed 0
              (PhotoContext.mkPhoto "p1" "https://blobs.test/photos/p1-sea.jpg"
                 "https://blobs.test/photos/p1-sea.jpg" "Sea" "At dawn" None None
                 "ada" "Ada" None 2 ["eve"; "dan"] [] 1000 [])
              2 true PhotoContext.NetworkError
              eq_refl eq_refl eq_refl eq_refl) as [_ H].
  apply (H eq_refl).
  intros q [<-|[]] _. reflexivity.
Defined.

(** * Further properties of the handlers *)

(** ** What a handler answers and what it leaves alone *)

(** X1. A handler answers only with the statuses its code returns: 200 and
    500 for the photo list, and so on for each of the ten handlers. *)
Theorem handler_statuses (h : Handler) (request : HttpRequest) (w : World) :
  In (status (run_handler h request w).1) (statuses h).
Proof.
  destruct h as [[]|[]]; cbn [run_handler reader handler statuses];
    [ handler_wp getPhotos (λ r (_ : World), In (status r) [200; 500])
    | handler_wp getPhoto (λ r (_ : World), In (status r) [200; 400; 404; 500])
    | handler_wp getLikes (λ r (_ : World), In (status r) [200; 400; 500])
    | handler_wp getComments (λ r (_ : World), In (status r) [200; 400; 500])
    | handler_wp likePhoto
        (λ r (_ : World), In (status r) [201; 400; 401; 404; 409; 500])
    | handler_wp unlikePhoto
        (λ r (_ : World), In (status r) [200; 400; 401; 404; 500])
    | handler_wp createComment
        (λ r (_ : World), In (status r) [201; 400; 401; 404; 500])
    | handler_wp deleteComment
        (λ r (_ : World), In (status r) [204; 400; 401; 403; 404; 500])
    | handler_wp createPhoto (λ r (_ : World), In (status r) [201; 400; 403; 500])
    | handler_wp deletePhotoHandler
        (λ r (_ : World), In (status r) [204; 400; 403; 404; 500]) ];
    wp_run; tauto.
Qed.

(** X2. A read handler never changes the document store or the blobs, and
    the only cache entry it can change is the one under its own key. *)
Theorem reads_leave_store (r : Reader) (request : HttpRequest) (w : World) :
  store (reader r request w).2 = store w
  ∧ blobs (reader r request w).2 = blobs w
  ∧ ∀ k, read_key r request ≠ Some k →
         cache (reader r request w).2 !! k = cache w !! k.
Proof.
  pose (Q := λ (_ : HttpResponseInit) (w' : World),
          store w' = store w ∧ blobs w' = blobs w
          ∧ ∀ k, read_key r request ≠ Some k → cache w' !! k = cache w !! k).
  change (Q (reader r request w).1 (reader r request w).2).
  destruct r; cbn [reader];
    [ handler_wp getPhotos Q | handler_wp getPhoto Q
    | handler_wp getLikes Q | handler_wp getComments Q ];
    subst Q; cbv beta; wp_run; try done.
  all: split; [done|]; split; [done|]; intros k Hk.
  all: apply lookup_insert_ne; intros <-; apply Hk; cbn.
  all: by repeat match goal with H : Js.present _ = Some _ |- _ => rewrite H end.
Qed.

Lemma reads_leave_store_witness :
  cache (getLikes Sample.likes_by_bob Sample.world).2 !! CACHE_KEYS.photo "p1"
  = cache Sample.world !! CACHE_KEYS.photo "p1".
Proof.
  refine (proj2 (proj2 (reads_leave_store GetLikes_ Sample.likes_by_bob
                          Sample.world)) _ _).
  vm_compute. discriminate.
Defined.

(** X3. A refused request costs nothing: when a mutation handler answers
    with a 4xx status, the document store, the cache and the blobs are what
    they were. *)
Theorem refusals_change_nothing (m : Mutation) (request : HttpRequest) (w : World) :
  is_refusal (status (handler m request w).1) = true →
  store (handler m request w).2 = store w
  ∧ cache (handler m request w).2 = cache w
  ∧ blobs (handler m request w).2 = blobs w.
Proof.
  pose (Q := λ (r : HttpResponseInit) (w' : World),
          is_refusal (status r) = true →
          store w' = store w ∧ cache w' = cache w ∧ blobs w' = blobs w).
  change (Q (handler m request w).1 (handler m request w).2).
  destruct m; cbn [handler];
    [ handler_wp likePhoto Q | handler_wp unlikePhoto Q
    | handler_wp createComment Q | handler_wp deleteComment Q
    | handler_wp createPhoto Q | handler_wp deletePhotoHandler Q ];
    subst Q; cbv beta; wp_run; try done; intros [=].
Qed.

Lemma refusals_change_nothing_witness :
  store (likePhoto Sample.likes_by_bob Sample.world).2 = store Sample.world.
Proof.
  exact (proj1 (refusals_change_nothing Like_ Sample.likes_by_bob Sample.world
                  eq_refl)).
Defined.

(** X4. Each mutation handler writes to its own containers only: likes
    and unlikes never touch the comments, the comment handlers touch
    neither photos nor likes, and the photo handlers touch neither likes
    nor comments, so deleting a photo leaves its likes and its comments in
    the store. *)
Theorem mutations_keep_to_their_containers (m : Mutation)
    (request : HttpRequest) (w : World) :
  match m with
  | Like_ | Unlike_ =>
      comments (handler m request w).2 = comments w
      ∧ blobs (handler m request w).2 = blobs w
  | CreateComment_ | DeleteComment_ =>
      photos (handler m request w).2 = photos w
      ∧ likes (handler m request w).2 = likes w
      ∧ blobs (handler m request w).2 = blobs w
  | CreatePhoto_ | DeletePhoto_ =>
      likes (handler m request w).2 = likes w
      ∧ comments (handler m request w).2 = comments w
  end.
Proof.
  destruct m; cbn [handler];
    [ handler_wp likePhoto
        (λ (_ : HttpResponseInit) w', comments w' = comments w ∧ blobs w' = blobs w)
    | handler_wp unlikePhoto
        (λ (_ : HttpResponseInit) w', comments w' = comments w ∧ blobs w' = blobs w)
    | handler_wp createComment
        (λ (_ : HttpResponseInit) w',
           photos w' = photos w ∧ likes w' = likes w ∧ blobs w' = blobs w)
    | handler_wp deleteComment
        (λ (_ : HttpResponseInit) w',
           photos w' = photos w ∧ likes w' = likes w ∧ blobs w' = blobs w)
    | handler_wp createPhoto
        (λ (_ : HttpResponseInit) w', likes w' = likes w ∧ comments w' = comments w)
    | handler_wp deletePhotoHandler
        (λ (_ : HttpResponseInit) w', likes w' = likes w ∧ comments w' = comments w) ];
    wp_run; done.
Qed.

(** ** lib/redis: what the cache helpers do to the cache *)

Lemma lookup_foldr_delete {V} (m : gmap string V) (ks : list string) (k : string) :
  foldr delete m ks !! k = if bool_decide (k ∈ ks) then None else m !! k.
Proof.
  induction ks as [|x ks IH]; cbn; [done|].
  destruct (decide (x = k)) as [->|Hne].
  - rewrite lookup_delete_eq. rewrite bool_decide_eq_true_2; [done | by left].
  - rewrite lookup_delete_ne by done. rewrite IH.
    destruct (bool_decide (k ∈ ks)) eqn:E.
    + apply bool_decide_eq_true in E.
      rewrite bool_decide_eq_true_2; [done | by right].
    + apply bool_decide_eq_false in E.
      rewrite bool_decide_eq_false_2; [done|].
      intros [?|?]%elem_of_cons; done.
Qed.

Lemma lookup_without_keys {V} (m : gmap string V) (pattern k : string) :
  foldr delete m (List.filter (Js.glob pattern) (elements (dom m))) !! k
  = if Js.glob pattern k then None else m !! k.
Proof.
  rewrite lookup_foldr_delete.
  destruct (Js.glob pattern k) eqn:Hg.
  - destruct (m !! k) as [v|] eqn:Hk.
    + rewrite bool_decide_eq_true_2; [done|].
      apply list_elem_of_In, filter_In. split; [|done].
      apply list_elem_of_In, elem_of_elements, elem_of_dom. by exists v.
    + by destruct (bool_decide _).
  - rewrite bool_decide_eq_false_2; [done|].
    intros [_ H]%list_elem_of_In%filter_In. congruence.
Qed.

(** X5. The cache helpers, when their calls go through: a value set under
    a key is the value read under it, and other keys keep theirs; a deleted
    key reads as absent; [cacheInvalidatePattern] removes exactly the
    entries whose key matches the pattern. *)
Theorem cache_helpers (w : World) (key : string) (value : Payload) (ttl : Z)
    (pattern : string) :
  cache_up w →
  (cacheGet key (cacheSet key value ttl w).2).1 = Returned (Some value)
  ∧ (∀ k, k ≠ key →
          (cacheGet k (cacheSet key value ttl w).2).1
          = Returned (fst <$> cache w !! k))
  ∧ (cacheGet key (cacheDelete key w).2).1 = Returned None
  ∧ (cacheInvalidatePattern pattern w).1 = Returned tt
  ∧ ∀ k, cache (cacheInvalidatePattern pattern w).2 !! k
         = if Js.glob pattern k then None else cache w !! k.
Proof.
  intros Hc.
  unfold cacheInvalidatePattern, cacheDelete, cache_keys, cache_del, cacheSet,
    cacheGet, modify, get_world, ret, call, bind. cbn.
  rewrite !Hc by done. cbn. rewrite !Hc by done. cbn.
  repeat split_and.
  - by rewrite lookup_insert_eq.
  - intros k Hk. rewrite !Hc by done. cbn. by rewrite lookup_insert_ne.
  - by rewrite lookup_delete_eq.
  - destruct (List.filter _ _); cbn; [done|]. by rewrite Hc.
  - intros k.
    pose proof (lookup_without_keys (cache w) pattern k) as H.
    destruct (List.filter _ _) eqn:E; cbn in *; [done|].
    rewrite Hc by done. cbn. done.
Qed.

Lemma cache_helpers_witness :
  (cacheGet "photo:p1" (cacheSet "photo:p1" (JPhoto Sample.ada) 300 Sample.world).2).1
  = Returned (Some (JPhoto Sample.ada)).
Proof.
  refine (proj1 (cache_helpers Sample.world "photo:p1" (JPhoto Sample.ada) 300
                   "photos:*" _)).
  intros e _. reflexivity.
Defined.

(** ** What a successful mutation has done *)

Lemma items_create_Some {D} (key : D → string * string) (d : D) (docs l : list D) :
  items_create key d docs = Some l →
  l = docs ++ [d] ∧ existsb (addressed key (key d).1 (key d).2) docs = false.
Proof.
  unfold items_create. destruct (existsb _ docs); [done|]. by intros [= <-].
Qed.

Lemma item_delete_Some {D} (key : D → string * string) (id pk : string)
    (docs l : list D) :
  item_delete key id pk docs = Some l →
  l = List.filter (λ x, negb (addressed key id pk x)) docs.
Proof.
  unfold item_delete. destruct (existsb _ docs); [|done]. by intros [= <-].
Qed.

Lemma handlers_keep_services (h : Handler) (request : HttpRequest) (w : World) :
  same_services w (run_handler h request w).2.
Proof.
  pose (Q := λ (_ : HttpResponseInit) (w' : World), same_services w w').
  change (Q (run_handler h request w).1 (run_handler h request w).2).
  destruct h as [[]|[]]; cbn [run_handler reader handler];
    [ handler_wp getPhotos Q | handler_wp getPhoto Q | handler_wp getLikes Q
    | handler_wp getComments Q | handler_wp likePhoto Q | handler_wp unlikePhoto Q
    | handler_wp createComment Q | handler_wp deleteComment Q
    | handler_wp createPhoto Q | handler_wp deletePhotoHandler Q ];
    subst Q; unfold same_services; wp_run; done.
Qed.

Lemma same_services_up (w w' : World) :
  same_services w w' →
  (store_up w → store_up w') ∧ (cache_up w → cache_up w') ∧ (blob_up w → blob_up w').
Proof.
  intros (Hf & _). unfold store_up, cache_up, blob_up. rewrite Hf. done.
Qed.

Lemma likePhoto_success (request : HttpRequest) (w : World) :
  status (likePhoto request w).1 = 201 →
  ∃ photoId userId photo,
    Js.present (params request !! "photoId") = Some photoId
    ∧ Js.present (headers request !! "x-user-id") = Some userId
    ∧ item_read photo_key photoId photoId (photos w) = Some photo
    ∧ likes_of photoId userId (likes w) = []
    ∧ existsb (addressed (like_key (likes_pk w))
                 (uuids w (next_uuid w))
                 (likes_pk w (new_like w photoId userId))) (likes w) = false
    ∧ (likePhoto request w).1
      = mkResponse 201 (Some (JLikeResult true (photo_likes photo + 1)))
    ∧ likes (likePhoto request w).2 = likes w ++ [new_like w photoId userId]
    ∧ photos (likePhoto request w).2
      = items_upsert photo_key (set_photo_likes (photo_likes photo + 1) photo)
          (photos w)
    ∧ cache (likePhoto request w).2
      = delete (CACHE_KEYS.photo photoId)
          (delete (CACHE_KEYS.photoLikes photoId) (cache w)).
Proof.
  handler_wp likePhoto
    (λ r w',
       status r = 201 →
       ∃ photoId userId photo,
         Js.present (params request !! "photoId") = Some photoId
         ∧ Js.present (headers request !! "x-user-id") = Some userId
         ∧ item_read photo_key photoId photoId (photos w) = Some photo
         ∧ likes_of photoId userId (likes w) = []
         ∧ existsb (addressed (like_key (likes_pk w))
                      (uuids w (next_uuid w))
                      (likes_pk w (new_like w photoId userId))) (likes w) = false
         ∧ r = mkResponse 201 (Some (JLikeResult true (photo_likes photo + 1)))
         ∧ likes w' = likes w ++ [new_like w photoId userId]
         ∧ photos w'
           = items_upsert photo_key (set_photo_likes (photo_likes photo + 1) photo)
               (photos w)
         ∧ cache w'
           = delete (CACHE_KEYS.photo photoId)
               (delete (CACHE_KEYS.photoLikes photoId) (cache w))).
  wp_run; try discriminate.
  intros _.
  match goal with
  | H : items_create _ _ _ = Some _ |- _ =>
      apply items_create_Some in H as [-> Hfresh]
  end.
  do 3 eexists. repeat split_and; try eassumption; try reflexivity.
  - by destruct (likes_of _ _ _).
  - exact Hfresh.
Qed.

Lemma unlikePhoto_success (request : HttpRequest) (w : World) :
  status (unlikePhoto request w).1 = 200 →
  ∃ photoId userId like rest,
    Js.present (params request !! "photoId") = Some photoId
    ∧ Js.present (headers request !! "x-user-id") = Some userId
    ∧ likes_of photoId userId (likes w) = like :: rest
    ∧ likes (unlikePhoto request w).2
      = List.filter
          (λ x, negb (addressed (like_key (likes_pk w)) (like_id like)
                        (like_photoId like) x)) (likes w)
    ∧ photos (unlikePhoto request w).2
      = match item_read photo_key photoId photoId (photos w) with
        | Some photo =>
            items_upsert photo_key
              (set_photo_likes (Z.max 0 (photo_likes photo - 1)) photo) (photos w)
        | None => photos w
        end
    ∧ cache (unlikePhoto request w).2
      = delete (CACHE_KEYS.photo photoId)
          (delete (CACHE_KEYS.photoLikes photoId) (cache w)).
Proof.
  handler_wp unlikePhoto
    (λ r w',
       status r = 200 →
       ∃ photoId userId like rest,
         Js.present (params request !! "photoId") = Some photoId
         ∧ Js.present (headers request !! "x-user-id") = Some userId
         ∧ likes_of photoId userId (likes w) = like :: rest
         ∧ likes w'
           = List.filter
               (λ x, negb (addressed (like_key (likes_pk w)) (like_id like)
                             (like_photoId like) x)) (likes w)
         ∧ photos w'
           = match item_read photo_key photoId photoId (photos w) with
             | Some photo =>
                 items_upsert photo_key
                   (set_photo_likes (Z.max 0 (photo_likes photo - 1)) photo)
                   (photos w)
             | None => photos w
             end
         ∧ cache w'
           = delete (CACHE_KEYS.photo photoId)
               (delete (CACHE_KEYS.photoLikes photoId) (cache w))).
  wp_run; try discriminate.
  all: intros _.
  all: match goal with
       | H : item_delete _ _ _ _ = Some _ |- _ => apply item_delete_Some in H as ->
       end.
  all: do 4 eexists; repeat split_and; try eassumption; try reflexivity.
  all: by match goal with H : item_read _ _ _ _ = _ |- _ => rewrite H end.
Qed.

Lemma createComment_success (request : HttpRequest) (w : World) :
  status (createComment request w).1 = 201 →
  ∃ photoId userId content photo,
    Js.present (params request !! "photoId") = Some photoId
    ∧ Js.present (headers request !! "x-user-id") = Some userId
    ∧ json request = Some (ContentString content)
    ∧ Js.trim content ≠ ""
    ∧ item_read photo_key photoId photoId (photos w) = Some photo
    ∧ (createComment request w).1
      = mkResponse 201
          (Some (JComment (new_comment w request photoId userId content)))
    ∧ comments (createComment request w).2
      = comments w ++ [new_comment w request photoId userId content]
    ∧ cache (createComment request w).2
      = delete (CACHE_KEYS.photoComments photoId) (cache w).
Proof.
  handler_wp createComment
    (λ r w',
       status r = 201 →
       ∃ photoId userId content photo,
         Js.present (params request !! "photoId") = Some photoId
         ∧ Js.present (headers request !! "x-user-id") = Some userId
         ∧ json request = Some (ContentString content)
         ∧ Js.trim content ≠ ""
         ∧ item_read photo_key photoId photoId (photos w) = Some photo
         ∧ r = mkResponse 201
                 (Some (JComment (new_comment w request photoId userId content)))
         ∧ comments w'
           = comments w ++ [new_comment w request photoId userId content]
         ∧ cache w' = delete (CACHE_KEYS.photoComments photoId) (cache w)).
  unfold request_json. destruct (json request) as [[| content |]|] eqn:Hjson.
  all: wp_run; try discriminate.
  intros _.
  match goal with
  | H : items_create _ _ _ = Some _ |- _ => apply items_create_Some in H as [-> _]
  end.
  do 4 eexists. repeat split_and; try eassumption; try reflexivity.
  intros E.
  match goal with H : _ || _ = false |- _ => rewrite E in H; cbn in H end.
  by rewrite orb_true_r in *.
Qed.

Lemma deleteComment_success (request : HttpRequest) (w : World) :
  status (deleteComment request w).1 = 204 →
  ∃ commentId userId comment rest,
    Js.present (params request !! "id") = Some commentId
    ∧ Js.present (headers request !! "x-user-id") = Some userId
    ∧ comment_by_id commentId (comments w) = comment :: rest
    ∧ (comment_userId comment = userId
       ∨ headers request !! "x-user-role" = Some "admin")
    ∧ comments (deleteComment request w).2
      = List.filter
          (λ x, negb (addressed comment_key commentId (comment_photoId comment) x))
          (comments w)
    ∧ cache (deleteComment request w).2
      = delete (CACHE_KEYS.photoComments (comment_photoId comment)) (cache w).
Proof.
  handler_wp deleteComment
    (λ r w',
       status r = 204 →
       ∃ commentId userId comment rest,
         Js.present (params request !! "id") = Some commentId
         ∧ Js.present (headers request !! "x-user-id") = Some userId
         ∧ comment_by_id commentId (comments w) = comment :: rest
         ∧ (comment_userId comment = userId
            ∨ headers request !! "x-user-role" = Some "admin")
         ∧ comments w'
           = List.filter
               (λ x, negb (addressed comment_key commentId
                             (comment_photoId comment) x))
               (comments w)
         ∧ cache w'
           = delete (CACHE_KEYS.photoComments (comment_photoId comment)) (cache w)).
  wp_run; try discriminate.
  intros _.
  match goal with
  | H : item_delete _ _ _ _ = Some _ |- _ => apply item_delete_Some in H as ->
  end.
  do 4 eexists. repeat split_and; try eassumption; try reflexivity.
  match goal with
  | H : _ && _ = false |- _ =>
      apply andb_false_iff in H as [H|H]; apply negb_false_iff in H;
      [ left; by apply String.eqb_eq
      | right; by apply bool_decide_eq_true in H ]
  end.
Qed.

Lemma find_none_exists {D} (f : D → bool) (docs : list D) :
  existsb f docs = false → List.find f docs = None.
Proof.
  induction docs as [|x docs IH]; cbn; [done|].
  intros [Hx Hd]%orb_false_iff. rewrite Hx. auto.
Qed.

Lemma createPhoto_success (request : HttpRequest) (w : World) :
  status (createPhoto request w).1 = 201 →
  ∃ form file title,
    headers request !! "x-user-role" = Some "creator"
    ∧ formData request = Some form
    ∧ form_image form = Some file
    ∧ Js.present (form_title form) = Some title
    ∧ item_read photo_key (uuids w (next_uuid w)) (uuids w (next_uuid w)) (photos w)
      = None
    ∧ (createPhoto request w).1
      = mkResponse 201 (Some (JPhoto (new_photo w request form file title)))
    ∧ photos (createPhoto request w).2
      = photos w ++ [new_photo w request form file title]
    ∧ blobs (createPhoto request w).2
      = <[new_file_name w file := (file_bytes file, file_type file)]> (blobs w)
    ∧ ∀ k, cache (createPhoto request w).2 !! k
           = if Js.glob "photos:*" k then None else cache w !! k.
Proof.
  handler_wp createPhoto
    (λ r w',
       status r = 201 →
       ∃ form file title,
         headers request !! "x-user-role" = Some "creator"
         ∧ formData request = Some form
         ∧ form_image form = Some file
         ∧ Js.present (form_title form) = Some title
         ∧ item_read photo_key (uuids w (next_uuid w)) (uuids w (next_uuid w))
             (photos w) = None
         ∧ r = mkResponse 201 (Some (JPhoto (new_photo w request form file title)))
         ∧ photos w' = photos w ++ [new_photo w request form file title]
         ∧ blobs w'
           = <[new_file_name w file := (file_bytes file, file_type file)]> (blobs w)
         ∧ ∀ k, cache w' !! k = if Js.glob "photos:*" k then None else cache w !! k).
  unfold request_formData. destruct (formData request) as [form|] eqn:Hform.
  all: wp_run; try discriminate.
  all: intros _.
  all: match goal with
       | H : items_create _ _ _ = Some _ |- _ =>
           apply items_create_Some in H as [-> Hfresh];
           apply find_none_exists in Hfresh
       end.
  all: match goal with
       | H : negb (bool_decide _) = false |- _ =>
           apply negb_false_iff, bool_decide_eq_true in H
       end.
  all: do 3 eexists; repeat split_and; try eassumption; try reflexivity.
  all: intros k; pose proof (lookup_without_keys (cache w) "photos:*" k) as Hk.
  all: match goal with
       | H : context [List.filter (Js.glob "photos:*") ?l] |- _ =>
           destruct (List.filter (Js.glob "photos:*") l); cbn in *; try done
       end.
Qed.

Lemma no_matching_keys {V} (m : gmap string V) (pattern k : string) :
  List.filter (Js.glob pattern) (elements (dom m)) = [] →
  m !! k = if Js.glob pattern k then None else m !! k.
Proof.
  intros E. pose proof (lookup_without_keys m pattern k) as H.
  by rewrite E in H.
Qed.

Lemma deletePhoto_success (request : HttpRequest) (w : World) :
  status (deletePhotoHandler request w).1 = 204 →
  ∃ id photo,
    Js.present (params request !! "id") = Some id
    ∧ item_read photo_key id id (photos w) = Some photo
    ∧ photos (deletePhotoHandler request w).2
      = List.filter (λ x, negb (addressed photo_key id id x)) (photos w)
    ∧ ∀ k, cache (deletePhotoHandler request w).2 !! k
           = if Js.glob "photos:*" k || bool_decide (k = CACHE_KEYS.photo id)
             then None else cache w !! k.
Proof.
  handler_wp deletePhotoHandler
    (λ r w',
       status r = 204 →
       ∃ id photo,
         Js.present (params request !! "id") = Some id
         ∧ item_read photo_key id id (photos w) = Some photo
         ∧ photos w'
           = List.filter (λ x, negb (addressed photo_key id id x)) (photos w)
         ∧ ∀ k, cache w' !! k
                = if Js.glob "photos:*" k || bool_decide (k = CACHE_KEYS.photo id)
                  then None else cache w !! k).
  wp_run; try discriminate.
  all: intros _.
  all: match goal with
       | H : item_delete _ _ _ _ = Some _ |- _ => apply item_delete_Some in H as ->
       end.
  all: do 2 eexists; repeat split_and; try eassumption; try reflexivity.
  all: intros k.
  all: try rewrite lookup_without_keys.
  all: try rewrite (no_matching_keys (delete _ (cache w)) "photos:*" k)
         by (by destruct (List.filter _ _)).
  all: match goal with
       | |- context [bool_decide (?a = ?b)] =>
           destruct (decide (a = b)) as [->|Hne];
           [ rewrite bool_decide_eq_true_2, lookup_delete_eq by done
           | rewrite bool_decide_eq_false_2, lookup_delete_ne by done ]
       end.
  all: by destruct (Js.glob "photos:*" _).
Qed.

(** ** What a write invalidates *)

Lemma glob_star (s : string) : Js.glob "*" s = true.
Proof.
  induction s as [|c s IH]; [reflexivity|].
  change (Js.glob "*" (String c s))
    with (String.eqb (String c s) "" || Js.glob "*" s).
  by rewrite IH, orb_true_r.
Qed.

Lemma glob_pages (page : option Z) :
  Js.glob "photos:*" (CACHE_KEYS.photos page) = true.
Proof.
  change (Js.glob "*" ("page:" +:+ from_option pretty "NaN" page) = true).
  apply glob_star.
Qed.

Lemma append_eq_self (s t : string) : s +:+ t = s → t = "".
Proof. induction s as [|c s IH]; cbn; [done|]. intros [= E]. auto. Qed.

Lemma glob_not_pages (rest : string) : Js.glob "photos:*" ("photo:" +:+ rest) = false.
Proof. reflexivity. Qed.

(** X6. A successful like or unlike removes from the cache the like count
    and the single-photo entry of the photo, and a successful comment
    creation or deletion removes the comment list of the photo; every other
    cache entry stays, cached list pages included. *)
Theorem writes_invalidate_their_keys (m : Mutation) (request : HttpRequest)
    (w : World) :
  status (handler m request w).1 = success_status m →
  match m with
  | Like_ | Unlike_ =>
      ∃ photoId,
        Js.present (params request !! "photoId") = Some photoId
        ∧ cache (handler m request w).2
          = delete (CACHE_KEYS.photo photoId)
              (delete (CACHE_KEYS.photoLikes photoId) (cache w))
  | CreateComment_ =>
      ∃ photoId,
        Js.present (params request !! "photoId") = Some photoId
        ∧ cache (handler m request w).2
          = delete (CACHE_KEYS.photoComments photoId) (cache w)
  | DeleteComment_ =>
      ∃ commentId comment rest,
        Js.present (params request !! "id") = Some commentId
        ∧ comment_by_id commentId (comments w) = comment :: rest
        ∧ cache (handler m request w).2
          = delete (CACHE_KEYS.photoComments (comment_photoId comment)) (cache w)
  | CreatePhoto_ | DeletePhoto_ => True
  end.
Proof.
  destruct m; cbn [handler success_status]; intros Hok; [| | | |done|done].
  - destruct (likePhoto_success request w Hok) as (photoId & ? & ? & H).
    decompose [and] H. eauto.
  - destruct (unlikePhoto_success request w Hok) as (photoId & ? & ? & ? & H).
    decompose [and] H. eauto.
  - destruct (createComment_success request w Hok) as (photoId & ? & ? & ? & H).
    decompose [and] H. eauto.
  - destruct (deleteComment_success request w Hok) as (commentId & ? & c & rest & H).
    decompose [and] H. eauto 6.
Qed.

Lemma writes_invalidate_their_keys_witness :
  ∃ photoId,
    Js.present (params Sample.like_by_eve !! "photoId") = Some photoId
    ∧ cache (likePhoto Sample.like_by_eve Sample.world_warm).2
      = delete (CACHE_KEYS.photo photoId)
          (delete (CACHE_KEYS.photoLikes photoId) (cache Sample.world_warm)).
Proof.
  exact (writes_invalidate_their_keys Like_ Sample.like_by_eve Sample.world_warm
           eq_refl).
Defined.

(** X7. A successful photo creation or deletion removes every cached list
    page; a deletion also removes the single-photo entry of the photo. The
    single-photo entries of other photos stay, and so do all cached like
    counts and comment lists, those of a deleted photo included. *)
Theorem photo_writes_invalidate_pages (request : HttpRequest) (w : World) :
  (status (createPhoto request w).1 = 201 →
   (∀ page, cache (createPhoto request w).2 !! CACHE_KEYS.photos page = None)
   ∧ ∀ id,
       cache (createPhoto request w).2 !! CACHE_KEYS.photo id
       = cache w !! CACHE_KEYS.photo id
       ∧ cache (createPhoto request w).2 !! CACHE_KEYS.photoLikes id
         = cache w !! CACHE_KEYS.photoLikes id
       ∧ cache (createPhoto request w).2 !! CACHE_KEYS.photoComments id
         = cache w !! CACHE_KEYS.photoComments id)
  ∧ (status (deletePhotoHandler request w).1 = 204 →
     ∃ deleted,
       Js.present (params request !! "id") = Some deleted
       ∧ (∀ page,
            cache (deletePhotoHandler request w).2 !! CACHE_KEYS.photos page = None)
       ∧ cache (deletePhotoHandler request w).2 !! CACHE_KEYS.photo deleted = None
       ∧ cache (deletePhotoHandler request w).2 !! CACHE_KEYS.photoLikes deleted
         = cache w !! CACHE_KEYS.photoLikes deleted
       ∧ cache (deletePhotoHandler request w).2 !! CACHE_KEYS.photoComments deleted
         = cache w !! CACHE_KEYS.photoComments deleted
       ∧ ∀ id,
           id ≠ deleted →
           cache (deletePhotoHandler request w).2 !! CACHE_KEYS.photo id
           = cache w !! CACHE_KEYS.photo id).
Proof.
  split; intros Hok.
  - destruct (createPhoto_success request w Hok) as (? & ? & ? & H).
    destruct H as (_ & _ & _ & _ & _ & _ & _ & _ & Hc).
    split.
    + intros page. by rewrite Hc, glob_pages.
    + intros id. rewrite !Hc. done.
  - destruct (deletePhoto_success request w Hok) as (id & ? & ? & _ & _ & Hc).
    exists id. split; [done|]. repeat split_and.
    + intros page. by rewrite Hc, glob_pages.
    + rewrite Hc. by rewrite bool_decide_eq_true_2, orb_true_r.
    + rewrite Hc. change (CACHE_KEYS.photoLikes id) with ("photo:" +:+ id +:+ ":likes").
      rewrite glob_not_pages, bool_decide_eq_false_2; [done|].
      unfold CACHE_KEYS.photo. intros [= E].
      by apply (append_eq_self id) in E.
    + rewrite Hc.
      change (CACHE_KEYS.photoComments id) with ("photo:" +:+ id +:+ ":comments").
      rewrite glob_not_pages, bool_decide_eq_false_2; [done|].
      unfold CACHE_KEYS.photo. intros [= E].
      by apply (append_eq_self id) in E.
    + intros id' Hne. rewrite Hc. unfold CACHE_KEYS.photo at 1.
      rewrite glob_not_pages, bool_decide_eq_false_2; [done|].
      unfold CACHE_KEYS.photo. intros [= E]. done.
Qed.

Lemma photo_writes_invalidate_pages_witness :
  cache (createPhoto Sample.anonymous_upload Sample.world_paged).2
    !! CACHE_KEYS.photos (Some 1) = None.
Proof.
  exact (proj1 (proj1 (photo_writes_invalidate_pages Sample.anonymous_upload
                         Sample.world_paged) eq_refl) (Some 1)).
Defined.

(** ** Reading after writing *)

Lemma getLikes_miss_exact (w : World) (request : HttpRequest)
    (photoId userId : string) :
  Js.present (params request !! "photoId") = Some photoId →
  Js.present (headers request !! "x-user-id") = Some userId →
  cache w !! CACHE_KEYS.photoLikes photoId = None →
  cache_up w → store_up w →
  (getLikes request w).1
  = mkResponse 200
      (Some (JLikeStatus (JNum (count_likes photoId (likes w)))
               (0 <? length (likes_of photoId userId (likes w)))%nat)).
Proof.
  intros Hp Hu Hmiss Hc Hs.
  handler_wp getLikes
    (λ r (_ : World),
       r = mkResponse 200
             (Some (JLikeStatus (JNum (count_likes photoId (likes w)))
                      (0 <? length (likes_of photoId userId (likes w)))%nat))).
  rewrite Hp, Hu.
  wp_run; rewrite Hmiss in *; cbn in *; done.
Qed.

Lemma count_likes_app (photoId : string) (l1 l2 : list Like) :
  count_likes photoId (l1 ++ l2) = count_likes photoId l1 + count_likes photoId l2.
Proof. unfold count_likes. rewrite List.filter_app, length_app. lia. Qed.

Lemma likes_of_app (photoId userId : string) (l1 l2 : list Like) :
  likes_of photoId userId (l1 ++ l2)
  = likes_of photoId userId l1 ++ likes_of photoId userId l2.
Proof. unfold likes_of. apply List.filter_app. Qed.

Lemma likes_of_new (w : World) (photoId userId : string) :
  likes_of photoId userId [new_like w photoId userId] = [new_like w photoId userId].
Proof. unfold likes_of. cbn. by rewrite !String.eqb_refl. Qed.

Lemma count_likes_new (w : World) (photoId userId : string) :
  count_likes photoId [new_like w photoId userId] = 1.
Proof. unfold count_likes. cbn. by rewrite String.eqb_refl. Qed.

(** X8. After a successful like, a like-count read by the same caller for
    the same photo is served from the store, not from the cache: it reports
    one like more than were stored before, and that the caller has liked
    the photo. *)
Theorem like_then_getLikes (request : HttpRequest) (w : World) :
  status (likePhoto request w).1 = 201 →
  cache_up w → store_up w →
  ∃ photoId,
    Js.present (params request !! "photoId") = Some photoId
    ∧ (getLikes request (likePhoto request w).2).1
      = mkResponse 200
          (Some (JLikeStatus (JNum (count_likes photoId (likes w) + 1)) true)).
Proof.
  intros Hok Hc Hs.
  destruct (likePhoto_success request w Hok) as (photoId & userId & photo & H).
  destruct H as (Hp & Hu & _ & Hnone & _ & _ & Hl & _ & Hcache).
  destruct (same_services_up _ _ (handlers_keep_services (Mutate_ Like_) request w))
    as (Hs' & Hc' & _).
  exists photoId. split; [done|].
  rewrite (getLikes_miss_exact _ request photoId userId); auto.
  - cbn [handler run_handler]. rewrite Hl, count_likes_app, likes_of_app.
    rewrite Hnone, likes_of_new, count_likes_new. done.
  - cbn [handler run_handler]. rewrite Hcache.
    rewrite lookup_delete. case_decide; [done|]. apply lookup_delete_eq.
Qed.

Lemma like_then_getLikes_witness :
  ∃ photoId,
    Js.present (params Sample.like_by_eve !! "photoId") = Some photoId
    ∧ (getLikes Sample.like_by_eve (likePhoto Sample.like_by_eve Sample.world_warm).2).1
      = mkResponse 200
          (Some (JLikeStatus (JNum (count_likes photoId (likes Sample.world_warm) + 1))
                   true)).
Proof.
  assert (Hup : ∀ e : Event, faulty Sample.world_warm e = false) by reflexivity.
  exact (like_then_getLikes Sample.like_by_eve Sample.world_warm eq_refl
           (λ e _, Hup e) (λ e _, Hup e)).
Defined.

Lemma filter_fresh {D} (f : D → bool) (docs : list D) :
  existsb f docs = false → List.filter (λ x, negb (f x)) docs = docs.
Proof.
  induction docs as [|x docs IH]; cbn; [done|].
  intros [Hx Hd]%orb_false_iff. rewrite Hx. cbn. f_equal. auto.
Qed.

(** An unlike goes through: the caller's like is found under the partition
    key the handler passes, and the services answer. *)
Lemma unlikePhoto_ok (w : World) (request : HttpRequest)
    (photoId userId : string) (like : Like) (rest : list Like) :
  Js.present (params request !! "photoId") = Some photoId →
  Js.present (headers request !! "x-user-id") = Some userId →
  likes_of photoId userId (likes w) = like :: rest →
  existsb (addressed (like_key (likes_pk w)) (like_id like) (like_photoId like))
    (likes w) = true →
  store_up w → cache_up w →
  (unlikePhoto request w).1
  = mkResponse 200
      (Some (JLikeResult true
               (from_option (λ p, Z.max 0 (photo_likes p - 1)) 0
                  (item_read photo_key photoId photoId (photos w)))))
  ∧ likes (unlikePhoto request w).2
    = List.filter
        (λ x, negb (addressed (like_key (likes_pk w)) (like_id like)
                      (like_photoId like) x)) (likes w)
  ∧ photos (unlikePhoto request w).2
    = match item_read photo_key photoId photoId (photos w) with
      | Some photo =>
          items_upsert photo_key
            (set_photo_likes (Z.max 0 (photo_likes photo - 1)) photo) (photos w)
      | None => photos w
      end.
Proof.
  intros Hp Hu Hfound Hex Hs Hc.
  assert (Hdel : item_delete (like_key (likes_pk w)) (like_id like)
                   (like_photoId like) (likes w)
                 = Some (List.filter
                           (λ x, negb (addressed (like_key (likes_pk w))
                                         (like_id like) (like_photoId like) x))
                           (likes w))).
  { unfold item_delete. by rewrite Hex. }
  handler_wp unlikePhoto
    (λ r w',
       r = mkResponse 200
             (Some (JLikeResult true
                      (from_option (λ p, Z.max 0 (photo_likes p - 1)) 0
                         (item_read photo_key photoId photoId (photos w)))))
       ∧ likes w'
         = List.filter
             (λ x, negb (addressed (like_key (likes_pk w)) (like_id like)
                           (like_photoId like) x)) (likes w)
       ∧ photos w'
         = match item_read photo_key photoId photoId (photos w) with
           | Some photo =>
               items_upsert photo_key
                 (set_photo_likes (Z.max 0 (photo_likes photo - 1)) photo)
                 (photos w)
           | None => photos w
           end).
  rewrite Hp, Hu.
  wp_run.
  all: repeat match goal with
       | H : likes_of _ _ _ = _ :: _ |- _ =>
           rewrite Hfound in H; injection H as <- <-
       end.
  all: try (rewrite Hdel in *; discriminate).
  all: try match goal with
           | H : item_delete _ _ _ _ = Some _ |- _ =>
               rewrite Hdel in H; injection H as <-
           end.
  all: try outage.
  all: match goal with H : item_read _ _ _ _ = _ |- _ => rewrite H end; done.
Qed.

Lemma set_photo_likes_back (photo : Photo) :
  0 ≤ photo_likes photo →
  set_photo_likes (Z.max 0 (photo_likes photo + 1 - 1))
    (set_photo_likes (photo_likes photo + 1) photo) = photo.
Proof. intros H. destruct photo. unfold set_photo_likes. cbn in *. f_equal. lia. Qed.

(** X9. A like followed by an unlike of the same caller undoes itself. Where
    the Likes container is partitioned by photo id, as the unlike handler
    addresses it, the services answer and the stored count was not
    negative: after a successful like, the unlike answers 200 with the
    count the photo had before, the Likes container is what it was, and the
    photo reads back as it was stored before. *)
Theorem like_then_unlike (request : HttpRequest) (w : World) :
  status (likePhoto request w).1 = 201 →
  (∀ l, likes_pk w l = like_photoId l) →
  likes_nonneg w →
  store_up w → cache_up w →
  ∃ photoId photo,
    Js.present (params request !! "photoId") = Some photoId
    ∧ item_read photo_key photoId photoId (photos w) = Some photo
    ∧ (unlikePhoto request (likePhoto request w).2).1
      = mkResponse 200 (Some (JLikeResult true (photo_likes photo)))
    ∧ likes (unlikePhoto request (likePhoto request w).2).2 = likes w
    ∧ item_read photo_key photoId photoId
        (photos (unlikePhoto request (likePhoto request w).2).2)
      = Some photo.
Proof.
  intros Hok Hpk Hnn Hs Hc.
  destruct (likePhoto_success request w Hok) as (photoId & userId & photo & H).
  destruct H as (Hp & Hu & Hphoto & Hnone & Hfresh & _ & Hl & Hph & _).
  pose proof (handlers_keep_services (Mutate_ Like_) request w) as Hsame.
  destruct (same_services_up _ _ Hsame) as (Hs' & Hc' & _).
  destruct Hsame as (_ & Hpk' & _). cbn [run_handler handler] in *.
  set (w1 := (likePhoto request w).2) in *.
  assert (Hfound : likes_of photoId userId (likes w1) = [new_like w photoId userId]).
  { rewrite Hl, likes_of_app, Hnone, likes_of_new. done. }
  assert (Hread : item_read photo_key photoId photoId (photos w1)
                  = Some (set_photo_likes (photo_likes photo + 1) photo)).
  { rewrite Hph. by apply item_read_photo_upsert. }
  assert (Hnew : addressed (like_key (likes_pk w)) (uuids w (next_uuid w)) photoId
                   (new_like w photoId userId) = true).
  { unfold addressed, like_key. apply bool_decide_eq_true. by rewrite Hpk. }
  rewrite Hpk in Hfresh. cbn in Hfresh.
  destruct (unlikePhoto_ok w1 request photoId userId _ [] Hp Hu Hfound)
    as (Hr & Hl2 & Hph2); auto.
  { rewrite Hpk', Hl, existsb_app. cbn. by rewrite Hnew, orb_true_r. }
  exists photoId, photo. repeat split_and; try done.
  - rewrite Hr, Hread. cbn. do 3 f_equal.
    assert (0 ≤ photo_likes photo); [|lia].
    destruct (item_read_addressed _ _ _ _ _ Hphoto) as [Hin _].
    unfold likes_nonneg in Hnn. rewrite List.Forall_forall in Hnn. auto.
  - rewrite Hl2, Hpk', Hl, List.filter_app. cbn. rewrite Hnew. cbn.
    rewrite app_nil_r. by apply filter_fresh.
  - rewrite Hph2, Hread.
    rewrite (item_read_photo_upsert _ _ _ _ Hread). f_equal.
    apply set_photo_likes_back.
    destruct (item_read_addressed _ _ _ _ _ Hphoto) as [Hin _].
    unfold likes_nonneg in Hnn. rewrite List.Forall_forall in Hnn. auto.
Qed.

Lemma like_then_unlike_witness :
  ∃ photoId photo,
    Js.present (params Sample.like_by_eve !! "photoId") = Some photoId
    ∧ item_read photo_key photoId photoId (photos Sample.world) = Some photo
    ∧ (unlikePhoto Sample.like_by_eve (likePhoto Sample.like_by_eve Sample.world).2).1
      = mkResponse 200 (Some (JLikeResult true (photo_likes photo)))
    ∧ likes (unlikePhoto Sample.like_by_eve
               (likePhoto Sample.like_by_eve Sample.world).2).2
      = likes Sample.world
    ∧ item_read photo_key photoId photoId
        (photos (unlikePhoto Sample.like_by_eve
                   (likePhoto Sample.like_by_eve Sample.world).2).2)
      = Some photo.
Proof.
  assert (Hup : ∀ e : Event, faulty Sample.world e = false) by reflexivity.
  refine (like_then_unlike Sample.like_by_eve Sample.world eq_refl
            (λ l, eq_refl) _ (λ e _, Hup e) (λ e _, Hup e)).
  unfold likes_nonneg, Sample.world, Sample.ada. cbn.
  constructor; [cbn; lia | constructor].
Defined.

Lemma present_inv (o : option string) (s : string) :
  Js.present o = Some s → o = Some s ∧ s ≠ "".
Proof.
  unfold Js.present, Js.truthy. destruct o as [t|]; [|discriminate].
  destruct (String.eqb_spec t ""); cbn; [discriminate|].
  intros [= ->]. auto.
Qed.

Lemma if_cached_deleted (m : gmap string (Payload * Z)) (key : string) :
  m !! key = None → if_cached (fst <$> m !! key) = None.
Proof. by intros ->. Qed.

(** X10. A comment that was just created is in the next comment list read
    for its photo: the read is served from the store, which holds the
    comments the photo had and the new one, still newest first. *)
Theorem createComment_then_getComments (request : HttpRequest) (w : World) :
  status (createComment request w).1 = 201 →
  cache_up w → store_up w →
  ∃ photoId c cs,
    Js.present (params request !! "photoId") = Some photoId
    ∧ jsonBody (createComment request w).1 = Some (JComment c)
    ∧ (getComments request (createComment request w).2).1
      = mkResponse 200 (Some (JComments cs))
    ∧ In c cs
    ∧ cs ≡ₚ c :: List.filter (λ x, String.eqb (comment_photoId x) photoId)
                    (comments w)
    ∧ StronglySorted (λ a b, comment_createdAt b ≤ comment_createdAt a) cs.
Proof.
  intros Hok Hc Hs.
  destruct (createComment_success request w Hok)
    as (photoId & userId & content & photo & H).
  destruct H as (Hp & Hu & _ & _ & _ & Hr & Hcs & Hcache).
  destruct (same_services_up _ _
              (handlers_keep_services (Mutate_ CreateComment_) request w))
    as (Hs' & Hc' & _).
  cbn [run_handler handler] in *.
  destruct (present_inv _ _ Hp) as [Hp' Hne].
  destruct (getComments_miss (createComment request w).2 request photoId)
    as [Hget _]; auto.
  { apply if_cached_deleted. rewrite Hcache. apply lookup_delete_eq. }
  assert (Hperm : comments_of photoId (comments (createComment request w).2)
                  ≡ₚ new_comment w request photoId userId content
                     :: List.filter (λ x, String.eqb (comment_photoId x) photoId)
                          (comments w)).
  { rewrite comments_of_perm, Hcs, List.filter_app. cbn.
    rewrite String.eqb_refl. by rewrite Permutation_app_comm. }
  exists photoId, (new_comment w request photoId userId content),
    (comments_of photoId (comments (createComment request w).2)).
  repeat split_and; try done.
  - by rewrite Hr.
  - apply list_elem_of_In. rewrite Hperm. by left.
  - apply comments_of_sorted.
Qed.

Lemma createComment_then_getComments_witness :
  ∃ photoId c cs,
    Js.present (params Sample.comment_by_bob !! "photoId") = Some photoId
    ∧ jsonBody (createComment Sample.comment_by_bob Sample.world).1
      = Some (JComment c)
    ∧ (getComments Sample.comment_by_bob
         (createComment Sample.comment_by_bob Sample.world).2).1
      = mkResponse 200 (Some (JComments cs))
    ∧ In c cs
    ∧ cs ≡ₚ c :: List.filter (λ x, String.eqb (comment_photoId x) photoId)
                    (comments Sample.world)
    ∧ StronglySorted (λ a b, comment_createdAt b ≤ comment_createdAt a) cs.
Proof.
  assert (Hup : ∀ e : Event, faulty Sample.world e = false) by reflexivity.
  exact (createComment_then_getComments Sample.comment_by_bob Sample.world
           eq_refl (λ e _, Hup e) (λ e _, Hup e)).
Defined.

(** X11. After a successful photo deletion, a read of that photo is
    answered 404: its cache entry is gone and the store no longer has
    it. *)
Theorem deletePhoto_then_getPhoto (request : HttpRequest) (w : World) :
  status (deletePhotoHandler request w).1 = 204 →
  cache_up w → store_up w →
  status (getPhoto request (deletePhotoHandler request w).2).1 = 404.
Proof.
  intros Hok Hc Hs.
  destruct (deletePhoto_success request w Hok) as (id & photo & Hp & _ & Hph & Hcache).
  destruct (same_services_up _ _
              (handlers_keep_services (Mutate_ DeletePhoto_) request w))
    as (Hs' & Hc' & _).
  cbn [run_handler handler] in *.
  destruct (present_inv _ _ Hp) as [Hp' Hne].
  apply (getPhoto_absent _ request id); auto.
  - apply if_cached_deleted. rewrite Hcache.
    by rewrite bool_decide_eq_true_2, orb_true_r.
  - rewrite Hph. apply item_read_deleted.
Qed.

Lemma deletePhoto_then_getPhoto_witness :
  status (getPhoto Sample.delete_by_ada
            (deletePhotoHandler Sample.delete_by_ada Sample.world).2).1 = 404.
Proof.
  assert (Hup : ∀ e : Event, faulty Sample.world e = false) by reflexivity.
  exact (deletePhoto_then_getPhoto Sample.delete_by_ada Sample.world eq_refl
           (λ e _, Hup e) (λ e _, Hup e)).
Defined.

Lemma find_app_none {D} (f : D → bool) (docs more : list D) :
  List.find f docs = None → List.find f (docs ++ more) = List.find f more.
Proof.
  induction docs as [|d docs IH]; cbn; [done|].
  destruct (f d); [discriminate | exact IH].
Qed.

(** X12. A photo that was just created can be read back: when its new id
    is not empty and nothing was cached under its key, a single-photo read
    for that id answers 200 with the very record the creation returned. *)
Theorem createPhoto_then_getPhoto (request read : HttpRequest) (w : World) :
  status (createPhoto request w).1 = 201 →
  params read !! "id" = Some (uuids w (next_uuid w)) →
  uuids w (next_uuid w) ≠ "" →
  cache w !! CACHE_KEYS.photo (uuids w (next_uuid w)) = None →
  cache_up w → store_up w →
  ∃ photo,
    jsonBody (createPhoto request w).1 = Some (JPhoto photo)
    ∧ photo_id photo = uuids w (next_uuid w)
    ∧ photo_likes photo = 0
    ∧ (getPhoto read (createPhoto request w).2).1
      = mkResponse 200 (Some (JPhoto photo)).
Proof.
  intros Hok Hid Hne Hnone Hc Hs.
  destruct (createPhoto_success request w Hok) as (form & file & title & H).
  destruct H as (_ & _ & _ & _ & Hfresh & Hr & Hph & _ & Hcache).
  destruct (same_services_up _ _
              (handlers_keep_services (Mutate_ CreatePhoto_) request w))
    as (Hs' & Hc' & _).
  cbn [run_handler handler] in *.
  exists (new_photo w request form file title).
  split; [by rewrite Hr|]. split; [done|]. split; [done|].
  apply (getPhoto_miss _ read (uuids w (next_uuid w))); auto.
  - apply if_cached_deleted. rewrite Hcache. unfold CACHE_KEYS.photo at 1.
    by rewrite glob_not_pages.
  - rewrite Hph. unfold item_read in *. rewrite (find_app_none _ _ _ Hfresh).
    cbn. unfold addressed, photo_key. cbn. by rewrite bool_decide_eq_true_2.
Qed.

Lemma createPhoto_then_getPhoto_witness :
  ∃ photo,
    jsonBody (createPhoto Sample.upload_by_ada Sample.world).1 = Some (JPhoto photo)
    ∧ photo_id photo = "uuid-0"
    ∧ photo_likes photo = 0
    ∧ (getPhoto (Sample.request [("id", "uuid-0")] [])
         (createPhoto Sample.upload_by_ada Sample.world).2).1
      = mkResponse 200 (Some (JPhoto photo)).
Proof.
  assert (Hup : ∀ e : Event, faulty Sample.world e = false) by reflexivity.
  assert (Hne : uuids Sample.world (next_uuid Sample.world) ≠ "") by discriminate.
  exact (createPhoto_then_getPhoto Sample.upload_by_ada
           (Sample.request [("id", "uuid-0")] []) Sample.world
           eq_refl eq_refl Hne eq_refl (λ e _, Hup e) (λ e _, Hup e)).
Defined.

(** ** One like per user and photo *)

Lemma NoDup_map_filter {A B} (f : A → B) (p : A → bool) (l : list A) :
  NoDup (map f l) → NoDup (map f (List.filter p l)).
Proof.
  induction l as [|x l IH]; cbn; [done|].
  intros [Hx Hl]%NoDup_cons. destruct (p x); cbn; [|auto].
  apply NoDup_cons. split; [|auto].
  intros (y & Hy & Hin)%list_elem_of_In%in_map_iff. apply Hx.
  apply list_elem_of_In, in_map_iff. exists y. split; [done|].
  by apply filter_In in Hin as [? _].
Qed.

Lemma NoDup_map_snoc {A B} (f : A → B) (l : list A) (d : A) :
  NoDup (map f l) → (∀ x, In x l → f x ≠ f d) → NoDup (map f (l ++ [d])).
Proof.
  intros Hl Hd. rewrite map_app. apply NoDup_app. split; [done|]. split.
  - intros b (x & <- & Hx)%list_elem_of_In%in_map_iff [E|[]%elem_of_nil]%elem_of_cons.
    by apply (Hd x).
  - cbn. apply NoDup_singleton.
Qed.

Lemma likes_of_at_most_one (P U : string) (ls : list Like) :
  NoDup (map (λ l, (like_photoId l, like_userId l)) ls) →
  (length (likes_of P U ls) ≤ 1)%nat.
Proof.
  unfold likes_of. induction ls as [|x ls IH]; cbn; [lia|].
  intros [Hx Hls]%NoDup_cons.
  destruct (String.eqb_spec (like_photoId x) P) as [HP|]; cbn; [|auto].
  destruct (String.eqb_spec (like_userId x) U) as [HU|]; cbn; [|auto].
  destruct (List.filter _ ls) as [|y t] eqn:E; cbn; [lia|]. exfalso.
  assert (Hy : In y (y :: t)) by (by left).
  rewrite <- E in Hy. apply filter_In in Hy as [Hy Hb].
  apply andb_true_iff in Hb as [H1%String.eqb_eq H2%String.eqb_eq].
  apply Hx, list_elem_of_In, in_map_iff. exists y. split; [|done].
  congruence.
Qed.

Lemma run_handler_one_like (h : Handler) (request : HttpRequest) (w : World) :
  one_like_each w → one_like_each (run_handler h request w).2.
Proof.
  intros Hw.
  pose (Q := λ (_ : HttpResponseInit) (w' : World), one_like_each w').
  change (Q (run_handler h request w).1 (run_handler h request w).2).
  destruct h as [[]|[]]; cbn [run_handler reader handler];
    [ handler_wp getPhotos Q | handler_wp getPhoto Q | handler_wp getLikes Q
    | handler_wp getComments Q | handler_wp likePhoto Q | handler_wp unlikePhoto Q
    | handler_wp createComment Q | handler_wp deleteComment Q
    | handler_wp createPhoto Q | handler_wp deletePhotoHandler Q ];
    subst Q; unfold one_like_each in *; wp_run; try assumption.
  all: try match goal with
       | H : item_delete _ _ _ _ = Some _ |- _ =>
           apply item_delete_Some in H as ->; by apply NoDup_map_filter
       end.
  all: match goal with
       | H : items_create _ _ _ = Some _ |- _ =>
           apply items_create_Some in H as [-> _]
       end.
  all: apply NoDup_map_snoc; [assumption|]; cbn; intros x Hx [= HP HU].
  all: match goal with
       | H : context [likes_of ?P ?U ?ls] |- _ =>
           pose proof (likes_of_nonempty P U ls x Hx HP HU);
           by destruct (likes_of P U ls)
       end.
Qed.

(** X13. One like per user and photo. Along every history of requests to
    the handlers, whatever the services do in between, a Likes container
    that held at most one like of each user on each photo keeps doing so:
    the query of the like handlers for a photo and a user finds at most one
    record. *)
Theorem one_like_per_user (steps : list Step) (w : World) :
  one_like_each w →
  one_like_each (run_steps steps w)
  ∧ ∀ photoId userId,
      (length (likes_of photoId userId (likes (run_steps steps w))) ≤ 1)%nat.
Proof.
  intros Hw.
  assert (H : one_like_each (run_steps steps w)).
  { unfold run_steps. revert w Hw.
    induction steps as [|s steps IH]; intros w Hw; cbn; [done|].
    apply IH. destruct s; cbn [run_step]; [by apply run_handler_one_like | done]. }
  split; [done|]. intros P U. by apply likes_of_at_most_one.
Qed.

Lemma one_like_per_user_witness :
  (length (likes_of "p1" "eve" (likes (run_steps Sample.busy_day Sample.world)))
   ≤ 1)%nat.
Proof.
  refine (proj2 (one_like_per_user Sample.busy_day Sample.world _) "p1" "eve").
  unfold one_like_each. cbn. apply NoDup_singleton.
Defined.

(** ** A failed upload *)

(** X14. An upload that fails after its blob was written leaves the blob
    behind: when a well-formed upload by a creator is answered 500 although
    the blob service works, the image is in the blob container under its new
    name, and the Photos container is either unchanged or has the new
    record (when only the cache invalidation failed). *)
Theorem failed_upload_keeps_blob (request : HttpRequest) (w : World)
    (form : FormData) (file : File) (title : string) :
  headers request !! "x-user-role" = Some "creator" →
  formData request = Some form →
  form_image form = Some file →
  Js.present (form_title form) = Some title →
  blob_up w →
  status (createPhoto request w).1 = 500 →
  blobs (createPhoto request w).2
  = <[new_file_name w file := (file_bytes file, file_type file)]> (blobs w)
  ∧ (photos (createPhoto request w).2 = photos w
     ∨ photos (createPhoto request w).2
       = photos w ++ [new_photo w request form file title]).
Proof.
  intros Hrole Hform Hfile Htitle Hb.
  handler_wp createPhoto
    (λ r w',
       status r = 500 →
       blobs w' = <[new_file_name w file := (file_bytes file, file_type file)]> (blobs w)
       ∧ (photos w' = photos w
          ∨ photos w' = photos w ++ [new_photo w request form file title])).
  rewrite Hrole.
  wp_run; try discriminate.
  all: simplify_eq.
  all: intros _; split; [reflexivity|].
  all: try (left; reflexivity).
  all: right.
  all: match goal with
       | H : items_create _ _ _ = Some _ |- _ =>
           by apply items_create_Some in H as [-> _]
       end.
Qed.

Lemma failed_upload_keeps_blob_witness :
  blobs (createPhoto Sample.upload_by_ada Sample.world_store_down).2
  = <[new_file_name Sample.world_store_down Sample.sea
      := (file_bytes Sample.sea, file_type Sample.sea)]>
      (blobs Sample.world_store_down)
  ∧ (photos (createPhoto Sample.upload_by_ada Sample.world_store_down).2
     = photos Sample.world_store_down
     ∨ photos (createPhoto Sample.upload_by_ada Sample.world_store_down).2
       = photos Sample.world_store_down
         ++ [new_photo Sample.world_store_down Sample.upload_by_ada Sample.upload
               Sample.sea "Sea"]).
Proof.
  assert (Hb : blob_up Sample.world_store_down).
  { intros e He. destruct e; done. }
  exact (failed_upload_keeps_blob Sample.upload_by_ada Sample.world_store_down
           Sample.upload Sample.sea "Sea" eq_refl eq_refl eq_refl eq_refl Hb
           eq_refl).
Defined.

(** ** Pages of the photo list *)

Lemma StronglySorted_drop {A} (R : A → A → Prop) (n : nat) (l : list A) :
  StronglySorted R l → StronglySorted R (drop n l).
Proof.
  intros Hl. revert n. induction Hl as [|x l Hl IH Hx]; intros [|n]; cbn.
  - constructor.
  - constructor.
  - by constructor.
  - apply IH.
Qed.

Lemma StronglySorted_take {A} (R : A → A → Prop) (n : nat) (l : list A) :
  StronglySorted R l → StronglySorted R (take n l).
Proof.
  intros Hl. revert n. induction Hl as [|x l Hl IH Hx]; intros [|n]; cbn.
  - constructor.
  - constructor.
  - constructor.
  - constructor; [apply IH|].
    apply List.Forall_forall. intros y Hy%list_elem_of_In.
    rewrite List.Forall_forall in Hx. apply Hx, list_elem_of_In.
    eapply subseteq_take, Hy.
Qed.

Lemma photos_page_Some (page limit : Z) (request : HttpRequest) (ps : list Photo) :
  page_of request = Some page → limit_of request = Some limit →
  1 ≤ page → 0 ≤ limit →
  photos_page (offset_of request) (limit_of request) ps
  = Some (take (Z.to_nat limit)
            (drop (Z.to_nat ((page - 1) * limit))
               (order_by_createdAt_desc photo_createdAt ps))).
Proof.
  intros Hp Hl H1 H0. unfold offset_of, photos_page. rewrite Hp, Hl. cbn.
  rewrite (proj2 (Z.leb_le 0 ((page - 1) * limit))) by nia.
  by rewrite (proj2 (Z.leb_le 0 limit)).
Qed.

(** X15. A page of the photo list read from the store: for a page number
    of at least 1 and a limit of at least 0 such that the page, the limit
    and the offset [(page - 1) * limit] are safe integers, with nothing
    cached for the page, the answer is 200 with the photos at positions
    [(page - 1) * limit] up to [page * limit] of the stored photos taken
    newest first. So it has at most [limit] photos, all of them stored,
    each before the ones created earlier, and it is cached under the page
    key for 60 seconds. *)
Theorem photo_page_from_store (request : HttpRequest) (w : World) (page limit : Z) :
  page_of request = Some page → limit_of request = Some limit →
  1 ≤ page ≤ MAX_SAFE_INTEGER → 0 ≤ limit ≤ MAX_SAFE_INTEGER →
  (page - 1) * limit ≤ MAX_SAFE_INTEGER →
  if_cached (fst <$> cache w !! CACHE_KEYS.photos (Some page)) = None →
  cache_up w → store_up w →
  ∃ ps,
    (getPhotos request w).1 = mkResponse 200 (Some (JPhotos ps))
    ∧ ps = take (Z.to_nat limit)
             (drop (Z.to_nat ((page - 1) * limit))
                (order_by_createdAt_desc photo_createdAt (photos w)))
    ∧ Z.of_nat (length ps) ≤ limit
    ∧ (∀ p, In p ps → In p (photos w))
    ∧ StronglySorted (λ a b, photo_createdAt b ≤ photo_createdAt a) ps
    ∧ cache (getPhotos request w).2 !! CACHE_KEYS.photos (Some page)
      = Some (JPhotos ps, 60).
Proof.
  intros Hp Hl [H1 _] [H0 _] _ Hmiss Hc Hs.
  pose proof (photos_page_Some page limit request (photos w) Hp Hl H1 H0) as Hpage.
  rewrite <- Hp in Hmiss.
  destruct (getPhotos_miss w request _ Hmiss Hpage Hc Hs) as [Hr Hw'].
  eexists. split; [exact Hr|]. split; [reflexivity|]. repeat split_and.
  - rewrite length_take. lia.
  - intros p Hin%list_elem_of_In. apply list_elem_of_In.
    apply subseteq_take, subseteq_drop in Hin.
    unfold order_by_createdAt_desc in Hin. by rewrite merge_sort_Permutation in Hin.
  - apply StronglySorted_take, StronglySorted_drop.
    unfold order_by_createdAt_desc. apply StronglySorted_merge_sort; apply _.
  - rewrite Hw'. cbn. rewrite <- Hp. by rewrite lookup_insert_eq.
Qed.

Lemma photo_page_from_store_witness :
  ∃ ps,
    (getPhotos (Sample.page []) Sample.world).1 = mkResponse 200 (Some (JPhotos ps))
    ∧ ps = take (Z.to_nat 20)
             (drop (Z.to_nat ((1 - 1) * 20))
                (order_by_createdAt_desc photo_createdAt (photos Sample.world)))
    ∧ Z.of_nat (length ps) ≤ 20
    ∧ (∀ p, In p ps → In p (photos Sample.world))
    ∧ StronglySorted (λ a b, photo_createdAt b ≤ photo_createdAt a) ps
    ∧ cache (getPhotos (Sample.page []) Sample.world).2 !! CACHE_KEYS.photos (Some 1)
      = Some (JPhotos ps, 60).
Proof.
  assert (Hup : ∀ e : Event, faulty Sample.world e = false) by reflexivity.
  assert (H1 : 1 ≤ 1 ≤ MAX_SAFE_INTEGER) by (unfold MAX_SAFE_INTEGER; lia).
  assert (H0 : 0 ≤ 20 ≤ MAX_SAFE_INTEGER) by (unfold MAX_SAFE_INTEGER; lia).
  assert (Ho : (1 - 1) * 20 ≤ MAX_SAFE_INTEGER) by (unfold MAX_SAFE_INTEGER; lia).
  exact (photo_page_from_store (Sample.page []) Sample.world 1 20 eq_refl eq_refl
           H1 H0 Ho eq_refl (λ e _, Hup e) (λ e _, Hup e)).
Defined.

(** X16. Paging parameters the store refuses are reported as a server
    error: with nothing cached for the page, a page or a limit that is not a
    number, a negative limit, or a page below 1 with a positive limit gets
    a 500 (not a 400), and nothing is cached. *)
Theorem bad_page_is_server_error (request : HttpRequest) (w : World) :
  match page_of request, limit_of request with
  | Some page, Some limit => limit < 0 ∨ (page < 1 ∧ 0 < limit)
  | _, _ => True
  end →
  if_cached (fst <$> cache w !! CACHE_KEYS.photos (page_of request)) = None →
  (getPhotos request w).1 = error_response 500 "Failed to fetch photos"
  ∧ cache (getPhotos request w).2 = cache w.
Proof.
  intros Hbad Hmiss.
  assert (Hpage : photos_page (offset_of request) (limit_of request) (photos w) = None).
  { unfold photos_page, offset_of.
    destruct (page_of request) as [page|], (limit_of request) as [limit|]; cbn;
      try done.
    destruct (Z.leb_spec 0 ((page - 1) * limit)), (Z.leb_spec 0 limit); cbn;
      try done.
    exfalso. nia. }
  handler_wp getPhotos
    (λ r w', r = error_response 500 "Failed to fetch photos" ∧ cache w' = cache w).
  wp_run; done.
Qed.

Lemma bad_page_is_server_error_witness :
  (getPhotos (Sample.page [("page", "0")]) Sample.world).1
  = error_response 500 "Failed to fetch photos"
  ∧ cache (getPhotos (Sample.page [("page", "0")]) Sample.world).2
    = cache Sample.world.
Proof.
  refine (bad_page_is_server_error (Sample.page [("page", "0")]) Sample.world
            _ eq_refl).
  vm_compute. right. split; reflexivity.
Defined.

(** A page that was answered is in the cache, and is truthy. *)
Lemma getPhotos_answer_cached (request : HttpRequest) (w : World) :
  status (getPhotos request w).1 = 200 →
  ∃ v ttl,
    (getPhotos request w).1 = mkResponse 200 (Some v)
    ∧ cache (getPhotos request w).2 !! CACHE_KEYS.photos (page_of request)
      = Some (v, ttl)
    ∧ payload_truthy v = true.
Proof.
  handler_wp getPhotos
    (λ r w', status r = 200 →
             ∃ v ttl, r = mkResponse 200 (Some v)
                      ∧ cache w' !! CACHE_KEYS.photos (page_of request) = Some (v, ttl)
                      ∧ payload_truthy v = true).
  wp_run; try discriminate.
  - intros _.
    match goal with
    | H : if_cached _ = Some _ |- _ =>
        unfold if_cached in H;
        destruct (cache w !! CACHE_KEYS.photos (page_of request))
          as [[v ttl]|] eqn:E; cbn in H; [|discriminate H];
        destruct (payload_truthy v) eqn:Hv; [|discriminate H];
        injection H as <-
    end.
    by exists v, ttl.
  - intros _. do 2 eexists. split; [reflexivity|].
    by rewrite lookup_insert_eq.
Qed.

(** X17. The page cache does not know the limit: once a page of the photo
    list has been answered, a request for the same page number is answered
    with the same list whatever limit it asks for, as long as the entry is
    there. *)
Theorem photo_pages_ignore_limit (request again : HttpRequest) (w : World) :
  status (getPhotos request w).1 = 200 →
  page_of again = page_of request →
  cache_up w →
  (getPhotos again (getPhotos request w).2).1 = (getPhotos request w).1.
Proof.
  intros Hok Hpage Hc.
  destruct (getPhotos_answer_cached request w Hok) as (v & ttl & Hr & Hcache & Hv).
  destruct (same_services_up _ _
              (handlers_keep_services (Read_ GetPhotos_) request w))
    as (_ & Hc' & _).
  cbn [run_handler reader] in Hc'.
  rewrite <- Hpage in Hcache.
  destruct (getPhotos_hit _ again v ttl Hcache Hv) as [Hagain _].
  { by apply Hc'. }
  by rewrite Hagain, Hr.
Qed.

Lemma photo_pages_ignore_limit_witness :
  (getPhotos (Sample.page [("limit", "0")])
     (getPhotos (Sample.page [("limit", "5")]) Sample.world).2).1
  = (getPhotos (Sample.page [("limit", "5")]) Sample.world).1.
Proof.
  assert (Hup : ∀ e : Event, faulty Sample.world e = false) by reflexivity.
  exact (photo_pages_ignore_limit (Sample.page [("limit", "5")])
           (Sample.page [("limit", "0")]) Sample.world eq_refl eq_refl
           (λ e _, Hup e)).
Defined.

(** ** Stored comments *)

Lemma trimEnd_idem (s : string) : Js.trimEnd (Js.trimEnd s) = Js.trimEnd s.
Proof.
  induction s as [|c s IH]; cbn; [done|].
  destruct (Js.trimEnd s) as [|d t] eqn:E.
  - destruct (Js.is_ws c) eqn:Hc; cbn; [done|]. by rewrite Hc.
  - change (Js.trimEnd (String c (String d t)))
      with (match Js.trimEnd (String d t) with
            | EmptyString =>
                if Js.is_ws c then EmptyString else String c EmptyString
            | u => String c u
            end).
    by rewrite IH.
Qed.

Lemma trimStart_head (s : string) :
  match Js.trimStart s with
  | EmptyString => True
  | String c _ => Js.is_ws c = false
  end.
Proof.
  induction s as [|c s IH]; cbn; [done|].
  destruct (Js.is_ws c) eqn:Hc; [done|]. exact Hc.
Qed.

Lemma trimStart_trimEnd (s : string) :
  match s with
  | EmptyString => True
  | String c _ => Js.is_ws c = false
  end →
  Js.trimStart (Js.trimEnd s) = Js.trimEnd s.
Proof.
  destruct s as [|c s]; cbn; [done|]. intros Hc.
  destruct (Js.trimEnd s); cbn; rewrite ?Hc; cbn; by rewrite ?Hc.
Qed.

Lemma trim_idem (s : string) : Js.trim (Js.trim s) = Js.trim s.
Proof.
  unfold Js.trim.
  rewrite (trimStart_trimEnd (Js.trimStart s) (trimStart_head s)).
  apply trimEnd_idem.
Qed.

Lemma or_else_nonempty (o : option string) (d : string) :
  d ≠ "" → Js.or_else o d ≠ "".
Proof.
  intros Hd. unfold Js.or_else, Js.truthy. destruct o as [s|]; [|done].
  destruct (String.eqb_spec s ""); cbn; done.
Qed.

Lemma present_nonempty (o : option string) : Js.present o ≠ Some "".
Proof. intros [_ H]%present_inv. done. Qed.

Lemma Forall_item_delete {D} (key : D → string * string) (P : D → Prop)
    (id pk : string) (docs l : list D) :
  item_delete key id pk docs = Some l → Forall P docs → Forall P l.
Proof.
  intros ->%item_delete_Some Hdocs. rewrite List.Forall_forall in *.
  intros x [Hx _]%filter_In. auto.
Qed.

Lemma run_handler_comments_ok (h : Handler) (request : HttpRequest) (w : World) :
  comments_ok w → comments_ok (run_handler h request w).2.
Proof.
  intros Hw.
  pose (Q := λ (_ : HttpResponseInit) (w' : World), comments_ok w').
  change (Q (run_handler h request w).1 (run_handler h request w).2).
  destruct h as [[]|[]]; cbn [run_handler reader handler];
    [ handler_wp getPhotos Q | handler_wp getPhoto Q | handler_wp getLikes Q
    | handler_wp getComments Q | handler_wp likePhoto Q | handler_wp unlikePhoto Q
    | handler_wp createComment Q | handler_wp deleteComment Q
    | handler_wp createPhoto Q | handler_wp deletePhotoHandler Q ];
    subst Q; unfold comments_ok in *; wp_run; try assumption.
  all: try (eapply Forall_item_delete; eassumption).
  all: eapply Forall_items_create; [eassumption | assumption |].
  all: unfold comment_ok; cbn.
  all: repeat match goal with
       | H : Js.present _ = Some _ |- _ => apply present_inv in H as [_ H]
       end.
  all: repeat split_and;
         auto using or_else_nonempty, present_nonempty, trim_idem.
  all: intros E; rewrite E in *; cbn in *.
  all: match goal with H : _ || _ = false |- _ => apply orb_false_iff in H as [_ H] end.
  all: discriminate.
Qed.

(** X18. Stored comments stay well formed. Along every history of requests
    to the handlers, whatever the services do in between, a Comments
    container whose records name their photo and their author and hold a
    trimmed, non-empty content keeps such records only; so it does from an
    empty container on. *)
Theorem stored_comments_well_formed (steps : list Step) (w : World) :
  comments_ok w → comments_ok (run_steps steps w).
Proof.
  unfold run_steps. revert w.
  induction steps as [|s steps IH]; intros w Hw; cbn; [done|].
  apply IH. destruct s; cbn [run_step]; [by apply run_handler_comments_ok | done].
Qed.

Lemma stored_comments_well_formed_witness :
  comments_ok
    (run_steps [Request (Mutate_ CreateComment_) Sample.comment_by_bob;
                Request (Mutate_ CreateComment_) Sample.blank_comment_by_bob]
       (set_comments [] Sample.world)).
Proof.
  apply stored_comments_well_formed. constructor.
Defined.

(** ** Taking a like back, and what is left of a deleted photo *)

Lemma unlikePhoto_none (w : World) (request : HttpRequest) (photoId userId : string) :
  Js.present (params request !! "photoId") = Some photoId →
  Js.present (headers request !! "x-user-id") = Some userId →
  likes_of photoId userId (likes w) = [] →
  store_up w →
  (unlikePhoto request w).1 = error_response 404 "Like not found"
  ∧ store (unlikePhoto request w).2 = store w
  ∧ cache (unlikePhoto request w).2 = cache w.
Proof.
  intros Hp Hu Hnone Hs.
  handler_wp unlikePhoto
    (λ r w', r = error_response 404 "Like not found"
             ∧ store w' = store w ∧ cache w' = cache w).
  rewrite Hp, Hu. wp_run. done.
Qed.

(** X19. A like can be taken back once: when the Likes container is
    partitioned by photo and holds one like per user and photo, a second
    unlike request after a successful one is answered 404 and changes
    neither the store nor the cache. *)
Theorem unlike_then_unlike (request : HttpRequest) (w : World) :
  status (unlikePhoto request w).1 = 200 →
  (∀ l, likes_pk w l = like_photoId l) →
  one_like_each w →
  store_up w →
  (unlikePhoto request (unlikePhoto request w).2).1
  = error_response 404 "Like not found"
  ∧ store (unlikePhoto request (unlikePhoto request w).2).2
    = store (unlikePhoto request w).2
  ∧ cache (unlikePhoto request (unlikePhoto request w).2).2
    = cache (unlikePhoto request w).2.
Proof.
  intros Hok Hpk Hone Hs.
  destruct (unlikePhoto_success request w Hok)
    as (photoId & userId & like & rest & Hp & Hu & Hfound & Hlikes & _).
  destruct (same_services_up _ _
              (handlers_keep_services (Mutate_ Unlike_) request w))
    as (Hs' & _).
  cbn [run_handler handler] in Hs'.
  apply (unlikePhoto_none _ request photoId userId); auto.
  rewrite Hlikes. apply likes_of_empty.
  intros l [Hl Hkeep]%filter_In [HP HU].
  assert (Hin : In like (likes_of photoId userId (likes w))).
  { rewrite Hfound. by left. }
  unfold likes_of in Hin. apply filter_In in Hin as [Hin Hb].
  apply andb_true_iff in Hb as [HP'%String.eqb_eq HU'%String.eqb_eq].
  assert (l = like) as ->.
  { apply (NoDup_map_eq (λ l, (like_photoId l, like_userId l)) (likes w));
      [exact Hone | done | done | congruence]. }
  apply negb_true_iff, bool_decide_eq_false in Hkeep. apply Hkeep.
  unfold like_key. by rewrite Hpk.
Qed.

Lemma unlike_then_unlike_witness :
  (unlikePhoto Sample.likes_by_bob (unlikePhoto Sample.likes_by_bob Sample.world).2).1
  = error_response 404 "Like not found"
  ∧ store (unlikePhoto Sample.likes_by_bob
             (unlikePhoto Sample.likes_by_bob Sample.world).2).2
    = store (unlikePhoto Sample.likes_by_bob Sample.world).2
  ∧ cache (unlikePhoto Sample.likes_by_bob
             (unlikePhoto Sample.likes_by_bob Sample.world).2).2
    = cache (unlikePhoto Sample.likes_by_bob Sample.world).2.
Proof.
  assert (Hup : ∀ e : Event, faulty Sample.world e = false) by reflexivity.
  assert (Hone : one_like_each Sample.world).
  { unfold one_like_each. cbn. apply NoDup_singleton. }
  exact (unlike_then_unlike Sample.likes_by_bob Sample.world eq_refl
           (λ l, eq_refl) Hone (λ e _, Hup e)).
Defined.

Lemma trim_not_all_ws (s : string) : Js.all_ws s = false → Js.trim s ≠ "".
Proof.
  intros Hs.
  assert (H : ∃ c t, Js.trimStart s = String c t ∧ Js.is_ws c = false).
  { induction s as [|c s IH]; [discriminate Hs|]. cbn in *.
    destruct (Js.is_ws c) eqn:Hc; [apply IH, Hs | eauto]. }
  destruct H as (c & t & E & Hc). unfold Js.trim. rewrite E. cbn.
  destruct (Js.trimEnd t); [by rewrite Hc | done].
Qed.

Lemma likePhoto_absent (w : World) (request : HttpRequest) (photoId userId : string) :
  Js.present (params request !! "photoId") = Some photoId →
  Js.present (headers request !! "x-user-id") = Some userId →
  item_read photo_key photoId photoId (photos w) = None →
  store_up w →
  (likePhoto request w).1 = error_response 404 "Photo not found".
Proof.
  intros Hp Hu Hnone Hs.
  handler_wp likePhoto (λ r (_ : World), r = error_response 404 "Photo not found").
  rewrite Hp, Hu. wp_run; done.
Qed.

Lemma createComment_absent (w : World) (request : HttpRequest)
    (photoId userId content : string) :
  Js.present (params request !! "photoId") = Some photoId →
  Js.present (headers request !! "x-user-id") = Some userId →
  json request = Some (ContentString content) →
  Js.all_ws content = false →
  item_read photo_key photoId photoId (photos w) = None →
  store_up w →
  (createComment request w).1 = error_response 404 "Photo not found".
Proof.
  intros Hp Hu Hj Hc Hnone Hs.
  pose proof (trim_not_all_ws content Hc) as Htrim.
  handler_wp createComment
    (λ r (_ : World), r = error_response 404 "Photo not found").
  rewrite Hp, Hu. wp_run; try done.
  all: exfalso; simplify_eq.
  all: destruct content; [discriminate Hc|].
  all: cbn in *; try discriminate.
  all: destruct (Js.trim _); [done | discriminate].
Qed.

(** X20. A deleted photo takes no more likes or comments: after a
    successful deletion, a like request and a request for a comment with
    some content, by an identified caller and for the photo that was
    deleted, are answered 404. *)
Theorem deleted_photo_is_gone (request later : HttpRequest) (w : World)
    (userId content : string) :
  status (deletePhotoHandler request w).1 = 204 →
  params later !! "photoId" = params request !! "id" →
  Js.present (headers later !! "x-user-id") = Some userId →
  json later = Some (ContentString content) →
  Js.all_ws content = false →
  store_up w →
  (likePhoto later (deletePhotoHandler request w).2).1
  = error_response 404 "Photo not found"
  ∧ (createComment later (deletePhotoHandler request w).2).1
    = error_response 404 "Photo not found".
Proof.
  intros Hok Hsame Hu Hj Hc Hs.
  destruct (deletePhoto_success request w Hok) as (id & photo & Hp & _ & Hph & _).
  destruct (same_services_up _ _
              (handlers_keep_services (Mutate_ DeletePhoto_) request w))
    as (Hs' & _).
  cbn [run_handler handler] in Hs'.
  rewrite <- Hsame in Hp.
  assert (Hnone : item_read photo_key id id (photos (deletePhotoHandler request w).2)
                  = None).
  { rewrite Hph. apply item_read_deleted. }
  split.
  - apply (likePhoto_absent _ later id userId); auto.
  - apply (createComment_absent _ later id userId content); auto.
Qed.

Lemma deleted_photo_is_gone_witness :
  (likePhoto Sample.comment_by_bob
     (deletePhotoHandler Sample.delete_by_ada Sample.world).2).1
  = error_response 404 "Photo not found"
  ∧ (createComment Sample.comment_by_bob
       (deletePhotoHandler Sample.delete_by_ada Sample.world).2).1
    = error_response 404 "Photo not found".
Proof.
  assert (Hup : ∀ e : Event, faulty Sample.world e = false) by reflexivity.
  exact (deleted_photo_is_gone Sample.delete_by_ada Sample.comment_by_bob
           Sample.world "bob" "  Well done " eq_refl eq_refl eq_refl eq_refl
           eq_refl (λ e _, Hup e)).
Defined.

(** ** An upload and its deletion *)

Lemma exists_none_find {D} (f : D → bool) (docs : list D) :
  List.find f docs = None → existsb f docs = false.
Proof.
  induction docs as [|x docs IH]; cbn; [done|].
  destruct (f x); [discriminate | exact IH].
Qed.

Lemma deletePhoto_ok (w : World) (request : HttpRequest) (id : string) (photo : Photo) :
  Js.present (params request !! "id") = Some id →
  item_read photo_key id id (photos w) = Some photo →
  authorized (photo_creatorId photo) (headers request !! "x-user-id")
    (headers request !! "x-user-role") →
  store_up w → cache_up w → blob_up w →
  (deletePhotoHandler request w).1 = mkResponse 204 None
  ∧ photos (deletePhotoHandler request w).2
    = List.filter (λ x, negb (addressed photo_key id id x)) (photos w)
  ∧ blobs (deletePhotoHandler request w).2
    = match Js.present (Js.pop (Js.split "/" (photo_imageUrl photo))) with
      | Some fileName => delete fileName (blobs w)
      | None => blobs w
      end.
Proof.
  intros Hid Hphoto Hauth%authorized_guard Hs Hc Hb.
  destruct (item_read_addressed _ _ _ _ _ Hphoto) as [Hin Hkey].
  pose proof (item_delete_present photo_key id id _ photo Hin Hkey) as Hdel.
  handler_wp deletePhotoHandler
    (λ r w',
       r = mkResponse 204 None
       ∧ photos w' = List.filter (λ x, negb (addressed photo_key id id x)) (photos w)
       ∧ blobs w'
         = match Js.present (Js.pop (Js.split "/" (photo_imageUrl photo))) with
           | Some fileName => delete fileName (blobs w)
           | None => blobs w
           end).
  rewrite Hid.
  wp_run.
  all: repeat match goal with
       | H : Js.present (Js.pop _) = _ |- _ => rewrite H
       end.
  all: done.
Qed.

(** X27. An upload and its deletion. When a photo has been created and
    the caller who created it, or an admin, deletes it while the services
    answer, the answer is 204 and the Photos container is what it was
    before the upload. The blob of the upload is deleted when the last
    segment of the URL the storage client reported for it is the name of
    the blob as it is; when it is anything else (the name percent-encoded,
    the rest of a name with a slash in it, a segment with a query) the
    uploaded blob stays. *)
Theorem upload_then_delete (request del : HttpRequest) (w : World)
    (form : FormData) (file : File) :
  status (createPhoto request w).1 = 201 →
  formData request = Some form →
  form_image form = Some file →
  params del !! "id" = Some (uuids w (next_uuid w)) →
  uuids w (next_uuid w) ≠ "" →
  authorized (headers request !! "x-user-id") (headers del !! "x-user-id")
    (headers del !! "x-user-role") →
  store_up w → cache_up w → blob_up w →
  (deletePhotoHandler del (createPhoto request w).2).1 = mkResponse 204 None
  ∧ photos (deletePhotoHandler del (createPhoto request w).2).2 = photos w
  ∧ (Js.pop (Js.split "/" (blob_url w (new_file_name w file)))
     = Some (new_file_name w file) →
     blobs (deletePhotoHandler del (createPhoto request w).2).2
     = delete (new_file_name w file) (blobs w))
  ∧ (Js.pop (Js.split "/" (blob_url w (new_file_name w file)))
     ≠ Some (new_file_name w file) →
     blobs (deletePhotoHandler del (createPhoto request w).2).2
       !! new_file_name w file
     = Some (file_bytes file, file_type file)).
Proof.
  intros Hok Hform Hfile Hid Hne Hauth Hs Hc Hb.
  destruct (createPhoto_success request w Hok) as (form' & file' & title & H).
  destruct H as (_ & Hform' & Hfile' & _ & Hfresh & _ & Hph & Hbl & _).
  simplify_eq.
  destruct (same_services_up _ _
              (handlers_keep_services (Mutate_ CreatePhoto_) request w))
    as (Hs' & Hc' & Hb').
  cbn [run_handler handler] in *.
  assert (Hread : item_read photo_key (uuids w (next_uuid w)) (uuids w (next_uuid w))
                    (photos (createPhoto request w).2)
                  = Some (new_photo w request form file title)).
  { rewrite Hph. unfold item_read in *. rewrite (find_app_none _ _ _ Hfresh).
    cbn. unfold addressed, photo_key. cbn. by rewrite bool_decide_eq_true_2. }
  destruct (deletePhoto_ok (createPhoto request w).2 del (uuids w (next_uuid w))
              (new_photo w request form file title))
    as (Hr & Hph' & Hbl'); auto.
  { rewrite Hid. by apply present_Some. }
  cbn [photo_imageUrl new_photo] in Hbl'.
  assert (Hname : new_file_name w file ≠ "").
  { unfold new_file_name. by destruct (uuids w (next_uuid w)). }
  split; [exact Hr|]. repeat split_and.
  - rewrite Hph', Hph, List.filter_app. cbn.
    unfold addressed at 2, photo_key at 2. cbn. rewrite bool_decide_eq_true_2 by done.
    cbn. rewrite app_nil_r. apply filter_fresh.
    by apply exists_none_find.
  - intros Hlast. rewrite Hbl', Hlast, present_Some by done.
    rewrite Hbl. apply delete_insert_eq.
  - intros Hlast. rewrite Hbl', Hbl.
    destruct (Js.present _) as [other|] eqn:Hother.
    + apply present_inv in Hother as [Hother _].
      rewrite lookup_delete_ne by congruence. apply lookup_insert_eq.
    + apply lookup_insert_eq.
Qed.

Lemma upload_then_delete_witness :
  (deletePhotoHandler Sample.delete_upload_by_ada
     (createPhoto Sample.upload_by_ada Sample.world).2).1 = mkResponse 204 None
  ∧ photos (deletePhotoHandler Sample.delete_upload_by_ada
              (createPhoto Sample.upload_by_ada Sample.world).2).2
    = photos Sample.world
  ∧ blobs (deletePhotoHandler Sample.delete_upload_by_ada
             (createPhoto Sample.upload_by_ada Sample.world).2).2
    = delete (new_file_name Sample.world Sample.sea) (blobs Sample.world).
Proof.
  assert (Hup : ∀ e : Event, faulty Sample.world e = false) by reflexivity.
  assert (Hne : uuids Sample.world (next_uuid Sample.world) ≠ "") by discriminate.
  assert (Hauth : authorized (headers Sample.upload_by_ada !! "x-user-id")
                    (headers Sample.delete_upload_by_ada !! "x-user-id")
                    (headers Sample.delete_upload_by_ada !! "x-user-role"))
    by (left; reflexivity).
  destruct (upload_then_delete Sample.upload_by_ada Sample.delete_upload_by_ada
              Sample.world Sample.upload Sample.sea eq_refl eq_refl eq_refl
              eq_refl Hne Hauth (λ e _, Hup e) (λ e _, Hup e) (λ e _, Hup e))
    as (H1 & H2 & H3 & _).
  exact (conj H1 (conj H2 (H3 eq_refl))).
Defined.

(** ** Cached pages and later writes *)

Lemma pages_kept (m : Mutation) (request : HttpRequest) (w : World) (page : option Z) :
  on_likes_or_comments m = true →
  cache (handler m request w).2 !! CACHE_KEYS.photos page
  = cache w !! CACHE_KEYS.photos page.
Proof.
  intros Hm.
  pose (Q := λ (_ : HttpResponseInit) (w' : World),
          cache w' !! CACHE_KEYS.photos page = cache w !! CACHE_KEYS.photos page).
  change (Q (handler m request w).1 (handler m request w).2).
  destruct m; try discriminate Hm; cbn [handler];
    [ handler_wp likePhoto Q | handler_wp unlikePhoto Q
    | handler_wp createComment Q | handler_wp deleteComment Q ];
    subst Q; cbv beta; wp_run; try done.
  all: rewrite ?lookup_delete_ne; try done.
  all: unfold CACHE_KEYS.photos, CACHE_KEYS.photo, CACHE_KEYS.photoLikes,
         CACHE_KEYS.photoComments; cbn; by intros [=].
Qed.

(** X28. A cached page of the photo list outlives likes and comments: no
    request to like, unlike, comment or delete a comment removes a page
    entry, so a page that was answered is answered again with the same
    list after such a request, whatever the request changed in the store
    (the like count of a photo on the page, for one). *)
Theorem cached_page_outlives_likes (m : Mutation) (page request : HttpRequest)
    (w : World) :
  on_likes_or_comments m = true →
  status (getPhotos page w).1 = 200 →
  cache_up w →
  (getPhotos page (handler m request (getPhotos page w).2).2).1
  = (getPhotos page w).1.
Proof.
  intros Hm Hok Hc.
  destruct (getPhotos_answer_cached page w Hok) as (v & ttl & Hr & Hcache & Hv).
  rewrite <- (pages_kept m request _ _ Hm) in Hcache.
  destruct (same_services_up _ _
              (handlers_keep_services (Read_ GetPhotos_) page w))
    as (_ & Hc1 & _).
  destruct (same_services_up _ _
              (handlers_keep_services (Mutate_ m) request (getPhotos page w).2))
    as (_ & Hc2 & _).
  cbn [run_handler reader handler] in Hc1, Hc2.
  destruct (getPhotos_hit _ page v ttl Hcache Hv) as [Hagain _].
  { by apply (Hc2 (Hc1 Hc)). }
  by rewrite Hagain, Hr.
Qed.

Lemma cached_page_outlives_likes_witness :
  (getPhotos (Sample.page [])
     (likePhoto Sample.like_by_eve (getPhotos (Sample.page []) Sample.world).2).2).1
  = (getPhotos (Sample.page []) Sample.world).1.
Proof.
  assert (Hup : ∀ e : Event, faulty Sample.world e = false) by reflexivity.
  exact (cached_page_outlives_likes Like_ (Sample.page []) Sample.like_by_eve
           Sample.world eq_refl eq_refl (λ e _, Hup e)).
Defined.

(** * Further properties of the client *)

(** ** The optimistic unlike *)

Lemma includes_true (l : list string) (u : string) :
  PhotoContext.includes l u = true ↔ In u l.
Proof.
  unfold PhotoContext.includes. rewrite existsb_exists. split.
  - by intros (x & Hx & ->%String.eqb_eq).
  - intros H. exists u. by rewrite String.eqb_refl.
Qed.

Lemma includes_filtered (l : list string) (u : string) :
  PhotoContext.includes (List.filter (λ i, negb (String.eqb i u)) l) u = false.
Proof.
  apply includes_false. intros [_ H]%filter_In.
  by rewrite String.eqb_refl in H.
Qed.

Lemma with_likes_same (p : PhotoContext.Photo) :
  PhotoContext.with_likes (PhotoContext.likes p) (PhotoContext.likedBy p) p = p.
Proof. by destruct p. Qed.

Lemma unlike_revert_optimistic_at (user : PhotoContext.User)
    (photos : list PhotoContext.Photo) (i : nat) (p : PhotoContext.Photo)
    (isAzureConfigured : bool) (net : PhotoContext.Fetch) :
  photos !! i = Some p →
  PhotoContext.includes (PhotoContext.likedBy p) (PhotoContext.user_id user) = true →
  PhotoContext.photoService_unlikePhoto isAzureConfigured net = false →
  PhotoContext.unlikePhoto (Some user) (PhotoContext.id p) isAzureConfigured net
    photos !! i
  = Some (PhotoContext.with_likes (PhotoContext.likes p)
            (List.filter (λ i, negb (String.eqb i (PhotoContext.user_id user)))
               (PhotoContext.likedBy p) ++ [PhotoContext.user_id user]) p).
Proof.
  intros Hi Hu Hko.
  unfold PhotoContext.unlikePhoto. rewrite Hko.
  unfold PhotoContext.unlike_revert, PhotoContext.unlike_optimistic.
  rewrite !lookup_map, Hi. cbn. rewrite String.eqb_refl, Hu. cbn.
  rewrite String.eqb_refl. unfold PhotoContext.with_likes. cbn.
  do 2 f_equal. lia.
Qed.

(** X21. In a client signed in as U whose list shows photo P with N likes
    and U among those who liked it, [unlikePhoto(P)] leaves the photo at
    N-1 likes without U when the request goes through. When the request
    fails the photo has N likes again and U is back, as the last of those
    who liked it: the photo is exactly as it was when U was the last
    before. *)
Theorem optimistic_unlike_rollback (user : PhotoContext.User) (photoId : string)
    (photos : list PhotoContext.Photo) (i : nat) (p : PhotoContext.Photo)
    (isAzureConfigured : bool) (net : PhotoContext.Fetch) :
  photos !! i = Some p →
  PhotoContext.id p = photoId →
  PhotoContext.includes (PhotoContext.likedBy p) (PhotoContext.user_id user) = true →
  PhotoContext.includes
    (List.filter (λ i, negb (String.eqb i (PhotoContext.user_id user)))
       (PhotoContext.likedBy p)) (PhotoContext.user_id user) = false
  ∧ (PhotoContext.photoService_unlikePhoto isAzureConfigured net = true →
     PhotoContext.unlikePhoto (Some user) photoId isAzureConfigured net photos !! i
     = Some (PhotoContext.with_likes (PhotoContext.likes p - 1)
               (List.filter (λ i, negb (String.eqb i (PhotoContext.user_id user)))
                  (PhotoContext.likedBy p)) p))
  ∧ (PhotoContext.photoService_unlikePhoto isAzureConfigured net = false →
     PhotoContext.unlikePhoto (Some user) photoId isAzureConfigured net photos !! i
     = Some (PhotoContext.with_likes (PhotoContext.likes p)
               (List.filter (λ i, negb (String.eqb i (PhotoContext.user_id user)))
                  (PhotoContext.likedBy p) ++ [PhotoContext.user_id user]) p)
     ∧ ∀ others,
         PhotoContext.likedBy p = others ++ [PhotoContext.user_id user] →
         ¬ In (PhotoContext.user_id user) others →
         PhotoContext.unlikePhoto (Some user) photoId isAzureConfigured net photos !! i
         = Some p).
Proof.
  intros Hi <- Hu. split; [apply includes_filtered|]. split.
  - intros Hok. unfold PhotoContext.unlikePhoto. rewrite Hok.
    unfold PhotoContext.unlike_optimistic. rewrite lookup_map, Hi. cbn.
    by rewrite String.eqb_refl, Hu.
  - intros Hko.
    pose proof (unlike_revert_optimistic_at user photos i p isAzureConfigured net
                  Hi Hu Hko) as Hfail.
    split; [exact Hfail|]. intros others Hlast Hnot.
    rewrite Hfail, Hlast, filter_out_appended by done.
    rewrite <- Hlast. by rewrite with_likes_same.
Qed.

Lemma optimistic_unlike_rollback_witness :
  PhotoContext.unlikePhoto (Some Sample.eve) "p1" true PhotoContext.NetworkError
    [Sample.feed_photo] !! 0%nat
  = Some (PhotoContext.with_likes 2 ["dan"; "eve"] Sample.feed_photo).
Proof.
  exact (proj1 (proj2 (proj2 (optimistic_unlike_rollback Sample.eve "p1"
                                [Sample.feed_photo] 0 Sample.feed_photo true
                                PhotoContext.NetworkError eq_refl eq_refl eq_refl))
                  eq_refl)).
Defined.

(** X22. The rollbacks do not ask whether the optimistic step did
    anything. A failed like of a photo the list already shows as liked by
    the user takes that like away, N-1 likes and the user no longer among
    them; a failed unlike of a photo the user had not liked adds a like,
    N+1 likes and the user among them. *)
Theorem rollback_without_update (user : PhotoContext.User) (photoId : string)
    (photos : list PhotoContext.Photo) (i : nat) (p : PhotoContext.Photo)
    (isAzureConfigured : bool) (net : PhotoContext.Fetch) :
  photos !! i = Some p →
  PhotoContext.id p = photoId →
  (PhotoContext.includes (PhotoContext.likedBy p) (PhotoContext.user_id user) = true →
   PhotoContext.photoService_likePhoto isAzureConfigured net = false →
   PhotoContext.likePhoto (Some user) photoId isAzureConfigured net photos !! i
   = Some (PhotoContext.with_likes (PhotoContext.likes p - 1)
             (List.filter (λ i, negb (String.eqb i (PhotoContext.user_id user)))
                (PhotoContext.likedBy p)) p))
  ∧ (PhotoContext.includes (PhotoContext.likedBy p) (PhotoContext.user_id user) = false →
     PhotoContext.photoService_unlikePhoto isAzureConfigured net = false →
     PhotoContext.unlikePhoto (Some user) photoId isAzureConfigured net photos !! i
     = Some (PhotoContext.with_likes (PhotoContext.likes p + 1)
               (PhotoContext.likedBy p ++ [PhotoContext.user_id user]) p)).
Proof.
  intros Hi <-. split; intros Hu Hko.
  - unfold PhotoContext.likePhoto. rewrite Hko.
    unfold PhotoContext.like_revert, PhotoContext.like_optimistic.
    rewrite !lookup_map, Hi. cbn. rewrite String.eqb_refl, Hu. cbn.
    by rewrite String.eqb_refl.
  - unfold PhotoContext.unlikePhoto. rewrite Hko.
    unfold PhotoContext.unlike_revert, PhotoContext.unlike_optimistic.
    rewrite !lookup_map, Hi. cbn. rewrite String.eqb_refl, Hu. cbn.
    by rewrite String.eqb_refl.
Qed.

Lemma rollback_without_update_witness :
  PhotoContext.likePhoto (Some Sample.eve) "p1" true PhotoContext.NetworkError
    [Sample.feed_photo] !! 0%nat
  = Some (PhotoContext.with_likes 1 ["dan"] Sample.feed_photo).
Proof.
  exact (proj1 (rollback_without_update Sample.eve "p1" [Sample.feed_photo] 0
                  Sample.feed_photo true PhotoContext.NetworkError eq_refl eq_refl)
           eq_refl eq_refl).
Defined.

(** ** components/PhotoDetail *)

(** X23. After a failed request the like button shows the opposite of the
    list. When the button's flag agrees with the list (the user is among
    those who liked the photo exactly when the flag is set) and the request
    of a click fails, the flag is flipped although the photo in the list has
    its N likes and the user among them or not as before. *)
Theorem like_button_out_of_sync (user : PhotoContext.User)
    (photo : PhotoContext.Photo) (photos : list PhotoContext.Photo) (i : nat)
    (isLiked : bool) (isAzureConfigured : bool) (net : PhotoContext.Fetch) :
  photos !! i = Some photo →
  isLiked = PhotoDetail.isLiked_initial (Some user) photo →
  PhotoContext.photoService_likePhoto isAzureConfigured net = false →
  ∃ photo',
    (PhotoDetail.handleLike (Some user) photo isLiked isAzureConfigured net photos).2
      !! i = Some photo'
    ∧ PhotoContext.likes photo' = PhotoContext.likes photo
    ∧ PhotoDetail.isLiked_initial (Some user) photo' = isLiked
    ∧ (PhotoDetail.handleLike (Some user) photo isLiked isAzureConfigured net photos).1
      = negb (PhotoDetail.isLiked_initial (Some user) photo').
Proof.
  intros Hi Hflag Hko. cbn in Hflag. cbn [PhotoDetail.handleLike fst snd].
  destruct isLiked; symmetry in Hflag.
  - assert (Hko' : PhotoContext.photoService_unlikePhoto isAzureConfigured net = false)
      by exact Hko.
    pose proof (unlike_revert_optimistic_at user photos i photo isAzureConfigured
                  net Hi Hflag Hko') as H.
    eexists. split; [exact H|]. split; [reflexivity|].
    unfold PhotoDetail.isLiked_initial.
    cbn [PhotoContext.likedBy PhotoContext.with_likes].
    assert (Hin : PhotoContext.includes
                    (List.filter
                       (λ i, negb (String.eqb i (PhotoContext.user_id user)))
                       (PhotoContext.likedBy photo) ++ [PhotoContext.user_id user])
                    (PhotoContext.user_id user) = true).
    { apply includes_true, in_app_iff. right. by left. }
    by rewrite Hin.
  - exists photo.
    assert (H : PhotoContext.likePhoto (Some user) (PhotoContext.id photo)
                  isAzureConfigured net photos !! i = Some photo).
    { unfold PhotoContext.likePhoto. rewrite Hko.
      unfold PhotoContext.like_revert, PhotoContext.like_optimistic.
      rewrite !lookup_map, Hi.
      pose proof (like_revert_optimistic _ _ photo eq_refl Hflag) as H.
      cbn in H |- *. by injection H as ->. }
    split; [exact H|]. cbn. by rewrite Hflag.
Qed.

Lemma like_button_out_of_sync_witness :
  ∃ photo',
    (PhotoDetail.handleLike (Some Sample.bob) Sample.feed_photo false true
       PhotoContext.NetworkError [Sample.feed_photo]).2 !! 0%nat = Some photo'
    ∧ PhotoContext.likes photo' = PhotoContext.likes Sample.feed_photo
    ∧ PhotoDetail.isLiked_initial (Some Sample.bob) photo' = false
    ∧ (PhotoDetail.handleLike (Some Sample.bob) Sample.feed_photo false true
         PhotoContext.NetworkError [Sample.feed_photo]).1
      = negb (PhotoDetail.isLiked_initial (Some Sample.bob) photo').
Proof.
  exact (like_button_out_of_sync Sample.bob Sample.feed_photo [Sample.feed_photo] 0
           false true PhotoContext.NetworkError eq_refl eq_refl eq_refl).
Defined.

(** ** The optimistic comment *)

Section CommentLists.
Context (optimisticId : string) (c saved : PhotoContext.Comment).
Hypothesis c_id : PhotoContext.comment_id c = optimisticId.

Lemma drop_appended (cs : list PhotoContext.Comment) :
  List.filter (λ x, negb (String.eqb (PhotoContext.comment_id x) optimisticId))
    (cs ++ [c])
  = List.filter (λ x, negb (String.eqb (PhotoContext.comment_id x) optimisticId)) cs.
Proof.
  rewrite List.filter_app. cbn. rewrite c_id, String.eqb_refl. cbn.
  apply app_nil_r.
Qed.

Lemma drop_fresh (cs : list PhotoContext.Comment) :
  Forall (λ x, PhotoContext.comment_id x ≠ optimisticId) cs →
  List.filter (λ x, negb (String.eqb (PhotoContext.comment_id x) optimisticId)) cs
  = cs.
Proof.
  induction 1 as [|x cs Hx _ IH]; cbn; [done|].
  apply String.eqb_neq in Hx. rewrite Hx. cbn. by rewrite IH.
Qed.

Lemma confirm_appended (cs : list PhotoContext.Comment) :
  Forall (λ x, PhotoContext.comment_id x ≠ optimisticId) cs →
  map (λ x, if String.eqb (PhotoContext.comment_id x) optimisticId then saved else x)
    (cs ++ [c])
  = cs ++ [saved].
Proof.
  intros Hcs. rewrite map_app. cbn. rewrite c_id, String.eqb_refl. f_equal.
  induction Hcs as [|x cs Hx _ IH]; cbn; [done|].
  apply String.eqb_neq in Hx. rewrite Hx. by rewrite IH.
Qed.
End CommentLists.

Lemma with_comments_same (p : PhotoContext.Photo) :
  PhotoContext.with_comments (PhotoContext.comments p) p = p.
Proof. by destruct p. Qed.

(** X24. The optimistic comment. In a client signed in as U whose list
    shows photo P, [addComment(P, content)] ends, when the request fails,
    with the comments of P that do not carry the provisional id, and when
    it goes through, with the saved comment under the name and avatar of U
    after the comments P had, provided none of them carried the provisional
    id; then a failure leaves the photo exactly as it was. Without a
    configured backend the comment that stays is by U with the content
    given. *)
Theorem optimistic_comment (user : PhotoContext.User) (photoId content : string)
    (clock later : PhotoContext.Clock) (isAzureConfigured : bool)
    (net : PhotoContext.FetchComment)
    (photos : list PhotoContext.Photo) (i : nat) (p : PhotoContext.Photo) :
  photos !! i = Some p →
  PhotoContext.id p = photoId →
  (PhotoContext.photoService_addComment isAzureConfigured
     (PhotoContext.user_id user) content later net = None →
   PhotoContext.addComment (Some user) photoId content clock isAzureConfigured
     later net photos !! i
   = Some (PhotoContext.with_comments
             (List.filter
                (λ x, negb (String.eqb (PhotoContext.comment_id x)
                              ("comment-" +:+ pretty (PhotoContext.Date_now clock))))
                (PhotoContext.comments p)) p))
  ∧ (Forall (λ x, PhotoContext.comment_id x
                  ≠ "comment-" +:+ pretty (PhotoContext.Date_now clock))
       (PhotoContext.comments p) →
     (PhotoContext.photoService_addComment isAzureConfigured
        (PhotoContext.user_id user) content later net = None →
      PhotoContext.addComment (Some user) photoId content clock isAzureConfigured
        later net photos !! i = Some p)
     ∧ (∀ saved,
          PhotoContext.photoService_addComment isAzureConfigured
            (PhotoContext.user_id user) content later net = Some saved →
          PhotoContext.addComment (Some user) photoId content clock
            isAzureConfigured later net photos !! i
          = Some (PhotoContext.with_comments
                    (PhotoContext.comments p
                     ++ [PhotoContext.mkComment (PhotoContext.comment_id saved)
                           (PhotoContext.comment_userId saved)
                           (PhotoContext.user_name user)
                           (PhotoContext.user_avatar user)
                           (PhotoContext.comment_content saved)
                           (PhotoContext.comment_createdAt saved)]) p))
     ∧ (isAzureConfigured = false →
        PhotoContext.addComment (Some user) photoId content clock
          isAzureConfigured later net photos !! i
        = Some (PhotoContext.with_comments
                  (PhotoContext.comments p
                   ++ [PhotoContext.mkComment
                         ("comment-" +:+ pretty (PhotoContext.Date_now later))
                         (PhotoContext.user_id user)
                         (PhotoContext.user_name user)
                         (PhotoContext.user_avatar user)
                         content (PhotoContext.new_Date later)]) p))).
Proof.
  intros Hi <-.
  assert (Hdrop : PhotoContext.photoService_addComment isAzureConfigured
                    (PhotoContext.user_id user) content later net = None →
                  PhotoContext.addComment (Some user) (PhotoContext.id p) content
                    clock isAzureConfigured later net photos !! i
                  = Some (PhotoContext.with_comments
                            (List.filter
                               (λ x, negb (String.eqb (PhotoContext.comment_id x)
                                             ("comment-"
                                              +:+ pretty (PhotoContext.Date_now clock))))
                               (PhotoContext.comments p)) p)).
  { intros Hko. unfold PhotoContext.addComment. rewrite Hko.
    unfold PhotoContext.comment_drop, PhotoContext.comment_add.
    rewrite !lookup_map, Hi. cbn. rewrite String.eqb_refl. cbn.
    rewrite String.eqb_refl. unfold PhotoContext.with_comments. cbn.
    by rewrite (drop_appended _ (PhotoContext.optimisticComment user content clock)). }
  assert (Hsaved : ∀ saved,
             Forall (λ x, PhotoContext.comment_id x
                          ≠ "comment-" +:+ pretty (PhotoContext.Date_now clock))
               (PhotoContext.comments p) →
             PhotoContext.photoService_addComment isAzureConfigured
               (PhotoContext.user_id user) content later net = Some saved →
             PhotoContext.addComment (Some user) (PhotoContext.id p) content clock
               isAzureConfigured later net photos !! i
             = Some (PhotoContext.with_comments
                       (PhotoContext.comments p
                        ++ [PhotoContext.mkComment (PhotoContext.comment_id saved)
                              (PhotoContext.comment_userId saved)
                              (PhotoContext.user_name user)
                              (PhotoContext.user_avatar user)
                              (PhotoContext.comment_content saved)
                              (PhotoContext.comment_createdAt saved)]) p)).
  { intros saved Hfresh Hok. unfold PhotoContext.addComment. rewrite Hok.
    unfold PhotoContext.comment_confirm, PhotoContext.comment_add.
    rewrite !lookup_map, Hi. cbn. rewrite String.eqb_refl. cbn.
    rewrite String.eqb_refl. unfold PhotoContext.with_comments. cbn.
    by rewrite (confirm_appended _
                  (PhotoContext.optimisticComment user content clock) _ eq_refl _
                  Hfresh). }
  split; [exact Hdrop|]. intros Hfresh. repeat split_and.
  - intros Hko. rewrite (Hdrop Hko), drop_fresh by done.
    by rewrite with_comments_same.
  - intros saved. by apply Hsaved.
  - intros ->.
    exact (Hsaved (PhotoContext.mkComment
                     ("comment-" +:+ pretty (PhotoContext.Date_now later))
                     (PhotoContext.user_id user) "Mock User" None content
                     (PhotoContext.new_Date later)) Hfresh eq_refl).
Qed.

Lemma optimistic_comment_witness :
  PhotoContext.addComment (Some Sample.bob) "p1" "Nice" Sample.noon true Sample.noon
    PhotoContext.CommentNetworkError [Sample.feed_photo] !! 0%nat
  = Some Sample.feed_photo.
Proof.
  refine (proj1 (proj2 (optimistic_comment Sample.bob "p1" "Nice" Sample.noon
                          Sample.noon true PhotoContext.CommentNetworkError
                          [Sample.feed_photo] 0 Sample.feed_photo eq_refl eq_refl)
                   _) eq_refl).
  constructor.
Defined.

(** ** Deleting in the client *)

Lemma find_filtered_out {A} (f : A → bool) (l : list A) :
  List.find f (List.filter (λ x, negb (f x)) l) = None.
Proof.
  induction l as [|x l IH]; cbn; [done|].
  destruct (f x) eqn:E; cbn; [done|]. by rewrite E.
Qed.

Lemma find_filter_other {A} (f g : A → bool) (l : list A) :
  (∀ x, f x = true → g x = true) →
  List.find f (List.filter g l) = List.find f l.
Proof.
  intros Hfg. induction l as [|x l IH]; cbn; [done|].
  destruct (g x) eqn:Eg; cbn.
  - by rewrite IH.
  - destruct (f x) eqn:Ef; [|done]. rewrite (Hfg x Ef) in Eg. discriminate Eg.
Qed.

Lemma filter_filter_comm {A} (f g : A → bool) (l : list A) :
  List.filter f (List.filter g l) = List.filter g (List.filter f l).
Proof.
  induction l as [|x l IH]; cbn; [done|].
  destruct (f x) eqn:Ef, (g x) eqn:Eg; cbn; rewrite ?Ef, ?Eg, IH; done.
Qed.

(** X25. Deleting in the client. When [deletePhoto(P)] resolves, the user
    is signed in with the creator role (an admin is turned away before any
    request is made, the owner of the photo is not asked for), the list no
    longer has a photo with the id of P, every other id finds the photo it
    found before, and the photos of each creator are the ones they had
    without P. When it rejects, the list is as it was. *)
Theorem client_delete (user : option PhotoContext.User) (photoId : string)
    (isAzureConfigured : bool) (net : PhotoContext.Fetch)
    (photos : list PhotoContext.Photo) :
  (PhotoContext.deletePhoto user photoId isAzureConfigured net photos).1 = true →
  (∃ u, user = Some u ∧ PhotoContext.user_role u = "creator")
  ∧ PhotoContext.getPhotoById
      (PhotoContext.deletePhoto user photoId isAzureConfigured net photos).2 photoId
    = None
  ∧ (∀ other, other ≠ photoId →
       PhotoContext.getPhotoById
         (PhotoContext.deletePhoto user photoId isAzureConfigured net photos).2 other
       = PhotoContext.getPhotoById photos other)
  ∧ (∀ creator,
       PhotoContext.getPhotosByCreator
         (PhotoContext.deletePhoto user photoId isAzureConfigured net photos).2 creator
       = List.filter (λ p, negb (String.eqb (PhotoContext.id p) photoId))
           (PhotoContext.getPhotosByCreator photos creator))
  ∧ ∀ user' net',
      (PhotoContext.deletePhoto user' photoId isAzureConfigured net' photos).1 = false →
      (PhotoContext.deletePhoto user' photoId isAzureConfigured net' photos).2 = photos.
Proof.
  intros Hok. repeat split_and.
  - unfold PhotoContext.deletePhoto in Hok. destruct user as [u|]; [|discriminate].
    exists u. split; [done|].
    destruct (String.eqb_spec (PhotoContext.user_role u) "creator"); [done|].
    discriminate.
  - unfold PhotoContext.deletePhoto in *. destruct user as [u|]; [|discriminate].
    destruct (negb _); [discriminate|].
    destruct (PhotoContext.photoService_deletePhoto _ _); [|discriminate].
    cbn. unfold PhotoContext.getPhotoById.
    apply (find_filtered_out (λ p, String.eqb (PhotoContext.id p) photoId)).
  - intros other Hother.
    unfold PhotoContext.deletePhoto in *. destruct user as [u|]; [|discriminate].
    destruct (negb _); [discriminate|].
    destruct (PhotoContext.photoService_deletePhoto _ _); [|discriminate].
    cbn. unfold PhotoContext.getPhotoById. apply find_filter_other.
    intros x ->%String.eqb_eq. by apply negb_true_iff, String.eqb_neq.
  - intros creator.
    unfold PhotoContext.deletePhoto in *. destruct user as [u|]; [|discriminate].
    destruct (negb _); [discriminate|].
    destruct (PhotoContext.photoService_deletePhoto _ _); [|discriminate].
    cbn. unfold PhotoContext.getPhotosByCreator. apply filter_filter_comm.
  - intros user' net'. unfold PhotoContext.deletePhoto.
    destruct user' as [u|]; [|done]. destruct (negb _); [done|].
    by destruct (PhotoContext.photoService_deletePhoto _ _).
Qed.

Lemma client_delete_witness :
  PhotoContext.getPhotoById
    (PhotoContext.deletePhoto (Some Sample.eve) "p1" true (PhotoContext.Response true true)
       [Sample.feed_photo]).2 "p1"
  = None.
Proof.
  exact (proj1 (proj2 (client_delete (Some Sample.eve) "p1" true
                         (PhotoContext.Response true true) [Sample.feed_photo] eq_refl))).
Defined.

(** ** What the comment form sends *)

Lemma trim_empty_all_ws (s : string) : Js.trim s = "" → Js.all_ws s = true.
Proof.
  intros E. destruct (Js.all_ws s) eqn:Hs; [done|].
  by destruct (trim_not_all_ws s Hs).
Qed.

(** X26. The comment form sends nothing when nobody is signed in or the
    text is blank, and only then; what it sends is the text trimmed, which
    is not blank and which trimming again does not change. *)
Theorem submitted_comment (user : option PhotoContext.User) (comment : string) :
  (PhotoDetail.handleSubmitComment user comment = None
   ↔ user = None ∨ Js.all_ws comment = true)
  ∧ ∀ c, PhotoDetail.handleSubmitComment user comment = Some c →
         c = Js.trim comment ∧ Js.trim c = c
         ∧ blank_content (ContentString c) = false.
Proof.
  unfold PhotoDetail.handleSubmitComment, Js.truthy. split.
  - destruct (String.eqb_spec (Js.trim comment) "") as [E|E]; cbn [negb orb].
    + split; [|done]. intros _. right. by apply trim_empty_all_ws.
    + destruct (bool_decide_reflect (is_Some user)) as [Hu|Hu]; cbn [negb orb].
      * split; [done|]. intros [->|Hws]; [by destruct Hu|].
        destruct E. by apply trim_all_ws.
      * split; [|done]. intros _. left.
        destruct user; [destruct Hu; eauto | done].
  - intros c. destruct (String.eqb_spec (Js.trim comment) "") as [E|E];
      cbn [negb orb]; [done|].
    destruct (bool_decide (is_Some user)); cbn [negb orb]; [|done].
    intros [= <-]. split; [done|]. split; [apply trim_idem|].
    cbn [blank_content].
    destruct (Js.all_ws (Js.trim comment)) eqn:Hws; [|done].
    apply trim_all_ws in Hws. rewrite trim_idem in Hws. done.
Qed.
